(** * MuRaL: network architectures and the Ray-Tune training driver

    A shallow embedding of [MuRaL/nn_models.py] and of the driver
    [MuRaL/run_train_raytune.py].

    The forward passes are written once, against a [Backend]: the tensor
    type, the calls of the library layers and the tensor operations.  The
    shape backend ([ShapeBackend]) interprets a tensor by its [shape] and
    records every layer call; the real-valued interpretation of the
    element-wise operations ([RealFunctional]) is used for the fused
    output. *)

From Stdlib Require Import ZArith List String Bool Lia QArith Reals Lra.
Import ListNotations.

Local Open Scope Z_scope.

(** ** Python exceptions and results *)

Inductive exn : Type :=
| AssertionError (msg : string)
| UnboundLocalError (name : string)
| IndexError (msg : string)
| TypeError (msg : string)
| ValueError (msg : string)
| RuntimeError (msg : string)
| TuneError (msg : string)
| SystemExit (code : option Z).

Inductive result (A : Type) : Type :=
| Ok (a : A)
| Raise (e : exn).

Arguments Ok {A} a.
Arguments Raise {A} e.

Definition rbind {A B : Type} (r : result A) (k : A -> result B) : result B :=
  match r with
  | Ok a => k a
  | Raise e => Raise e
  end.

Definition rmap {A B : Type} (f : A -> B) (r : result A) : result B :=
  rbind r (fun a => Ok (f a)).

Declare Scope res_scope.
Delimit Scope res_scope with res.
Notation "x <- r ;; k" := (rbind r (fun x => k))
  (at level 61, r at next level, right associativity) : res_scope.
Notation "' pat <- r ;; k" := (rbind r (fun x => match x with pat => k end))
  (at level 61, pat pattern, r at next level, right associativity) : res_scope.

(** [[f(x) for x in xs]], for an [f] that may raise *)
Fixpoint map_result {A B : Type} (f : A -> result B) (xs : list A) : result (list B) :=
  match xs with
  | [] => Ok []
  | x :: xs' => (y <- f x ;; ys <- map_result f xs' ;; Ok (y :: ys))%res
  end.

(** A computation that may raise and that acts on a world [S] (the layer
    calls made so far, the random generator, ...).  The world survives an
    exception. *)

Definition M (S A : Type) : Type := S -> result A * S.

Definition ret {S A : Type} (a : A) : M S A := fun s => (Ok a, s).

Definition raise {S A : Type} (e : exn) : M S A := fun s => (Raise e, s).

Definition bind {S A B : Type} (m : M S A) (k : A -> M S B) : M S B :=
  fun s => match m s with
           | (Ok a, s') => k a s'
           | (Raise e, s') => (Raise e, s')
           end.

Definition lift {S A : Type} (r : result A) : M S A := fun s => (r, s).

Declare Scope M_scope.
Delimit Scope M_scope with M.
Notation "x <- m ;; k" := (bind m (fun x => k))
  (at level 61, m at next level, right associativity) : M_scope.
Notation "' pat <- m ;; k" := (bind m (fun x => match x with pat => k end))
  (at level 61, pat pattern, m at next level, right associativity) : M_scope.
Notation "x <-- r ;; k" := (bind (lift r) (fun x => k))
  (at level 61, r at next level, right associativity) : M_scope.
Notation "m ;;; k" := (bind m (fun _ => k))
  (at level 61, right associativity) : M_scope.

(** [assert cond, msg] *)
Definition assert_ {S : Type} (cond : bool) (msg : string) : M S unit :=
  if cond then ret tt else raise (AssertionError msg).

(** Reading a local variable that no executed statement has bound. *)
Definition read_local {S A : Type} (name : string) (v : option A) : M S A :=
  match v with
  | Some a => ret a
  | None => raise (UnboundLocalError name)
  end.

(** [for x in xs: acc = body(acc, x)] *)
Fixpoint for_each {S A X : Type} (xs : list X) (body : A -> X -> M S A) (acc : A)
  : M S A :=
  match xs with
  | [] => ret acc
  | x :: xs' => (acc' <- body acc x ;; for_each xs' body acc')%M
  end.

(** [[f(x) for x in xs]] *)
Fixpoint list_comp {S A X : Type} (f : X -> M S A) (xs : list X) : M S (list A) :=
  match xs with
  | [] => ret []
  | x :: xs' => (a <- f x ;; rest <- list_comp f xs' ;; ret (a :: rest))%M
  end.

(** [range(n)] *)
Definition range (n : Z) : list Z := map Z.of_nat (seq 0 (Z.to_nat n)).

(** [zip(xs, ys, zs)]: stops at the shortest argument. *)
Fixpoint zip3 {A B C : Type} (xs : list A) (ys : list B) (zs : list C)
  : list (A * B * C) :=
  match xs, ys, zs with
  | x :: xs', y :: ys', z :: zs' => (x, y, z) :: zip3 xs' ys' zs'
  | _, _, _ => []
  end.

(** [t[i]] on a tuple or list, for [i >= 0]. *)
Definition index {A : Type} (what : string) (xs : list A) (i : Z) : result A :=
  if i <? 0 then Raise (IndexError what)
  else match nth_error xs (Z.to_nat i) with
       | Some a => Ok a
       | None => Raise (IndexError what)
       end.

(** [xs[-1]] *)
Definition last_item {A : Type} (what : string) (xs : list A) : result A :=
  match rev xs with
  | a :: _ => Ok a
  | [] => Raise (IndexError what)
  end.

(** ** Library layers

    A layer is described by the arguments of its constructor; its learned
    parameters belong to the backend. *)

Inductive Module0 : Type :=
| BatchNorm1d (num_features : Z)
| Conv1d (in_channels out_channels kernel_size stride padding dilation : Z)
| MaxPool1d (kernel_size stride padding : Z)
| ReLU
| Dropout (p : Q)
| Linear (in_features out_features : Z)
| Embedding (num_embeddings embedding_dim : Z).

(** [a < b] on Python floats, here rationals. *)
Definition Qltb (a b : Q) : bool := negb (Qle_bool b a).

(** *** The constructors of the library layers

    What [nn.Embedding(...)], [nn.Linear(...)], ... check of their arguments:
    a layer with parameters allocates them with [torch.empty], which refuses
    a negative dimension (and accepts zero); [nn.Dropout] refuses a rate
    outside [[0, 1]].  [nn.MaxPool1d] and [nn.ReLU] check nothing. *)

Definition negative_dimension : exn :=
  RuntimeError "Trying to create tensor with negative dimension".

(** [nn.Embedding(num_embeddings, embedding_dim)] *)
Definition nn_Embedding (num_embeddings embedding_dim : Z) : result Module0 :=
  if (num_embeddings <? 0) || (embedding_dim <? 0) then Raise negative_dimension
  else Ok (Embedding num_embeddings embedding_dim).

(** [nn.Linear(in_features, out_features)] *)
Definition nn_Linear (in_features out_features : Z) : result Module0 :=
  if (in_features <? 0) || (out_features <? 0) then Raise negative_dimension
  else Ok (Linear in_features out_features).

(** [nn.BatchNorm1d(num_features)] *)
Definition nn_BatchNorm1d (num_features : Z) : result Module0 :=
  if num_features <? 0 then Raise negative_dimension
  else Ok (BatchNorm1d num_features).

(** [nn.Dropout(p)] *)
Definition nn_Dropout (p : Q) : result Module0 :=
  if Qltb p 0 || Qltb 1 p
  then Raise (ValueError "dropout probability has to be between 0 and 1")
  else Ok (Dropout p).

(** [nn.Conv1d(in_channels, out_channels, kernel_size, stride, padding, dilation)];
    stride, padding and dilation are looked at when the layer is called. *)
Definition nn_Conv1d (in_channels out_channels kernel_size stride padding dilation : Z)
  : result Module0 :=
  if (in_channels <? 0) || (out_channels <? 0) || (kernel_size <? 0)
  then Raise negative_dimension
  else Ok (Conv1d in_channels out_channels kernel_size stride padding dilation).

(** The element-wise mathematics used by the fusion of the branch outputs. *)
Record Functional : Type := {
  tensor : Type;
  (** [F.softmax(x, dim=1)] *)
  F_softmax1 : tensor -> result tensor;
  (** [x + y] *)
  t_add : tensor -> tensor -> result tensor;
  (** [x / c] for a Python number [c] *)
  t_div : tensor -> Z -> result tensor;
  (** [torch.clamp(x, min=m)] *)
  torch_clamp_min : tensor -> Q -> result tensor;
  (** [torch.log(x)] *)
  torch_log : tensor -> result tensor
}.

Record Backend : Type := {
  fn :> Functional;
  world : Type;
  (** [x.shape] *)
  shape : tensor fn -> list Z;
  (** [x[:, i]] *)
  select_col : tensor fn -> Z -> result (tensor fn);
  (** [x[:, :, a:b]] *)
  slice2 : tensor fn -> Z -> Z -> result (tensor fn);
  (** [torch.cat(xs, dim=1)] *)
  torch_cat1 : list (tensor fn) -> result (tensor fn);
  (** [F.relu(x)] *)
  F_relu : tensor fn -> result (tensor fn);
  (** [torch.max(x, dim=2)], the values *)
  torch_max2 : tensor fn -> result (tensor fn);
  (** the call of a library layer; the flag is the module's [training] *)
  nn_call : bool -> Module0 -> tensor fn -> M world (tensor fn);
  (** [np.random.uniform(0,1)] *)
  np_random_uniform : M world Q;
  (** [print(label, torch.min(x).item(), torch.max(x).item(), torch.var(x).item())] *)
  print_stats : string -> tensor fn -> M world unit
}.

(** [x.shape[i]] *)
Definition shape_at (B : Backend) (x : tensor B) (i : Z) : result Z :=
  index "tuple index out of range" (shape B x) i.

(** A [nn.Sequential] of library layers. *)
Definition Sequential0_call (B : Backend) (training : bool) (layers : list Module0)
  (x : tensor B) : M (world B) (tensor B) :=
  for_each layers (fun acc layer => nn_call B training layer acc) x.

(** ** ResBlock *)

Module ResBlock.

Record t : Type := {
  bn1 : Module0;
  conv1 : Module0;
  bn2 : Module0;
  conv2 : Module0;
  layer : list Module0
}.

(** The attributes that
    [ResBlock.__init__(in_channels, kernel_size, stride, padding, dilation)]
    assigns; whether the library layers accept the arguments is decided by
    [construct]. *)
Definition init (in_channels kernel_size stride padding dilation : Z) : t :=
  let bn1 := BatchNorm1d in_channels in
  let conv1 := Conv1d in_channels in_channels kernel_size stride padding dilation in
  let bn2 := BatchNorm1d in_channels in
  let conv2 := Conv1d in_channels in_channels kernel_size stride padding dilation in
  {| bn1 := bn1; conv1 := conv1; bn2 := bn2; conv2 := conv2;
     layer := [ReLU; bn1; conv1; ReLU; bn2; conv2] |}.

(** [ResBlock(in_channels, kernel_size, stride, padding, dilation)]: the
    call of the constructor, which raises what a library layer raises. *)
Definition construct (in_channels kernel_size stride padding dilation : Z) : result t :=
  (bn1 <- nn_BatchNorm1d in_channels ;;
   conv1 <- nn_Conv1d in_channels in_channels kernel_size stride padding dilation ;;
   bn2 <- nn_BatchNorm1d in_channels ;;
   conv2 <- nn_Conv1d in_channels in_channels kernel_size stride padding dilation ;;
   Ok {| bn1 := bn1; conv1 := conv1; bn2 := bn2; conv2 := conv2;
         layer := [ReLU; bn1; conv1; ReLU; bn2; conv2] |})%res.

(** The defaults of the signature:
    [in_channels=32, kernel_size=3, stride=1, padding=0, dilation=1]. *)
Definition init_default : t := init 32 3 1 0 1.

(** [ResBlock.forward] *)
Definition forward (B : Backend) (training : bool) (self : t) (x : tensor B)
  : M (world B) (tensor B) :=
  (out <- Sequential0_call B training (layer self) x ;;
   x_len <-- shape_at B x 2 ;;
   out_len <-- shape_at B out 2 ;;
   let d := x_len - out_len in
   x_head <-- slice2 B x 0 (x_len - d) ;;
   lift (t_add B x_head out))%M.

End ResBlock.

(** A [nn.Sequential] of residual blocks. *)
Definition ResBlocks_call (B : Backend) (training : bool) (blocks : list ResBlock.t)
  (x : tensor B) : M (world B) (tensor B) :=
  for_each blocks (fun acc rb => ResBlock.forward B training rb acc) x.

(** [len(xs)] *)
Definition len {A : Type} (xs : list A) : Z := Z.of_nat (List.length xs).

(** [[nn.Linear(sizes[i], sizes[i + 1]) for i in range(len(sizes) - 1)]] *)
Definition hidden_linears (sizes : list Z) : result (list Module0) :=
  map_result (fun i => nn_Linear (nth i sizes 0) (nth (S i) sizes 0))
             (seq 0 (List.length sizes - 1)).

(** [nn.Sequential(nn.BatchNorm1d(c_in), nn.Conv1d(c_in, c_out, kernel_size, 1,
    (kernel_size-1)//2))], as [conv1], [conv2], [conv1_2] and [conv2_2] of the
    network classes are built. *)
Definition conv_layers (c_in c_out kernel_size : Z) : result (list Module0) :=
  (bn <- nn_BatchNorm1d c_in ;;
   conv <- nn_Conv1d c_in c_out kernel_size 1 ((kernel_size - 1) / 2) 1 ;;
   Ok [bn; conv])%res.

(** The same with a closing [nn.ReLU()], as [conv3] and [conv3_2]. *)
Definition conv_relu_layers (c_in c_out kernel_size : Z) : result (list Module0) :=
  (bn <- nn_BatchNorm1d c_in ;;
   conv <- nn_Conv1d c_in c_out kernel_size 1 ((kernel_size - 1) / 2) 1 ;;
   Ok [bn; conv; ReLU])%res.

(** [nn.Sequential(nn.BatchNorm1d(c), nn.Dropout(p), nn.Linear(c, n_class))],
    as [distal_fc1], [distal_fc2] and the [classifier]. *)
Definition fc_layers (c : Z) (p : Q) (n_class : Z) : result (list Module0) :=
  (bn <- nn_BatchNorm1d c ;;
   dropout <- nn_Dropout p ;;
   linear <- nn_Linear c n_class ;;
   Ok [bn; dropout; linear])%res.

(** [[ResBlock(c, kernel_size=k, stride=1, padding=(k-1)//2, dilation=1)
      for x in range(2)]] *)
Definition two_ResBlocks (c k : Z) : result (list ResBlock.t) :=
  map_result (fun _ => ResBlock.construct c k 1 ((k - 1) / 2) 1) (range 2).

(** [emb_padding_idx+1], where the default of [emb_padding_idx] is [None]. *)
Definition padding_idx_plus_1 (emb_padding_idx : option Z) : result Z :=
  match emb_padding_idx with
  | Some i => Ok (i + 1)
  | None => Raise (TypeError "unsupported operand type(s) for +: 'NoneType' and 'int'")
  end.

(** The linear layers of the local branch: each takes the size the previous
    one produces. *)
Fixpoint linears_from (input : Z) (sizes : list Z) : list Module0 :=
  match sizes with
  | [] => []
  | s :: rest => Linear input s :: linears_from s rest
  end.

(** ** FeedForwardNN: the local model *)

Module FeedForwardNN.

Record t : Type := {
  n_class : Z;
  no_of_cat : Z;
  emb_layer : Module0;
  no_of_embs : Z;
  no_of_cont : Z;
  lin_layers : list Module0;
  first_bn_layer : Module0;
  bn_layers : list Module0;
  emb_dropout_layer : Module0;
  droput_layers : list Module0;
  output_layer : Module0;
  training : bool
}.

(** [FeedForwardNN.__init__]; a new module is in training mode. *)
Definition init (emb_dims : list (Z * Z)) (no_of_cont : Z) (lin_layer_sizes : list Z)
  (emb_dropout : Q) (lin_layer_dropouts : list Q) (n_class : Z)
  (emb_padding_idx : option Z) : result t :=
  (num_embeddings <- padding_idx_plus_1 emb_padding_idx ;;
   emb_layer <- nn_Embedding num_embeddings 5 ;;
   let no_of_embs := len emb_dims * 5 in
   size0 <- index "list index out of range" lin_layer_sizes 0 ;;
   first_lin_layer <- nn_Linear (no_of_embs + no_of_cont) size0 ;;
   hidden <- hidden_linears lin_layer_sizes ;;
   first_bn_layer <- nn_BatchNorm1d no_of_cont ;;
   bn_layers <- map_result nn_BatchNorm1d lin_layer_sizes ;;
   emb_dropout_layer <- nn_Dropout emb_dropout ;;
   droput_layers <- map_result nn_Dropout lin_layer_dropouts ;;
   size_last <- last_item "list index out of range" lin_layer_sizes ;;
   output_layer <- nn_Linear size_last n_class ;;
   Ok {| n_class := n_class;
         no_of_cat := len emb_dims;
         emb_layer := emb_layer;
         no_of_embs := no_of_embs;
         no_of_cont := no_of_cont;
         lin_layers := first_lin_layer :: hidden;
         first_bn_layer := first_bn_layer;
         bn_layers := bn_layers;
         emb_dropout_layer := emb_dropout_layer;
         droput_layers := droput_layers;
         output_layer := output_layer;
         training := true |})%res.

(** The module that [init] returns for the sizes [s0 :: rest] and the
    padding index [pad], when no constructor raises. *)
Definition built (emb_dims : list (Z * Z)) (no_of_cont s0 : Z) (rest : list Z)
  (emb_dropout : Q) (lin_layer_dropouts : list Q) (n_class pad : Z) : t :=
  {| n_class := n_class;
     no_of_cat := len emb_dims;
     emb_layer := Embedding (pad + 1) 5;
     no_of_embs := len emb_dims * 5;
     no_of_cont := no_of_cont;
     lin_layers := linears_from (len emb_dims * 5 + no_of_cont) (s0 :: rest);
     first_bn_layer := BatchNorm1d no_of_cont;
     bn_layers := map BatchNorm1d (s0 :: rest);
     emb_dropout_layer := Dropout emb_dropout;
     droput_layers := map Dropout lin_layer_dropouts;
     output_layer := Linear (last rest s0) n_class;
     training := true |}.

(** [model.eval()] and [model.train()] *)
Definition set_training (mode : bool) (self : t) : t :=
  {| n_class := n_class self; no_of_cat := no_of_cat self; emb_layer := emb_layer self;
     no_of_embs := no_of_embs self; no_of_cont := no_of_cont self;
     lin_layers := lin_layers self; first_bn_layer := first_bn_layer self;
     bn_layers := bn_layers self; emb_dropout_layer := emb_dropout_layer self;
     droput_layers := droput_layers self; output_layer := output_layer self;
     training := mode |}.

(** [FeedForwardNN.forward(cont_data, cat_data)] *)
Definition forward (B : Backend) (self : t) (cont_data cat_data : tensor B)
  : M (world B) (tensor B) :=
  let call := nn_call B (training self) in
  (bound <- (if negb (no_of_embs self =? 0)
             then embs <- list_comp
                            (fun i => col <-- select_col B cat_data i ;;
                                      call (emb_layer self) col)
                            (range (no_of_cat self)) ;;
                  ret (Some embs)
             else ret None) ;;
   embs <- read_local "local_out" bound ;;
   local_out <-- torch_cat1 B embs ;;
   local_out <- call (emb_dropout_layer self) local_out ;;
   local_out <- (if negb (no_of_cont self =? 0)
                 then normalized_cont_data <- call (first_bn_layer self) cont_data ;;
                      if negb (no_of_embs self =? 0)
                      then lift (torch_cat1 B [local_out; normalized_cont_data])
                      else ret normalized_cont_data
                 else ret local_out) ;;
   local_out <- for_each
                  (zip3 (lin_layers self) (droput_layers self) (bn_layers self))
                  (fun local_out '(lin_layer, dropout_layer, bn_layer) =>
                     h <- call lin_layer local_out ;;
                     h <-- F_relu B h ;;
                     h <- call bn_layer h ;;
                     call dropout_layer h)
                  local_out ;;
   call (output_layer self) local_out)%M.

End FeedForwardNN.

(** ** Network0: wrapper of the local model *)

Module Network0.

Record t : Type := { model : FeedForwardNN.t }.

Definition init (emb_dims : list (Z * Z)) (no_of_cont : Z) (lin_layer_sizes : list Z)
  (emb_dropout : Q) (lin_layer_dropouts : list Q) (n_class : Z)
  (emb_padding_idx : option Z) : result t :=
  (m <- FeedForwardNN.init emb_dims no_of_cont lin_layer_sizes emb_dropout
          lin_layer_dropouts n_class emb_padding_idx ;;
   Ok {| model := m |})%res.

(** [Network0.forward(local_input, distal_input=None)] *)
Definition forward (B : Backend) (self : t) (local_input : tensor B * tensor B)
  (distal_input : option (tensor B)) : M (world B) (tensor B) :=
  let '(cont_data, cat_data) := local_input in
  FeedForwardNN.forward B (model self) cont_data cat_data.

End Network0.

(** [1e-9], the floor of the clamp *)
Definition clamp_floor : Q := 1 # 1000000000.

(** ** Network1: the expanded-only model *)

Module Network1.

Record t : Type := {
  n_class : Z;
  kernel_size : Z;
  seq_len : Z;
  conv1 : list Module0;
  maxpool1 : Module0;
  RBs1 : list ResBlock.t;
  maxpool2 : Module0;
  conv2 : list Module0;
  RBs2 : list ResBlock.t;
  maxpool3 : Module0;
  conv3 : list Module0;
  distal_fc1 : list Module0;
  conv1_2 : list Module0;
  maxpool1_2 : Module0;
  RBs1_2 : list ResBlock.t;
  maxpool2_2 : Module0;
  conv2_2 : list Module0;
  RBs2_2 : list ResBlock.t;
  maxpool3_2 : Module0;
  conv3_2 : list Module0;
  distal_fc2 : list Module0;
  training : bool
}.

(** The attributes that [Network1.__init__] assigns; a new module is in
    training mode.  Whether the library layers accept the arguments is
    decided by [construct]. *)
Definition init (in_channels out_channels kernel_size distal_radius distal_order : Z)
  (distal_fc_dropout : Q) (n_class : Z) : t :=
  let rb1_kernel_size := 3 in
  let rb2_kernel_size := 3 in
  let cnn_fc_in_size := out_channels in
  {| n_class := n_class;
     kernel_size := kernel_size;
     seq_len := distal_radius * 2 + 1 - (distal_order - 1);
     conv1 := [BatchNorm1d in_channels;
               Conv1d in_channels out_channels kernel_size 1 ((kernel_size - 1) / 2) 1];
     maxpool1 := MaxPool1d 3 3 1;
     RBs1 := map (fun _ => ResBlock.init out_channels rb1_kernel_size 1
                             ((rb1_kernel_size - 1) / 2) 1) (range 2);
     maxpool2 := MaxPool1d 3 3 1;
     conv2 := [BatchNorm1d out_channels;
               Conv1d out_channels out_channels kernel_size 1 ((kernel_size - 1) / 2) 1];
     RBs2 := map (fun _ => ResBlock.init out_channels rb2_kernel_size 1
                             ((rb2_kernel_size - 1) / 2) 1) (range 2);
     maxpool3 := MaxPool1d 3 3 1;
     conv3 := [BatchNorm1d out_channels;
               Conv1d out_channels out_channels kernel_size 1 ((kernel_size - 1) / 2) 1;
               ReLU];
     distal_fc1 := [BatchNorm1d cnn_fc_in_size; Dropout distal_fc_dropout;
                    Linear cnn_fc_in_size n_class];
     conv1_2 := [BatchNorm1d in_channels;
                 Conv1d in_channels out_channels kernel_size 1 ((kernel_size - 1) / 2) 1];
     maxpool1_2 := MaxPool1d 15 15 7;
     RBs1_2 := map (fun _ => ResBlock.init out_channels rb1_kernel_size 1
                               ((rb1_kernel_size - 1) / 2) 1) (range 2);
     maxpool2_2 := MaxPool1d 7 7 3;
     conv2_2 := [BatchNorm1d out_channels;
                 Conv1d out_channels out_channels kernel_size 1 ((kernel_size - 1) / 2) 1];
     RBs2_2 := map (fun _ => ResBlock.init out_channels rb2_kernel_size 1
                               ((rb2_kernel_size - 1) / 2) 1) (range 2);
     maxpool3_2 := MaxPool1d 3 3 1;
     conv3_2 := [BatchNorm1d out_channels;
                 Conv1d out_channels out_channels kernel_size 1 ((kernel_size - 1) / 2) 1;
                 ReLU];
     distal_fc2 := [BatchNorm1d cnn_fc_in_size; Dropout distal_fc_dropout;
                    Linear cnn_fc_in_size n_class];
     training := true |}.

(** [Network1(in_channels, out_channels, kernel_size, distal_radius,
    distal_order, distal_fc_dropout, n_class)]: the call of the constructor,
    which raises what a library layer raises. *)
Definition construct
  (in_channels out_channels kernel_size distal_radius distal_order : Z)
  (distal_fc_dropout : Q) (n_class : Z) : result t :=
  (let rb1_kernel_size := 3 in
   let rb2_kernel_size := 3 in
   conv1 <- conv_layers in_channels out_channels kernel_size ;;
   RBs1 <- two_ResBlocks out_channels rb1_kernel_size ;;
   conv2 <- conv_layers out_channels out_channels kernel_size ;;
   RBs2 <- two_ResBlocks out_channels rb2_kernel_size ;;
   conv3 <- conv_relu_layers out_channels out_channels kernel_size ;;
   let cnn_fc_in_size := out_channels in
   distal_fc1 <- fc_layers cnn_fc_in_size distal_fc_dropout n_class ;;
   conv1_2 <- conv_layers in_channels out_channels kernel_size ;;
   RBs1_2 <- two_ResBlocks out_channels rb1_kernel_size ;;
   conv2_2 <- conv_layers out_channels out_channels kernel_size ;;
   RBs2_2 <- two_ResBlocks out_channels rb2_kernel_size ;;
   conv3_2 <- conv_relu_layers out_channels out_channels kernel_size ;;
   distal_fc2 <- fc_layers cnn_fc_in_size distal_fc_dropout n_class ;;
   Ok {| n_class := n_class;
         kernel_size := kernel_size;
         seq_len := distal_radius * 2 + 1 - (distal_order - 1);
         conv1 := conv1;
         maxpool1 := MaxPool1d 3 3 1;
         RBs1 := RBs1;
         maxpool2 := MaxPool1d 3 3 1;
         conv2 := conv2;
         RBs2 := RBs2;
         maxpool3 := MaxPool1d 3 3 1;
         conv3 := conv3;
         distal_fc1 := distal_fc1;
         conv1_2 := conv1_2;
         maxpool1_2 := MaxPool1d 15 15 7;
         RBs1_2 := RBs1_2;
         maxpool2_2 := MaxPool1d 7 7 3;
         conv2_2 := conv2_2;
         RBs2_2 := RBs2_2;
         maxpool3_2 := MaxPool1d 3 3 1;
         conv3_2 := conv3_2;
         distal_fc2 := distal_fc2;
         training := true |})%res.

(** [model.eval()] and [model.train()] *)
Definition set_training (mode : bool) (self : t) : t :=
  {| n_class := n_class self; kernel_size := kernel_size self; seq_len := seq_len self;
     conv1 := conv1 self; maxpool1 := maxpool1 self; RBs1 := RBs1 self;
     maxpool2 := maxpool2 self; conv2 := conv2 self; RBs2 := RBs2 self;
     maxpool3 := maxpool3 self; conv3 := conv3 self; distal_fc1 := distal_fc1 self;
     conv1_2 := conv1_2 self; maxpool1_2 := maxpool1_2 self; RBs1_2 := RBs1_2 self;
     maxpool2_2 := maxpool2_2 self; conv2_2 := conv2_2 self; RBs2_2 := RBs2_2 self;
     maxpool3_2 := maxpool3_2 self; conv3_2 := conv3_2 self;
     distal_fc2 := distal_fc2 self; training := mode |}.

(** The last statement of [forward]:
    [torch.log(torch.clamp((F.softmax(distal_out, dim=1)
                            + F.softmax(distal_out2, dim=1))/2, min=1e-9))] *)
Definition fusion (F : Functional) (distal_out distal_out2 : tensor F)
  : result (tensor F) :=
  (p1 <- F_softmax1 F distal_out ;;
   p2 <- F_softmax1 F distal_out2 ;;
   total <- t_add F p1 p2 ;;
   mean <- t_div F total 2 ;;
   clamped <- torch_clamp_min F mean clamp_floor ;;
   torch_log F clamped)%res.

(** [Network1.forward(local_input, distal_input)] *)
Definition forward (B : Backend) (self : t) (local_input : tensor B * tensor B)
  (distal_input : tensor B) : M (world B) (tensor B) :=
  let call := nn_call B (training self) in
  let seq := Sequential0_call B (training self) in
  let blocks := ResBlocks_call B (training self) in
  (L <-- shape_at B distal_input 2 ;;
   assert_ (L >? 200) "Error: distal seq len must be >200bp" ;;;
   distal_input0 <-- slice2 B distal_input (L / 2 - 100) (L / 2 + 100 + 1) ;;
   distal_out <- seq (conv1 self) distal_input0 ;;
   distal_out <- call (maxpool1 self) distal_out ;;
   let jump_input := distal_out in
   distal_out <- blocks (RBs1 self) distal_out ;;
   jump_len <-- shape_at B jump_input 2 ;;
   out_len <-- shape_at B distal_out 2 ;;
   assert_ (jump_len >=? out_len) "" ;;;
   jump_head <-- slice2 B jump_input 0 out_len ;;
   distal_out <-- t_add B distal_out jump_head ;;
   distal_out <- call (maxpool2 self) distal_out ;;
   distal_out <- seq (conv2 self) distal_out ;;
   let jump_input := distal_out in
   distal_out <- blocks (RBs2 self) distal_out ;;
   jump_len <-- shape_at B jump_input 2 ;;
   out_len <-- shape_at B distal_out 2 ;;
   assert_ (jump_len >=? out_len) "" ;;;
   jump_head <-- slice2 B jump_input 0 out_len ;;
   distal_out <-- t_add B distal_out jump_head ;;
   distal_out <- call (maxpool3 self) distal_out ;;
   distal_out <- seq (conv3 self) distal_out ;;
   distal_out <-- torch_max2 B distal_out ;;
   distal_out <- seq (distal_fc1 self) distal_out ;;
   distal_out2 <- seq (conv1_2 self) distal_input ;;
   distal_out2 <- call (maxpool1_2 self) distal_out2 ;;
   let jump_input2 := distal_out2 in
   distal_out2 <- blocks (RBs1_2 self) distal_out2 ;;
   jump_len <-- shape_at B jump_input2 2 ;;
   out_len <-- shape_at B distal_out2 2 ;;
   assert_ (jump_len >=? out_len) "" ;;;
   jump_head <-- slice2 B jump_input2 0 out_len ;;
   distal_out2 <-- t_add B distal_out2 jump_head ;;
   distal_out2 <- call (maxpool2_2 self) distal_out2 ;;
   distal_out2 <- seq (conv2_2 self) distal_out2 ;;
   let jump_input2 := distal_out2 in
   distal_out2 <- blocks (RBs2_2 self) distal_out2 ;;
   jump_len <-- shape_at B jump_input2 2 ;;
   out_len <-- shape_at B distal_out2 2 ;;
   assert_ (jump_len >=? out_len) "" ;;;
   jump_head <-- slice2 B jump_input2 0 out_len ;;
   distal_out2 <-- t_add B distal_out2 jump_head ;;
   distal_out2 <- call (maxpool3_2 self) distal_out2 ;;
   distal_out2 <- seq (conv3_2 self) distal_out2 ;;
   distal_out2 <-- torch_max2 B distal_out2 ;;
   distal_out2 <- seq (distal_fc2 self) distal_out2 ;;
   lift (fusion B distal_out distal_out2))%M.

(** [Network1.forward] up to its last statement: the logits [distal_out] and
    [distal_out2] of the two sub-pipelines, which the last statement fuses. *)
Definition logits (B : Backend) (self : t) (distal_input : tensor B)
  : M (world B) (tensor B * tensor B) :=
  let call := nn_call B (training self) in
  let seq := Sequential0_call B (training self) in
  let blocks := ResBlocks_call B (training self) in
  (L <-- shape_at B distal_input 2 ;;
   assert_ (L >? 200) "Error: distal seq len must be >200bp" ;;;
   distal_input0 <-- slice2 B distal_input (L / 2 - 100) (L / 2 + 100 + 1) ;;
   distal_out <- seq (conv1 self) distal_input0 ;;
   distal_out <- call (maxpool1 self) distal_out ;;
   let jump_input := distal_out in
   distal_out <- blocks (RBs1 self) distal_out ;;
   jump_len <-- shape_at B jump_input 2 ;;
   out_len <-- shape_at B distal_out 2 ;;
   assert_ (jump_len >=? out_len) "" ;;;
   jump_head <-- slice2 B jump_input 0 out_len ;;
   distal_out <-- t_add B distal_out jump_head ;;
   distal_out <- call (maxpool2 self) distal_out ;;
   distal_out <- seq (conv2 self) distal_out ;;
   let jump_input := distal_out in
   distal_out <- blocks (RBs2 self) distal_out ;;
   jump_len <-- shape_at B jump_input 2 ;;
   out_len <-- shape_at B distal_out 2 ;;
   assert_ (jump_len >=? out_len) "" ;;;
   jump_head <-- slice2 B jump_input 0 out_len ;;
   distal_out <-- t_add B distal_out jump_head ;;
   distal_out <- call (maxpool3 self) distal_out ;;
   distal_out <- seq (conv3 self) distal_out ;;
   distal_out <-- torch_max2 B distal_out ;;
   distal_out <- seq (distal_fc1 self) distal_out ;;
   distal_out2 <- seq (conv1_2 self) distal_input ;;
   distal_out2 <- call (maxpool1_2 self) distal_out2 ;;
   let jump_input2 := distal_out2 in
   distal_out2 <- blocks (RBs1_2 self) distal_out2 ;;
   jump_len <-- shape_at B jump_input2 2 ;;
   out_len <-- shape_at B distal_out2 2 ;;
   assert_ (jump_len >=? out_len) "" ;;;
   jump_head <-- slice2 B jump_input2 0 out_len ;;
   distal_out2 <-- t_add B distal_out2 jump_head ;;
   distal_out2 <- call (maxpool2_2 self) distal_out2 ;;
   distal_out2 <- seq (conv2_2 self) distal_out2 ;;
   let jump_input2 := distal_out2 in
   distal_out2 <- blocks (RBs2_2 self) distal_out2 ;;
   jump_len <-- shape_at B jump_input2 2 ;;
   out_len <-- shape_at B distal_out2 2 ;;
   assert_ (jump_len >=? out_len) "" ;;;
   jump_head <-- slice2 B jump_input2 0 out_len ;;
   distal_out2 <-- t_add B distal_out2 jump_head ;;
   distal_out2 <- call (maxpool3_2 self) distal_out2 ;;
   distal_out2 <- seq (conv3_2 self) distal_out2 ;;
   distal_out2 <-- torch_max2 B distal_out2 ;;
   distal_out2 <- seq (distal_fc2 self) distal_out2 ;;
   ret (distal_out, distal_out2))%M.

End Network1.

(** ** Network2: the combined local + expanded model *)

Module Network2.

Record t : Type := {
  n_class : Z;
  no_of_cat : Z;
  emb_layer : Module0;
  no_of_embs : Z;
  no_of_cont : Z;
  lin_layers : list Module0;
  first_bn_layer : Module0;
  bn_layers : list Module0;
  emb_dropout_layer : Module0;
  droput_layers : list Module0;
  kernel_size : Z;
  seq_len : Z;
  conv1 : list Module0;
  maxpool1 : Module0;
  RBs1 : list ResBlock.t;
  maxpool2 : Module0;
  conv2 : list Module0;
  RBs2 : list ResBlock.t;
  maxpool3 : Module0;
  conv3 : list Module0;
  distal_fc1 : list Module0;
  conv1_2 : list Module0;
  maxpool1_2 : Module0;
  RBs1_2 : list ResBlock.t;
  maxpool2_2 : Module0;
  conv2_2 : list Module0;
  RBs2_2 : list ResBlock.t;
  maxpool3_2 : Module0;
  conv3_2 : list Module0;
  distal_fc2 : list Module0;
  local_fc : list Module0;
  training : bool
}.

(** [Network2.__init__]; a new module is in training mode. *)
Definition init (emb_dims : list (Z * Z)) (no_of_cont : Z) (lin_layer_sizes : list Z)
  (emb_dropout : Q) (lin_layer_dropouts : list Q)
  (in_channels out_channels kernel_size distal_radius distal_order : Z)
  (distal_fc_dropout : Q) (n_class : Z) (emb_padding_idx : option Z) : result t :=
  (num_embeddings <- padding_idx_plus_1 emb_padding_idx ;;
   emb_layer <- nn_Embedding num_embeddings 5 ;;
   let no_of_embs := len emb_dims * 5 in
   size0 <- index "list index out of range" lin_layer_sizes 0 ;;
   first_lin_layer <- nn_Linear (no_of_embs + no_of_cont) size0 ;;
   hidden <- hidden_linears lin_layer_sizes ;;
   first_bn_layer <- nn_BatchNorm1d no_of_cont ;;
   bn_layers <- map_result nn_BatchNorm1d lin_layer_sizes ;;
   emb_dropout_layer <- nn_Dropout emb_dropout ;;
   droput_layers <- map_result nn_Dropout lin_layer_dropouts ;;
   let rb1_kernel_size := 3 in
   let rb2_kernel_size := 3 in
   conv1 <- conv_layers in_channels out_channels kernel_size ;;
   RBs1 <- two_ResBlocks out_channels rb1_kernel_size ;;
   conv2 <- conv_layers out_channels out_channels kernel_size ;;
   RBs2 <- two_ResBlocks out_channels rb2_kernel_size ;;
   conv3 <- conv_relu_layers out_channels out_channels kernel_size ;;
   let cnn_fc_in_size := out_channels in
   distal_fc1 <- fc_layers cnn_fc_in_size distal_fc_dropout n_class ;;
   conv1_2 <- conv_layers in_channels out_channels kernel_size ;;
   RBs1_2 <- two_ResBlocks out_channels rb1_kernel_size ;;
   conv2_2 <- conv_layers out_channels out_channels kernel_size ;;
   RBs2_2 <- two_ResBlocks out_channels rb2_kernel_size ;;
   conv3_2 <- conv_relu_layers out_channels out_channels kernel_size ;;
   distal_fc2 <- fc_layers cnn_fc_in_size distal_fc_dropout n_class ;;
   size_last <- last_item "list index out of range" lin_layer_sizes ;;
   local_linear <- nn_Linear size_last n_class ;;
   Ok {| n_class := n_class;
         no_of_cat := len emb_dims;
         emb_layer := emb_layer;
         no_of_embs := no_of_embs;
         no_of_cont := no_of_cont;
         lin_layers := first_lin_layer :: hidden;
         first_bn_layer := first_bn_layer;
         bn_layers := bn_layers;
         emb_dropout_layer := emb_dropout_layer;
         droput_layers := droput_layers;
         kernel_size := kernel_size;
         seq_len := distal_radius * 2 + 1 - (distal_order - 1);
         conv1 := conv1;
         maxpool1 := MaxPool1d 3 3 1;
         RBs1 := RBs1;
         maxpool2 := MaxPool1d 3 3 1;
         conv2 := conv2;
         RBs2 := RBs2;
         maxpool3 := MaxPool1d 3 3 1;
         conv3 := conv3;
         distal_fc1 := distal_fc1;
         conv1_2 := conv1_2;
         maxpool1_2 := MaxPool1d 15 15 7;
         RBs1_2 := RBs1_2;
         maxpool2_2 := MaxPool1d 7 7 3;
         conv2_2 := conv2_2;
         RBs2_2 := RBs2_2;
         maxpool3_2 := MaxPool1d 3 3 1;
         conv3_2 := conv3_2;
         distal_fc2 := distal_fc2;
         local_fc := [local_linear];
         training := true |})%res.

(** The module that [init] returns for the sizes [s0 :: rest] and the
    padding index [pad], when no constructor raises. *)
Definition built (emb_dims : list (Z * Z)) (no_of_cont s0 : Z) (rest : list Z)
  (emb_dropout : Q) (lin_layer_dropouts : list Q)
  (in_channels out_channels kernel_size distal_radius distal_order : Z)
  (distal_fc_dropout : Q) (n_class pad : Z) : t :=
  let distal := Network1.init in_channels out_channels kernel_size distal_radius
                  distal_order distal_fc_dropout n_class in
  {| n_class := n_class;
     no_of_cat := len emb_dims;
     emb_layer := Embedding (pad + 1) 5;
     no_of_embs := len emb_dims * 5;
     no_of_cont := no_of_cont;
     lin_layers := linears_from (len emb_dims * 5 + no_of_cont) (s0 :: rest);
     first_bn_layer := BatchNorm1d no_of_cont;
     bn_layers := map BatchNorm1d (s0 :: rest);
     emb_dropout_layer := Dropout emb_dropout;
     droput_layers := map Dropout lin_layer_dropouts;
     kernel_size := kernel_size;
     seq_len := distal_radius * 2 + 1 - (distal_order - 1);
     conv1 := Network1.conv1 distal;
     maxpool1 := Network1.maxpool1 distal;
     RBs1 := Network1.RBs1 distal;
     maxpool2 := Network1.maxpool2 distal;
     conv2 := Network1.conv2 distal;
     RBs2 := Network1.RBs2 distal;
     maxpool3 := Network1.maxpool3 distal;
     conv3 := Network1.conv3 distal;
     distal_fc1 := Network1.distal_fc1 distal;
     conv1_2 := Network1.conv1_2 distal;
     maxpool1_2 := Network1.maxpool1_2 distal;
     RBs1_2 := Network1.RBs1_2 distal;
     maxpool2_2 := Network1.maxpool2_2 distal;
     conv2_2 := Network1.conv2_2 distal;
     RBs2_2 := Network1.RBs2_2 distal;
     maxpool3_2 := Network1.maxpool3_2 distal;
     conv3_2 := Network1.conv3_2 distal;
     distal_fc2 := Network1.distal_fc2 distal;
     local_fc := [Linear (last rest s0) n_class];
     training := true |}.

(** [model.eval()] and [model.train()] *)
Definition set_training (mode : bool) (self : t) : t :=
  {| n_class := n_class self; no_of_cat := no_of_cat self; emb_layer := emb_layer self;
     no_of_embs := no_of_embs self; no_of_cont := no_of_cont self;
     lin_layers := lin_layers self; first_bn_layer := first_bn_layer self;
     bn_layers := bn_layers self; emb_dropout_layer := emb_dropout_layer self;
     droput_layers := droput_layers self;
     kernel_size := kernel_size self; seq_len := seq_len self;
     conv1 := conv1 self; maxpool1 := maxpool1 self; RBs1 := RBs1 self;
     maxpool2 := maxpool2 self; conv2 := conv2 self; RBs2 := RBs2 self;
     maxpool3 := maxpool3 self; conv3 := conv3 self; distal_fc1 := distal_fc1 self;
     conv1_2 := conv1_2 self; maxpool1_2 := maxpool1_2 self; RBs1_2 := RBs1_2 self;
     maxpool2_2 := maxpool2_2 self; conv2_2 := conv2_2 self; RBs2_2 := RBs2_2 self;
     maxpool3_2 := maxpool3_2 self; conv3_2 := conv3_2 self;
     distal_fc2 := distal_fc2 self; local_fc := local_fc self; training := mode |}.

(** The local part of [forward], up to the loop over the linear layers. *)
Definition local_part (B : Backend) (self : t) (local_input : tensor B * tensor B)
  : M (world B) (tensor B) :=
  let call := nn_call B (training self) in
  let '(cont_data, cat_data) := local_input in
  (bound <- (if negb (no_of_embs self =? 0)
             then embs <- list_comp
                            (fun i => col <-- select_col B cat_data i ;;
                                      call (emb_layer self) col)
                            (range (no_of_cat self)) ;;
                  ret (Some embs)
             else ret None) ;;
   embs <- read_local "local_out" bound ;;
   local_out <-- torch_cat1 B embs ;;
   local_out <- call (emb_dropout_layer self) local_out ;;
   local_out <- (if negb (no_of_cont self =? 0)
                 then normalized_cont_data <- call (first_bn_layer self) cont_data ;;
                      if negb (no_of_embs self =? 0)
                      then lift (torch_cat1 B [local_out; normalized_cont_data])
                      else ret normalized_cont_data
                 else ret local_out) ;;
   for_each (zip3 (lin_layers self) (droput_layers self) (bn_layers self))
     (fun local_out '(lin_layer, dropout_layer, bn_layer) =>
        h <- call lin_layer local_out ;;
        h <-- F_relu B h ;;
        h <- call bn_layer h ;;
        call dropout_layer h)
     local_out)%M.

(** [(F.softmax(distal_out, dim=1)+ F.softmax(distal_out2, dim=1))/2] *)
Definition distal_mean (F : Functional) (distal_out distal_out2 : tensor F)
  : result (tensor F) :=
  (p1 <- F_softmax1 F distal_out ;;
   p2 <- F_softmax1 F distal_out2 ;;
   total <- t_add F p1 p2 ;;
   t_div F total 2)%res.

(** [torch.log(torch.clamp((local_out + distal_out)/2, min=1e-9))] *)
Definition log_mean (F : Functional) (local_out distal_out : tensor F)
  : result (tensor F) :=
  (total <- t_add F local_out distal_out ;;
   mean <- t_div F total 2 ;;
   clamped <- torch_clamp_min F mean clamp_floor ;;
   torch_log F clamped)%res.

(** The occasional report of the branch outputs outside training:
    [if self.training == False and np.random.uniform(0,1) < 0.00001*local_out.shape[0]] *)
Definition report (B : Backend) (self : t) (local_out distal_out : tensor B)
  : M (world B) unit :=
  (if negb (training self)
   then u <- np_random_uniform B ;;
        batch <-- shape_at B local_out 0 ;;
        if Qltb u ((1 # 100000) * inject_Z batch)
        then local1 <-- select_col B local_out 1 ;;
             print_stats B "local_out1:" local1 ;;;
             distal1 <-- select_col B distal_out 1 ;;
             print_stats B "distal_out1:" distal1
        else ret tt
   else ret tt)%M.

(** [Network2.forward(local_input, distal_input)] *)
Definition forward (B : Backend) (self : t) (local_input : tensor B * tensor B)
  (distal_input : tensor B) : M (world B) (tensor B) :=
  let call := nn_call B (training self) in
  let seq := Sequential0_call B (training self) in
  let blocks := ResBlocks_call B (training self) in
  (local_out <- local_part B self local_input ;;
   L <-- shape_at B distal_input 2 ;;
   assert_ (L >? 200) "Error: distal seq len must be >200" ;;;
   distal_input0 <-- slice2 B distal_input (L / 2 - 100) (L / 2 + 100 + 1) ;;
   distal_out <- seq (conv1 self) distal_input0 ;;
   distal_out <- call (maxpool1 self) distal_out ;;
   let jump_input := distal_out in
   distal_out <- blocks (RBs1 self) distal_out ;;
   jump_len <-- shape_at B jump_input 2 ;;
   out_len <-- shape_at B distal_out 2 ;;
   assert_ (jump_len >=? out_len) "" ;;;
   jump_head <-- slice2 B jump_input 0 out_len ;;
   distal_out <-- t_add B distal_out jump_head ;;
   distal_out <- call (maxpool2 self) distal_out ;;
   distal_out <- seq (conv2 self) distal_out ;;
   let jump_input := distal_out in
   distal_out <- blocks (RBs2 self) distal_out ;;
   jump_len <-- shape_at B jump_input 2 ;;
   out_len <-- shape_at B distal_out 2 ;;
   assert_ (jump_len >=? out_len) "" ;;;
   jump_head <-- slice2 B jump_input 0 out_len ;;
   distal_out <-- t_add B distal_out jump_head ;;
   distal_out <- call (maxpool3 self) distal_out ;;
   distal_out <- seq (conv3 self) distal_out ;;
   distal_out <-- torch_max2 B distal_out ;;
   local_out <- seq (local_fc self) local_out ;;
   distal_out <- seq (distal_fc1 self) distal_out ;;
   distal_out2 <- seq (conv1_2 self) distal_input ;;
   distal_out2 <- call (maxpool1_2 self) distal_out2 ;;
   let jump_input2 := distal_out2 in
   distal_out2 <- blocks (RBs1_2 self) distal_out2 ;;
   jump_len <-- shape_at B jump_input2 2 ;;
   out_len <-- shape_at B distal_out2 2 ;;
   assert_ (jump_len >=? out_len) "" ;;;
   jump_head <-- slice2 B jump_input2 0 out_len ;;
   distal_out2 <-- t_add B distal_out2 jump_head ;;
   distal_out2 <- call (maxpool2_2 self) distal_out2 ;;
   distal_out2 <- seq (conv2_2 self) distal_out2 ;;
   let jump_input2 := distal_out2 in
   distal_out2 <- blocks (RBs2_2 self) distal_out2 ;;
   jump_len <-- shape_at B jump_input2 2 ;;
   out_len <-- shape_at B distal_out2 2 ;;
   assert_ (jump_len >=? out_len) "" ;;;
   jump_head <-- slice2 B jump_input2 0 out_len ;;
   distal_out2 <-- t_add B distal_out2 jump_head ;;
   distal_out2 <- call (maxpool3_2 self) distal_out2 ;;
   distal_out2 <- seq (conv3_2 self) distal_out2 ;;
   distal_out2 <-- torch_max2 B distal_out2 ;;
   distal_out2 <- seq (distal_fc2 self) distal_out2 ;;
   distal_out <-- distal_mean B distal_out distal_out2 ;;
   local_out <-- F_softmax1 B local_out ;;
   report B self local_out distal_out ;;;
   lift (log_mean B local_out distal_out))%M.

(** The fused output as a function of the three logits: the last statements
    of [forward] without the report. *)
Definition fusion (F : Functional) (local_logits distal_out distal_out2 : tensor F)
  : result (tensor F) :=
  (distal <- distal_mean F distal_out distal_out2 ;;
   local_out <- F_softmax1 F local_logits ;;
   log_mean F local_out distal)%res.

(** [Network2.forward] up to the call of [distal_fc2]: the logits [local_out],
    [distal_out] and [distal_out2] of the three branches, which the last
    statements fuse. *)
Definition logits (B : Backend) (self : t) (local_input : tensor B * tensor B)
  (distal_input : tensor B) : M (world B) (tensor B * tensor B * tensor B) :=
  let call := nn_call B (training self) in
  let seq := Sequential0_call B (training self) in
  let blocks := ResBlocks_call B (training self) in
  (local_out <- local_part B self local_input ;;
   L <-- shape_at B distal_input 2 ;;
   assert_ (L >? 200) "Error: distal seq len must be >200" ;;;
   distal_input0 <-- slice2 B distal_input (L / 2 - 100) (L / 2 + 100 + 1) ;;
   distal_out <- seq (conv1 self) distal_input0 ;;
   distal_out <- call (maxpool1 self) distal_out ;;
   let jump_input := distal_out in
   distal_out <- blocks (RBs1 self) distal_out ;;
   jump_len <-- shape_at B jump_input 2 ;;
   out_len <-- shape_at B distal_out 2 ;;
   assert_ (jump_len >=? out_len) "" ;;;
   jump_head <-- slice2 B jump_input 0 out_len ;;
   distal_out <-- t_add B distal_out jump_head ;;
   distal_out <- call (maxpool2 self) distal_out ;;
   distal_out <- seq (conv2 self) distal_out ;;
   let jump_input := distal_out in
   distal_out <- blocks (RBs2 self) distal_out ;;
   jump_len <-- shape_at B jump_input 2 ;;
   out_len <-- shape_at B distal_out 2 ;;
   assert_ (jump_len >=? out_len) "" ;;;
   jump_head <-- slice2 B jump_input 0 out_len ;;
   distal_out <-- t_add B distal_out jump_head ;;
   distal_out <- call (maxpool3 self) distal_out ;;
   distal_out <- seq (conv3 self) distal_out ;;
   distal_out <-- torch_max2 B distal_out ;;
   local_out <- seq (local_fc self) local_out ;;
   distal_out <- seq (distal_fc1 self) distal_out ;;
   distal_out2 <- seq (conv1_2 self) distal_input ;;
   distal_out2 <- call (maxpool1_2 self) distal_out2 ;;
   let jump_input2 := distal_out2 in
   distal_out2 <- blocks (RBs1_2 self) distal_out2 ;;
   jump_len <-- shape_at B jump_input2 2 ;;
   out_len <-- shape_at B distal_out2 2 ;;
   assert_ (jump_len >=? out_len) "" ;;;
   jump_head <-- slice2 B jump_input2 0 out_len ;;
   distal_out2 <-- t_add B distal_out2 jump_head ;;
   distal_out2 <- call (maxpool2_2 self) distal_out2 ;;
   distal_out2 <- seq (conv2_2 self) distal_out2 ;;
   let jump_input2 := distal_out2 in
   distal_out2 <- blocks (RBs2_2 self) distal_out2 ;;
   jump_len <-- shape_at B jump_input2 2 ;;
   out_len <-- shape_at B distal_out2 2 ;;
   assert_ (jump_len >=? out_len) "" ;;;
   jump_head <-- slice2 B jump_input2 0 out_len ;;
   distal_out2 <-- t_add B distal_out2 jump_head ;;
   distal_out2 <- call (maxpool3_2 self) distal_out2 ;;
   distal_out2 <- seq (conv3_2 self) distal_out2 ;;
   distal_out2 <-- torch_max2 B distal_out2 ;;
   distal_out2 <- seq (distal_fc2 self) distal_out2 ;;
   ret (local_out, distal_out, distal_out2))%M.


End Network2.

(** ** The arguments that the constructors accept *)

(** A rate that [nn.Dropout] accepts. *)
Definition is_rate (p : Q) : Prop := (0 <= p <= 1)%Q.

(** The arguments of the local layers: a padding index from [-1] on, no
    negative size, rates within [[0, 1]]. *)
Definition local_arguments_accepted (no_of_cont : Z) (lin_layer_sizes : list Z)
  (emb_dropout : Q) (lin_layer_dropouts : list Q) (pad : Z) : Prop :=
  0 <= pad + 1 /\ Forall (Z.le 0) lin_layer_sizes /\ 0 <= no_of_cont
  /\ is_rate emb_dropout /\ Forall is_rate lin_layer_dropouts.

(** The arguments of the distal layers and of the output. *)
Definition distal_arguments_accepted (in_channels out_channels kernel_size : Z)
  (distal_fc_dropout : Q) (n_class : Z) : Prop :=
  0 <= in_channels /\ 0 <= out_channels /\ 0 <= kernel_size
  /\ is_rate distal_fc_dropout /\ 0 <= n_class.

(** ** The shape backend

    A tensor is its shape.  Each library layer checks its input the way
    PyTorch does and computes the shape of its output; the output length of
    a convolution is the one quoted in [forward]:
    [L_out = floor((L_in+2*padding-kernel_size)/stride + 1)], with the
    dilation of the general formula. *)

Inductive event : Type :=
| Call (training : bool) (layer : Module0) (input : list Z)
| Printed (label : string).

Record shape_world : Type := {
  trace : list event;
  rng : nat -> Q;
  rng_pos : nat
}.

Definition emit (e : event) : M shape_world unit :=
  fun w => (Ok tt, {| trace := trace w ++ [e]; rng := rng w; rng_pos := rng_pos w |}).

Definition draw : M shape_world Q :=
  fun w => (Ok (rng w (rng_pos w)),
            {| trace := trace w; rng := rng w; rng_pos := S (rng_pos w) |}).

(** Output length of [Conv1d]. *)
Definition conv_out_len (L kernel_size stride padding dilation : Z) : Z :=
  (L + 2 * padding - dilation * (kernel_size - 1) - 1) / stride + 1.

(** Output length of [MaxPool1d] (no dilation, [ceil_mode=False]). *)
Definition pool_out_len (L kernel_size stride padding : Z) : Z :=
  (L + 2 * padding - kernel_size) / stride + 1.

Definition BatchNorm1d_check (training : bool) (num_features : Z)
  (batch channels positions : Z) (x : list Z) : result (list Z) :=
  if training && (batch * positions =? 1)
  then Raise (ValueError "Expected more than 1 value per channel when training")
  else if negb (channels =? num_features)
  then Raise (RuntimeError "running_mean should contain num_features elements")
  else Ok x.

Definition BatchNorm1d_shape (training : bool) (num_features : Z) (x : list Z)
  : result (list Z) :=
  match x with
  | [b; c] => BatchNorm1d_check training num_features b c 1 x
  | [b; c; l] => BatchNorm1d_check training num_features b c l x
  | _ => Raise (ValueError "expected 2D or 3D input")
  end.

Definition Conv1d_shape (in_channels out_channels kernel_size stride padding dilation : Z)
  (x : list Z) : result (list Z) :=
  match x with
  | [b; c; l] =>
      if (kernel_size <=? 0) || (stride <=? 0) || (padding <? 0) || (dilation <=? 0)
      then Raise (RuntimeError "non-positive kernel size, stride or dilation, or negative padding")
      else if negb (c =? in_channels)
      then Raise (RuntimeError "expected input to have in_channels channels")
      else if l + 2 * padding <? dilation * (kernel_size - 1) + 1
      then Raise (RuntimeError "Kernel size can't be greater than actual input size")
      else Ok [b; out_channels; conv_out_len l kernel_size stride padding dilation]
  | _ => Raise (RuntimeError "Expected 3D input to conv1d")
  end.

Definition MaxPool1d_shape (kernel_size stride padding : Z) (x : list Z)
  : result (list Z) :=
  match x with
  | [b; c; l] =>
      if (kernel_size <=? 0) || (stride <=? 0)
      then Raise (RuntimeError "kernel size and stride should be greater than zero")
      else if (padding <? 0) || (kernel_size <? 2 * padding)
      then Raise (RuntimeError "pad should be at most half of effective kernel size")
      else if pool_out_len l kernel_size stride padding <=? 0
      then Raise (RuntimeError "Output size is too small")
      else Ok [b; c; pool_out_len l kernel_size stride padding]
  | _ => Raise (RuntimeError "Expected 3D input to max_pool1d")
  end.

Definition Linear_shape (in_features out_features : Z) (x : list Z)
  : result (list Z) :=
  match rev x with
  | last :: front =>
      if last =? in_features then Ok (rev (out_features :: front))
      else Raise (RuntimeError "mat1 and mat2 shapes cannot be multiplied")
  | [] => Raise (RuntimeError "mat1 and mat2 shapes cannot be multiplied")
  end.

Definition Module0_shape (training : bool) (layer : Module0) (x : list Z)
  : result (list Z) :=
  match layer with
  | BatchNorm1d n => BatchNorm1d_shape training n x
  | Conv1d i o k s p d => Conv1d_shape i o k s p d x
  | MaxPool1d k s p => MaxPool1d_shape k s p x
  | ReLU => Ok x
  | Dropout _ => Ok x
  | Linear i o => Linear_shape i o x
  | Embedding _ dim => Ok (x ++ [dim])
  end.

Definition nn_call_shape (training : bool) (layer : Module0) (x : list Z)
  : M shape_world (list Z) :=
  (emit (Call training layer x) ;;; lift (Module0_shape training layer x))%M.

(** [x[:, i]] *)
Definition select_col_shape (x : list Z) (i : Z) : result (list Z) :=
  match x with
  | b :: n :: rest =>
      if (- n <=? i) && (i <? n) then Ok (b :: rest)
      else Raise (IndexError "index is out of bounds for dimension 1")
  | _ => Raise (IndexError "too many indices for tensor")
  end.

(** A bound of a Python slice over [L] items. *)
Definition slice_bound (L i : Z) : Z :=
  if i <? 0 then Z.max (i + L) 0 else Z.min i L.

Definition slice_len (L a b : Z) : Z :=
  Z.max (slice_bound L b - slice_bound L a) 0.

(** [x[:, :, a:b]] *)
Definition slice2_shape (x : list Z) (a b : Z) : result (list Z) :=
  match x with
  | b0 :: c :: l :: rest => Ok (b0 :: c :: slice_len l a b :: rest)
  | _ => Raise (IndexError "too many indices for tensor")
  end.

Fixpoint list_eqb (xs ys : list Z) : bool :=
  match xs, ys with
  | [], [] => true
  | x :: xs', y :: ys' => (x =? y) && list_eqb xs' ys'
  | _, _ => false
  end.

Fixpoint cat1_onto (acc : list Z) (xs : list (list Z)) : result (list Z) :=
  match xs with
  | [] => Ok acc
  | x :: xs' =>
      match acc, x with
      | b :: n :: rest, b' :: n' :: rest' =>
          if (b =? b') && list_eqb rest rest'
          then cat1_onto (b :: n + n' :: rest) xs'
          else Raise (RuntimeError "Sizes of tensors must match except in dimension 1")
      | _, _ => Raise (RuntimeError "Tensors must have same number of dimensions")
      end
  end.

(** [torch.cat(xs, dim=1)] *)
Definition torch_cat1_shape (xs : list (list Z)) : result (list Z) :=
  match xs with
  | [] => Raise (RuntimeError "torch.cat(): expected a non-empty list of Tensors")
  | [] :: _ | [_] :: _ => Raise (IndexError "Dimension out of range")
  | x :: xs' => cat1_onto x xs'
  end.

(** Broadcasting of two shapes, read from the last dimension on. *)
Fixpoint broadcast_rev (x y : list Z) : result (list Z) :=
  match x, y with
  | [], _ => Ok y
  | _, [] => Ok x
  | a :: x', b :: y' =>
      if a =? b then rmap (cons a) (broadcast_rev x' y')
      else if a =? 1 then rmap (cons b) (broadcast_rev x' y')
      else if b =? 1 then rmap (cons a) (broadcast_rev x' y')
      else Raise (RuntimeError "The size of tensor a must match the size of tensor b")
  end.

Definition t_add_shape (x y : list Z) : result (list Z) :=
  rmap (@rev Z) (broadcast_rev (rev x) (rev y)).

Definition F_softmax1_shape (x : list Z) : result (list Z) :=
  match x with
  | _ :: _ :: _ => Ok x
  | _ => Raise (IndexError "Dimension out of range")
  end.

(** [torch.max(x, dim=2)] *)
Definition torch_max2_shape (x : list Z) : result (list Z) :=
  match x with
  | b :: c :: l :: rest =>
      if l =? 0
      then Raise (IndexError "max(): Expected reduction dim 2 to have non-zero size")
      else Ok (b :: c :: rest)
  | _ => Raise (IndexError "Dimension out of range")
  end.

Definition numel (x : list Z) : Z := fold_right Z.mul 1 x.

Definition print_stats_shape (label : string) (x : list Z) : M shape_world unit :=
  if numel x =? 0
  then raise (RuntimeError "min(): Expected reduction dim to be specified for input.numel() == 0")
  else emit (Printed label).

Definition ShapeFunctional : Functional :=
  {| tensor := list Z;
     F_softmax1 := F_softmax1_shape;
     t_add := t_add_shape;
     t_div := fun x _ => Ok x;
     torch_clamp_min := fun x _ => Ok x;
     torch_log := fun x => Ok x |}.

Definition ShapeBackend : Backend :=
  {| fn := ShapeFunctional;
     world := shape_world;
     shape := fun x => x;
     select_col := select_col_shape;
     slice2 := slice2_shape;
     torch_cat1 := torch_cat1_shape;
     F_relu := fun x => Ok x;
     torch_max2 := torch_max2_shape;
     nn_call := nn_call_shape;
     np_random_uniform := draw;
     print_stats := print_stats_shape |}.

(** A world with nothing recorded yet. *)
Definition fresh_world : shape_world :=
  {| trace := []; rng := fun _ => 1 # 2; rng_pos := 0 |}.


(** ** The real-valued element-wise operations

    A tensor is a [batch, n_class] matrix of real numbers, one row per
    sample.  Arithmetic is exact: rounding is outside this interpretation. *)

Definition Rsum (xs : list R) : R := fold_right Rplus 0%R xs.

(** [F.softmax] of one row *)
Definition softmax_row (x : list R) : list R :=
  map (fun v => (exp v / Rsum (map exp x))%R) x.

Fixpoint zip_with {A : Type} (f : A -> A -> result A) (xs ys : list A)
  : result (list A) :=
  match xs, ys with
  | [], [] => Ok []
  | x :: xs', y :: ys' =>
      (z <- f x y ;; zs <- zip_with f xs' ys' ;; Ok (z :: zs))%res
  | _, _ => Raise (RuntimeError "The size of tensor a must match the size of tensor b")
  end.

(** One dimension of a broadcast operation: equal sizes pair up, a size of
    one is stretched. *)
Definition broadcast_with {A : Type} (f : A -> A -> result A) (xs ys : list A)
  : result (list A) :=
  if (List.length xs =? List.length ys)%nat then zip_with f xs ys
  else match xs, ys with
       | [x], _ => map_result (f x) ys
       | _, [y] => map_result (fun x => f x y) xs
       | _, _ => Raise (RuntimeError "The size of tensor a must match the size of tensor b")
       end.

Definition t_add_real (x y : list (list R)) : result (list (list R)) :=
  broadcast_with (broadcast_with (fun a b => Ok (a + b)%R)) x y.

(** [torch.log] on positive entries; the clamp keeps its argument positive. *)
Definition torch_log_real (x : list (list R)) : result (list (list R)) :=
  Ok (map (map ln) x).

Definition RealFunctional : Functional :=
  {| tensor := list (list R);
     F_softmax1 := fun x => Ok (map softmax_row x);
     t_add := t_add_real;
     t_div := fun x c => Ok (map (map (fun v => (v / IZR c)%R)) x);
     torch_clamp_min := fun x m => Ok (map (map (fun v => Rmax v (Q2R m))) x);
     torch_log := torch_log_real |}.

(** A matrix with [rows] rows of [cols] entries. *)
Definition is_matrix (rows cols : nat) (x : list (list R)) : Prop :=
  List.length x = rows /\ Forall (fun r => List.length r = cols) x.

(** *** Backends over the reals

    A backend whose element-wise operations are those of [RealFunctional];
    what the layers and the other tensor operations compute is left to an
    interpretation, so that a statement about [RealBackend I] holds
    whatever the layers compute. *)

Record RealLayers : Type := {
  real_world : Type;
  real_shape : list (list R) -> list Z;
  real_select_col : list (list R) -> Z -> result (list (list R));
  real_slice2 : list (list R) -> Z -> Z -> result (list (list R));
  real_torch_cat1 : list (list (list R)) -> result (list (list R));
  real_F_relu : list (list R) -> result (list (list R));
  real_torch_max2 : list (list R) -> result (list (list R));
  real_nn_call : bool -> Module0 -> list (list R) -> M real_world (list (list R));
  real_np_random_uniform : M real_world Q;
  real_print_stats : string -> list (list R) -> M real_world unit
}.

Definition RealBackend (I : RealLayers) : Backend :=
  {| fn := RealFunctional;
     world := real_world I;
     shape := real_shape I;
     select_col := real_select_col I;
     slice2 := real_slice2 I;
     torch_cat1 := real_torch_cat1 I;
     F_relu := real_F_relu I;
     torch_max2 := real_torch_max2 I;
     nn_call := real_nn_call I;
     np_random_uniform := real_np_random_uniform I;
     print_stats := real_print_stats I |}.

(** The interpretation in which every layer and every operation returns the
    matrix [x], every tensor has the shape [[1; 1; 201]] and the random
    generator returns 1: the simplest backend over the reals on which the
    forward passes run to their last statements. *)
Definition constant_layers (x : list (list R)) : RealLayers :=
  {| real_world := unit;
     real_shape := fun _ => [1; 1; 201];
     real_select_col := fun _ _ => Ok x;
     real_slice2 := fun _ _ _ => Ok x;
     real_torch_cat1 := fun _ => Ok x;
     real_F_relu := fun _ => Ok x;
     real_torch_max2 := fun _ => Ok x;
     real_nn_call := fun _ _ _ => ret x;
     real_np_random_uniform := ret 1%Q;
     real_print_stats := fun _ _ => ret tt |}.

(** *** The bound of the clamp in single precision

    [torch.clamp(x, min=1e-9)] on a float32 tensor compares with the float32
    nearest to the Python number [1e-9]. *)

(** [a / b] rounded to the nearest integer, halves to the even one, for
    positive [a] and [b]. *)
Definition round_half_even (a b : Z) : Z :=
  let q := a / b in
  let r := a mod b in
  if 2 * r <? b then q
  else if b <? 2 * r then q + 1
  else if Z.even q then q else q + 1.

(** [2 ^ e] as a rational, for an integer [e] of either sign. *)
Definition Qpow2 (e : Z) : Q :=
  if 0 <=? e then inject_Z (2 ^ e) else 1 # Z.to_pos (2 ^ (- e)).

(** The float32 nearest to a positive rational within the range of normal
    numbers: 24 significant bits, round to nearest, ties to even.  Other
    arguments (zero, negative numbers, magnitudes outside the normal range)
    are returned as they are. *)
Definition float32_of (q : Q) : Q :=
  let n := Qnum q in
  let d := Zpos (Qden q) in
  if n <=? 0 then q
  else
    let e0 := Z.log2 n - Z.log2 d in
    let e := if Qle_bool (Qpow2 e0) q then e0 else e0 - 1 in
    if (e <? -126) || (127 <? e) then q
    else
      let m := if 0 <=? 23 - e
               then round_half_even (n * 2 ^ (23 - e)) d
               else round_half_even n (d * 2 ^ (e - 23)) in
      (inject_Z m * Qpow2 (e - 23))%Q.

(** The element-wise operations of [RealFunctional], with the bound of the
    clamp cast to float32 as for a float32 tensor.  The other operations
    are left exact: this cast alone decides how low the fused output can
    get. *)
Definition Float32ClampFunctional : Functional :=
  {| tensor := list (list R);
     F_softmax1 := F_softmax1 RealFunctional;
     t_add := t_add RealFunctional;
     t_div := t_div RealFunctional;
     torch_clamp_min :=
       fun x m => Ok (map (map (fun v => Rmax v (Q2R (float32_of m)))) x);
     torch_log := torch_log RealFunctional |}.

(** [RealBackend I] with the bound of the clamp cast to float32. *)
Definition Float32ClampBackend (I : RealLayers) : Backend :=
  {| fn := Float32ClampFunctional;
     world := real_world I;
     shape := real_shape I;
     select_col := real_select_col I;
     slice2 := real_slice2 I;
     torch_cat1 := real_torch_cat1 I;
     F_relu := real_F_relu I;
     torch_max2 := real_torch_max2 I;
     nn_call := real_nn_call I;
     np_random_uniform := real_np_random_uniform I;
     print_stats := real_print_stats I |}.

(** Logits of one sample that is near-certain of its second class. *)
Definition near_certain_logits : list (list R) := [[0%R; 100%R]].

(** *** The fusion in the words of the specification

    "the combined output = log(clamp(mean of per-branch softmax
    distributions, min=1e-9))" *)

Definition vector_add (p q : list R) : list R :=
  map (fun '(a, b) => (a + b)%R) (combine p q).

(** The element-wise mean of a list of distributions. *)
Definition mean_of (ps : list (list R)) : list R :=
  match ps with
  | [] => []
  | p :: ps' => map (fun v => (v / INR (List.length ps))%R) (fold_left vector_add ps' p)
  end.

Definition log_clamp (p : list R) : list R :=
  map (fun v => ln (Rmax v (/ 1000000000))) p.

Definition spec_fused (branches : list (list R)) : list R :=
  log_clamp (mean_of branches).

(** ** The training driver, [run_train_raytune.py] *)

Module Driver.

(** The parsed command line. *)
Record Args : Type := {
  ref_genome : string;
  train_data : string;
  validation_data : option string;
  bw_paths : option string;
  seq_only : bool;
  n_class : Z;
  local_radius : list Z;
  local_order : list Z;
  local_hidden1_size : list Z;
  local_hidden2_size : list Z;
  distal_radius : list Z;
  distal_order : Z;
  batch_size : list Z;
  emb_dropout : list Q;
  local_dropout : list Q;
  CNN_kernel_size : list Z;
  CNN_out_channels : list Z;
  distal_fc_dropout : list Q;
  model_no : Z;
  optim : list string;
  cuda_id : string;
  valid_ratio : Q;
  split_seed : Z;
  learning_rate : list Q;
  weight_decay : list Q;
  LR_gamma : list Q;
  epochs : Z;
  grace_period : Z;
  n_trials : Z;
  experiment_name : string;
  ASHA_metric : string;
  ray_ncpus : Z;
  ray_ngpus : Z;
  cpu_per_trial : Z;
  gpu_per_trial : Q;
  save_valid_preds : bool;
  rerun_failed : bool
}.

(** The defaults of [parse_arguments], for the two required paths. *)
Definition default_args (ref_genome train_data : string) : Args :=
  {| ref_genome := ref_genome;
     train_data := train_data;
     validation_data := None;
     bw_paths := None;
     seq_only := false;
     n_class := 4;
     local_radius := [5];
     local_order := [1];
     local_hidden1_size := [150];
     local_hidden2_size := [0];
     distal_radius := [50];
     distal_order := 1;
     batch_size := [128];
     emb_dropout := [1 # 10];
     local_dropout := [1 # 10];
     CNN_kernel_size := [3];
     CNN_out_channels := [32];
     distal_fc_dropout := [25 # 100];
     model_no := 2;
     optim := ["Adam"%string];
     cuda_id := "0";
     valid_ratio := 1 # 10;
     split_seed := -1;
     learning_rate := [5 # 1000];
     weight_decay := [1 # 100000];
     LR_gamma := [1 # 2];
     epochs := 10;
     grace_period := 5;
     n_trials := 3;
     experiment_name := "my_experiment";
     ASHA_metric := "loss";
     ray_ncpus := 6;
     ray_ngpus := 1;
     cpu_per_trial := 3;
     gpu_per_trial := 19 # 100;
     save_valid_preds := false;
     rerun_failed := false |}.

(** What the driver learns from the machine it runs on.  The machine is one
    on which the files named on the command line can be read and the HDF5
    files written: a failure of the file system is not among the outcomes
    of the driver. *)
Record Host : Type := {
  (** [torch.cuda.is_available()] *)
  cuda_is_available : bool;
  (** the two columns of the table at [bw_paths]; [None] for an empty table *)
  bw_table : option (list string * list string);
  (** what [tune.run] raises, if anything *)
  tune_run_raises : option exn
}.

(** A search distribution of Ray Tune. *)
Inductive sampler : Type :=
| choice (values : list Z)
| choice_float (values : list Q)
| choice_str (values : list string)
| loguniform (lower upper : Q)
| half_of_local_hidden1_size
| fixed (value : bool).

Record ASHAScheduler : Type := {
  metric : string;
  mode : string;
  max_t : Z;
  asha_grace_period : Z;
  reduction_factor : Z
}.

Record CLIReporter : Type := {
  parameter_columns : list string;
  metric_columns : list string
}.

(** The arguments of [tune.run]. *)
Record RunSpec : Type := {
  trainable : string;
  name : string;
  resources_per_trial : Z * Q;
  config : list (string * sampler);
  num_samples : Z;
  local_dir : string;
  scheduler : ASHAScheduler;
  stop : list (string * Z);
  progress_reporter : CLIReporter;
  resume : option string
}.

Inductive action : Type :=
| Stdout (text : string)
| Stderr (text : string)
| GenerateH5 (bed : string) (radius order : Z) (bw_files : list string)
| SetEnv (variable value : string)
| RayInit (num_cpus num_gpus : Z)
| RegisterTrainable (trainable_id : string)
| TuneRun (spec : RunSpec)
| RayShutdown.

Definition act (a : action) : M (list action) unit :=
  fun log => (Ok tt, log ++ [a]).

(** [xs*2 if len(xs) == 1 else xs] *)
Definition as_bounds (xs : list Q) : list Q :=
  if len xs =? 1 then xs ++ xs else xs.

(** [tune.loguniform(lower, upper)]: Ray Tune refuses a bound that is not
    positive. *)
Definition tune_loguniform (lower upper : Q) : result sampler :=
  if negb (Qltb 0 lower)
  then Raise (ValueError "LogUniform requires a lower bound greater than 0.")
  else if negb (Qltb 0 upper)
  then Raise (ValueError "LogUniform requires a upper bound greater than 0.")
  else Ok (loguniform lower upper).

(** The dictionary [config] of [main]; its entries are evaluated in the
    order in which they are written. *)
Definition search_space (args : Args) (learning_rate weight_decay : list Q)
  : result (list (string * sampler)) :=
  (hidden2_first <- index "list index out of range" (local_hidden2_size args) 0 ;;
   lr0 <- index "list index out of range" learning_rate 0 ;;
   lr1 <- index "list index out of range" learning_rate 1 ;;
   learning_rate_sampler <- tune_loguniform lr0 lr1 ;;
   wd0 <- index "list index out of range" weight_decay 0 ;;
   wd1 <- index "list index out of range" weight_decay 1 ;;
   weight_decay_sampler <- tune_loguniform wd0 wd1 ;;
   Ok [("local_radius", choice (local_radius args));
       ("local_order", choice (local_order args));
       ("local_hidden1_size", choice (local_hidden1_size args));
       ("local_hidden2_size",
        if (0 <? hidden2_first)%Z then choice (local_hidden2_size args)
        else half_of_local_hidden1_size);
       ("distal_radius", choice (distal_radius args));
       ("emb_dropout", choice_float (emb_dropout args));
       ("local_dropout", choice_float (local_dropout args));
       ("CNN_kernel_size", choice (CNN_kernel_size args));
       ("CNN_out_channels", choice (CNN_out_channels args));
       ("distal_fc_dropout", choice_float (distal_fc_dropout args));
       ("batch_size", choice (batch_size args));
       ("learning_rate", learning_rate_sampler);
       ("optim", choice_str (optim args));
       ("LR_gamma", choice_float (LR_gamma args));
       ("weight_decay", weight_decay_sampler);
       ("transfer_learning", fixed false)]%string)%res.

(** The [ASHAScheduler] of [main]:
    [ASHAScheduler(metric=ASHA_metric, mode='min', max_t=epochs,
    grace_period=grace_period, reduction_factor=2)], with the assertions of
    its constructor on [max_t] and [grace_period]. *)
Definition asha (args : Args) : result ASHAScheduler :=
  if negb (0 <? epochs args)
  then Raise (AssertionError "Max (time_attr) not valid!")
  else if negb (grace_period args <=? epochs args)
  then Raise (AssertionError "grace_period must be <= max_t!")
  else if negb (0 <? grace_period args)
  then Raise (AssertionError "grace_period must be positive!")
  else Ok {| metric := ASHA_metric args;
             mode := "min";
             max_t := epochs args;
             asha_grace_period := grace_period args;
             reduction_factor := 2 |}.

(** The [CLIReporter] of [main]. *)
Definition reporter : CLIReporter :=
  {| parameter_columns :=
       ["local_radius"; "local_order"; "local_hidden1_size"; "local_hidden2_size";
        "distal_radius"; "emb_dropout"; "local_dropout"; "CNN_kernel_size";
        "CNN_out_channels"; "distal_fc_dropout"; "optim"; "learning_rate";
        "weight_decay"; "LR_gamma"]%string;
     metric_columns :=
       ["loss"; "fdiri_loss"; "after_min_loss"; "score"; "total_params";
        "training_iteration"]%string |}.

(** The arguments [main] gives to [tune.run]. *)
Definition run_spec (args : Args) (space : list (string * sampler))
  (scheduler : ASHAScheduler) : RunSpec :=
  {| trainable := "Train";
     name := experiment_name args;
     resources_per_trial := (cpu_per_trial args, gpu_per_trial args);
     config := space;
     num_samples := n_trials args;
     local_dir := "./ray_results";
     scheduler := scheduler;
     stop := [("after_min_loss"%string, 3)];
     progress_reporter := reporter;
     resume := if rerun_failed args then Some "ERRORED_ONLY"%string else None |}.

(** [if path:] for an optional path: [None] and the empty string count as
    false. *)
Definition given (path : option string) : option string :=
  match path with
  | Some EmptyString => None
  | _ => path
  end.

(** [main], up to the files of the distal regions: the table of bigWig
    files, the bounds of the log-uniform samplers, one HDF5 file per
    distal radius.  Returns [bw_files], [learning_rate], [weight_decay]. *)
Definition prepare (host : Host) (args : Args)
  : M (list action) (list string * list Q * list Q) :=
  (act (Stdout "Start time:") ;;;
   act (Stdout "sys.argv") ;;;
   act (Stdout "args.split_seed:") ;;;
   '(bw_files, bw_names) <-
      match given (bw_paths args) with
      | Some path =>
          match bw_table host with
          | Some (files, names) => ret (files, names)
          | None => act (Stdout "Warnings: no bigWig files provided in") ;;;
                    ret ([], [])
          end
      | None => act (Stdout "NOTE: no bigWig files provided.") ;;; ret ([], [])
      end ;;
   let learning_rate := as_bounds (learning_rate args) in
   let weight_decay := as_bounds (weight_decay args) in
   for_each (distal_radius args)
     (fun _ d_radius =>
        act (GenerateH5 (train_data args) d_radius (distal_order args) bw_files))
     tt ;;;
   match given (validation_data args) with
   | Some valid_file =>
       for_each (distal_radius args)
         (fun _ d_radius =>
            act (GenerateH5 valid_file d_radius (distal_order args) bw_files))
         tt
   | None => ret tt
   end ;;;
   ret (bw_files, learning_rate, weight_decay))%M.

(** [main]: the check of the requested GPU. *)
Definition select_device (host : Host) (args : Args) : M (list action) unit :=
  (if (0 <? ray_ngpus args) || Qltb 0 (gpu_per_trial args)
   then (if negb (cuda_is_available host)
         then act (Stderr "Error: You requested GPU computing, but CUDA is not available!") ;;;
              raise (SystemExit None)
         else ret tt) ;;;
        act (SetEnv "CUDA_DEVICE_ORDER" "PCI_BUS_ID") ;;;
        act (SetEnv "CUDA_VISIBLE_DEVICES" (cuda_id args)) ;;;
        act (Stdout "Ray is using GPU device")
   else act (Stdout "Ray is using only CPUs ..."))%M.

(** [main]: from [ray.init] to the end. *)
Definition launch (host : Host) (args : Args) (learning_rate weight_decay : list Q)
  : M (list action) unit :=
  (act (RayInit (ray_ncpus args) (ray_ngpus args)) ;;;
   space <-- search_space args learning_rate weight_decay ;;
   scheduler <-- asha args ;;
   act (RegisterTrainable "Train") ;;;
   act (TuneRun (run_spec args space scheduler)) ;;;
   match tune_run_raises host with
   | Some e => raise e
   | None => ret tt
   end ;;;
   act RayShutdown ;;;
   act (Stdout "Total time used:"))%M.

Definition main (host : Host) (args : Args) : M (list action) unit :=
  ('(_, learning_rate, weight_decay) <- prepare host args ;;
   select_device host args ;;;
   launch host args learning_rate weight_decay)%M.

(** The exit status of the Python process that ran [main]. *)
Definition exit_status (outcome : result unit) : Z :=
  match outcome with
  | Ok _ => 0
  | Raise (SystemExit None) => 0
  | Raise (SystemExit (Some code)) => code
  | Raise _ => 1
  end.

Definition launches_trials (a : action) : bool :=
  match a with
  | RayInit _ _ | TuneRun _ => true
  | _ => false
  end.

End Driver.

(** ** What a computation does, whatever the world it starts in *)

Definition outcome {S A : Type} (m : M S A) (r : result A) : Prop :=
  forall s, exists s', m s = (r, s').

Definition returns {S A : Type} (m : M S A) (a : A) : Prop := outcome m (Ok a).

Definition raises {S A : Type} (m : M S A) (e : exn) : Prop := outcome m (Raise e).




(** [m] extends the log of the driver by actions that launch no trial. *)
Definition launches_nothing {A : Type} (m : M (list Driver.action) A) : Prop :=
  forall log, exists added,
    snd (m log) = log ++ added /\ existsb Driver.launches_trials added = false.


(** The entry of sample [b] and class [c]. *)
Definition entry (x : list (list R)) (b c : nat) : R := nth c (nth b x []) 0%R.


(** A probability distribution over the classes. *)
Definition is_distribution (p : list R) : Prop :=
  Forall (fun v => (0 <= v)%R) p /\ Rsum p = 1%R.


(** ** The model of a trial *)







(** ** ResBlock2 *)

Module ResBlock2.

Record t : Type := {
  bn1 : Module0;
  conv1 : Module0;
  bn2 : Module0;
  conv2 : Module0;
  layer : list Module0
}.

(** [ResBlock2.__init__(in_channels, kernel_size, stride, padding, dilation)]:
    the layers of [ResBlock], each normalisation now before its
    activation. *)
Definition init (in_channels kernel_size stride padding dilation : Z) : t :=
  let bn1 := BatchNorm1d in_channels in
  let conv1 := Conv1d in_channels in_channels kernel_size stride padding dilation in
  let bn2 := BatchNorm1d in_channels in
  let conv2 := Conv1d in_channels in_channels kernel_size stride padding dilation in
  {| bn1 := bn1; conv1 := conv1; bn2 := bn2; conv2 := conv2;
     layer := [bn1; ReLU; conv1; bn2; ReLU; conv2] |}.

(** [ResBlock2.forward] *)
Definition forward (B : Backend) (training : bool) (self : t) (x : tensor B)
  : M (world B) (tensor B) :=
  (out <- Sequential0_call B training (layer self) x ;;
   x_len <-- shape_at B x 2 ;;
   out_len <-- shape_at B out 2 ;;
   let d := x_len - out_len in
   x_head <-- slice2 B x 0 (x_len - d) ;;
   lift (t_add B x_head out))%M.

End ResBlock2.

(** ** Tensor operations of the bottleneck block and of the transformer model *)

(** A [nn.TransformerEncoder] of [num_layers] copies of a
    [nn.TransformerEncoderLayer] with activation [gelu]. *)
Record TransformerEncoder : Type := {
  enc_d_model : Z;
  enc_nhead : Z;
  enc_dim_feedforward : Z;
  enc_dropout : Q;
  enc_num_layers : Z
}.

(** [nn.TransformerEncoder(nn.TransformerEncoderLayer(d_model, nhead,
    dim_feedforward, dropout, activation='gelu'), num_layers)] for a
    positive width and a positive number of heads.  The attention of the
    layer asserts that the number of heads divides the width; then the
    layer builds [Linear(d_model, dim_feedforward)] and [Dropout(dropout)].
    The copies of the layer, [range(num_layers)] of them, are made without
    a check. *)
Definition nn_TransformerEncoder (d_model nhead : positive) (dim_feedforward : Z)
  (dropout : Q) (num_layers : Z) : result TransformerEncoder :=
  if negb (Z.pos d_model mod Z.pos nhead =? 0)
  then Raise (AssertionError "embed_dim must be divisible by num_heads")
  else
    (linear1 <- nn_Linear (Z.pos d_model) dim_feedforward ;;
     dropout_layer <- nn_Dropout dropout ;;
     Ok {| enc_d_model := Z.pos d_model;
           enc_nhead := Z.pos nhead;
           enc_dim_feedforward := dim_feedforward;
           enc_dropout := dropout;
           enc_num_layers := num_layers |})%res.

Record Backend' : Type := {
  base :> Backend;
  (** [x += y] *)
  t_iadd : tensor base -> tensor base -> result (tensor base);
  (** [x * y] *)
  t_mul : tensor base -> tensor base -> result (tensor base);
  (** [x * c] for a Python float [c] *)
  t_scale : tensor base -> R -> result (tensor base);
  (** [torch.arange(0, stop, step)] for a positive [step] *)
  torch_arange : Z -> Z -> result (tensor base);
  (** [x.unsqueeze(1)] *)
  unsqueeze1 : tensor base -> result (tensor base);
  (** [torch.zeros(a, b, c)] *)
  torch_zeros3 : Z -> Z -> Z -> result (tensor base);
  (** [torch.exp(x)], [torch.sin(x)], [torch.cos(x)] *)
  torch_exp : tensor base -> result (tensor base);
  torch_sin : tensor base -> result (tensor base);
  torch_cos : tensor base -> result (tensor base);
  (** [x[:, 0, start::2] = v], the updated [x] *)
  setitem_stride2 : tensor base -> Z -> tensor base -> result (tensor base);
  (** [x.permute(2, 0, 1)] *)
  permute201 : tensor base -> result (tensor base);
  (** [x[:n]] *)
  slice0_to : tensor base -> Z -> result (tensor base);
  (** [x.mean(dim=0)] *)
  mean0 : tensor base -> result (tensor base);
  (** the call of a [nn.TransformerEncoder] *)
  transformer_call : bool -> TransformerEncoder -> tensor base
                     -> M (world base) (tensor base)
}.

(** ** ResidualBlock: the bottleneck block *)

Module ResidualBlock.

Record t : Type := {
  in_channels : Z;
  out_channels : Z;
  stride : Z;
  bn1 : Module0;
  relu : Module0;
  conv1 : Module0;
  bn2 : Module0;
  conv2 : Module0;
  bn3 : Module0;
  conv3 : Module0;
  conv4 : Module0
}.

(** [ResidualBlock.__init__(in_channels, out_channels, stride=1)].  The
    convolutions have [bias = False], and the activation works in place, on
    tensors that [forward] does not read again: neither changes a shape. *)
Definition init (in_channels out_channels stride : Z) : t :=
  {| in_channels := in_channels;
     out_channels := out_channels;
     stride := stride;
     bn1 := BatchNorm1d in_channels;
     relu := ReLU;
     conv1 := Conv1d in_channels (out_channels / 4) 1 1 0 1;
     bn2 := BatchNorm1d (out_channels / 4);
     conv2 := Conv1d (out_channels / 4) (out_channels / 4) 3 stride 1 1;
     bn3 := BatchNorm1d (out_channels / 4);
     conv3 := Conv1d (out_channels / 4) out_channels 1 1 0 1;
     conv4 := Conv1d in_channels out_channels 1 stride 0 1 |}.

(** [ResidualBlock.forward] *)
Definition forward (B : Backend') (training : bool) (self : t) (x : tensor B)
  : M (world B) (tensor B) :=
  let call := nn_call B training in
  (let residual := x in
   out <- call (bn1 self) x ;;
   out1 <- call (relu self) out ;;
   out <- call (conv1 self) out1 ;;
   out <- call (bn2 self) out ;;
   out <- call (relu self) out ;;
   out <- call (conv2 self) out ;;
   out <- call (bn3 self) out ;;
   out <- call (relu self) out ;;
   out <- call (conv3 self) out ;;
   residual <- (if negb (in_channels self =? out_channels self)
                   || negb (stride self =? 1)
                then call (conv4 self) out1
                else ret residual) ;;
   lift (t_iadd B out residual))%M.

End ResidualBlock.

(** ** PositionalEncoding *)

Module PositionalEncoding.

Record t (B : Backend') : Type := {
  dropout : Module0;
  pe : tensor B
}.

Arguments dropout {B} _.
Arguments pe {B} _.

(** [PositionalEncoding.__init__(d_model, dropout=0.1, max_len=5000)].  The
    width [d_model] is positive: [-math.log(10000.0) / d_model] divides by
    it.  The first statement builds [nn.Dropout(p=dropout)]. *)
Definition init (B : Backend') (d_model : positive) (dropout : Q) (max_len : Z)
  : result (t B) :=
  (dropout_layer <- nn_Dropout dropout ;;
   numbers <- torch_arange B max_len 1 ;;
   position <- unsqueeze1 B numbers ;;
   evens <- torch_arange B (Z.pos d_model) 2 ;;
   scaled <- t_scale B evens (- ln 10000 / IZR (Z.pos d_model))%R ;;
   div_term <- torch_exp B scaled ;;
   pe <- torch_zeros3 B max_len 1 (Z.pos d_model) ;;
   angles <- t_mul B position div_term ;;
   sines <- torch_sin B angles ;;
   pe <- setitem_stride2 B pe 0 sines ;;
   angles <- t_mul B position div_term ;;
   cosines <- torch_cos B angles ;;
   pe <- setitem_stride2 B pe 1 cosines ;;
   Ok {| dropout := dropout_layer; pe := pe |})%res.

(** The default [dropout=0.1] and [max_len=5000]. *)
Definition init_default (B : Backend') (d_model : positive) : result (t B) :=
  init B d_model (1 # 10) 5000.

(** [PositionalEncoding.forward] *)
Definition forward (B : Backend') (training : bool) (self : t B) (x : tensor B)
  : M (world B) (tensor B) :=
  (n <-- shape_at B x 0 ;;
   rows <-- slice0_to B (pe self) n ;;
   x <-- t_add B x rows ;;
   nn_call B training (dropout self) x)%M.

End PositionalEncoding.

(** ** MuTransformer: the transformer model of the expanded input *)

Module MuTransformer.

Record t (B : Backend') : Type := {
  n_class : Z;
  kernel_size : Z;
  seq_len : Z;
  conv1 : list Module0;
  pos_encoder : PositionalEncoding.t B;
  transformer_encoder : TransformerEncoder;
  classifier : list Module0;
  d_model : Z;
  training : bool
}.

Arguments n_class {B} _.
Arguments kernel_size {B} _.
Arguments seq_len {B} _.
Arguments conv1 {B} _.
Arguments pos_encoder {B} _.
Arguments transformer_encoder {B} _.
Arguments classifier {B} _.
Arguments d_model {B} _.
Arguments training {B} _.

(** [MuTransformer.__init__]; a new module is in training mode.  The
    number of channels is the width of the positional encoding and the
    number of heads divides it in the encoder layer: both are positive.
    The layers are built in the order of the source: the first
    convolution, the positional encoding, the encoder, the classifier.
    The line that the constructor prints is left out. *)
Definition init (B : Backend') (in_channels : Z) (out_channels : positive)
  (kernel_size distal_radius distal_order : Z) (distal_fc_dropout : Q) (n_class : Z)
  (nhead : positive) (dim_feedforward : Z) (trans_dropout : Q) (num_layers : Z)
  : result (t B) :=
  (let seq_len := distal_radius * 2 + 1 - (distal_order - 1) in
   conv1 <- conv_layers in_channels (Z.pos out_channels) kernel_size ;;
   pos_encoder <- PositionalEncoding.init B out_channels trans_dropout seq_len ;;
   transformer_encoder <- nn_TransformerEncoder out_channels nhead dim_feedforward
                            trans_dropout num_layers ;;
   classifier <- fc_layers (Z.pos out_channels) distal_fc_dropout n_class ;;
   Ok {| n_class := n_class;
         kernel_size := kernel_size;
         seq_len := seq_len;
         conv1 := conv1;
         pos_encoder := pos_encoder;
         transformer_encoder := transformer_encoder;
         classifier := classifier;
         d_model := Z.pos out_channels;
         training := true |})%res.

(** [model.eval()] and [model.train()] *)
Definition set_training {B : Backend'} (mode : bool) (self : t B) : t B :=
  {| n_class := n_class self; kernel_size := kernel_size self; seq_len := seq_len self;
     conv1 := conv1 self; pos_encoder := pos_encoder self;
     transformer_encoder := transformer_encoder self; classifier := classifier self;
     d_model := d_model self; training := mode |}.

(** [MuTransformer.forward(local_input, distal_input)] *)
Definition forward (B : Backend') (self : t B) (local_input : tensor B * tensor B)
  (distal_input : tensor B) : M (world B) (tensor B) :=
  (x <- Sequential0_call B (training self) (conv1 self) distal_input ;;
   x <-- permute201 B x ;;
   x <-- t_scale B x (sqrt (IZR (d_model self))) ;;
   x <- PositionalEncoding.forward B (training self) (pos_encoder self) x ;;
   x <- transformer_call B (training self) (transformer_encoder self) x ;;
   x <-- mean0 B x ;;
   Sequential0_call B (training self) (classifier self) x)%M.

End MuTransformer.

(** ** The shapes of the further operations *)

(** [x += y]: [y] is broadcast to the shape of [x], which stays. *)
Definition t_iadd_shape (x y : list Z) : result (list Z) :=
  (z <- t_add_shape x y ;;
   if list_eqb z x then Ok x
   else Raise (RuntimeError "output with shape doesn't match the broadcast shape"))%res.

(** [torch.arange(0, stop, step)], [step > 0] *)
Definition torch_arange_shape (stop step : Z) : result (list Z) :=
  if stop <? 0
  then Raise (RuntimeError "upper bound and larger bound inconsistent with step sign")
  else Ok [(stop + step - 1) / step].

Definition unsqueeze1_shape (x : list Z) : result (list Z) :=
  match x with
  | a :: rest => Ok (a :: 1 :: rest)
  | [] => Raise (IndexError "Dimension out of range")
  end.

Definition torch_zeros3_shape (a b c : Z) : result (list Z) :=
  if (a <? 0) || (b <? 0) || (c <? 0)
  then Raise (RuntimeError "Trying to create tensor with negative dimension")
  else Ok [a; b; c].

(** [len(range(start, n, 2))] for [0 <= start] *)
Definition stride2_len (n start : Z) : Z := Z.max ((n - start + 1) / 2) 0.

(** A tensor of shape [v] can be expanded to the shape [target]; both are
    read from the last dimension on. *)
Fixpoint expands_to_rev (v target : list Z) : bool :=
  match v, target with
  | [], _ => true
  | _ :: _, [] => false
  | a :: v', b :: target' => ((a =? b) || (a =? 1)) && expands_to_rev v' target'
  end.

(** [x[:, 0, start::2] = v]: [v] is expanded to the shape of the part of
    [x] that is written. *)
Definition setitem_stride2_shape (x : list Z) (start : Z) (v : list Z)
  : result (list Z) :=
  match x with
  | [a; b; c] =>
      if b <=? 0
      then Raise (IndexError "index 0 is out of bounds for dimension 1 with size 0")
      else if expands_to_rev (rev v) (rev [a; stride2_len c start]) then Ok x
      else Raise (RuntimeError "The expanded size of the tensor must match the existing size")
  | _ => Raise (IndexError "too many indices for tensor")
  end.

Definition permute201_shape (x : list Z) : result (list Z) :=
  match x with
  | [a; b; c] => Ok [c; a; b]
  | _ => Raise (RuntimeError "permute: number of dimensions does not match the ordering")
  end.

(** [x[:n]] *)
Definition slice0_to_shape (x : list Z) (n : Z) : result (list Z) :=
  match x with
  | a :: rest => Ok (slice_len a 0 n :: rest)
  | [] => Raise (IndexError "slice() cannot be applied to a 0-dim tensor")
  end.

(** [x.mean(dim=0)] *)
Definition mean0_shape (x : list Z) : result (list Z) :=
  match x with
  | _ :: rest => Ok rest
  | [] => Ok []
  end.

(** The encoder keeps the shape [seq, batch, d_model] of its input, whose
    last dimension has to be [d_model].  Its [forward] starts from
    [self.layers[0]]: an encoder without layers raises [IndexError]. *)
Definition TransformerEncoder_shape (enc : TransformerEncoder) (x : list Z)
  : result (list Z) :=
  if enc_num_layers enc <=? 0 then Raise (IndexError "index 0 is out of range")
  else match x with
       | [_; e] | [_; _; e] =>
           if e =? enc_d_model enc then Ok x
           else Raise (AssertionError "was expecting embedding dimension of d_model")
       | _ => Raise (AssertionError "query should be unbatched 2D or batched 3D tensor")
       end.

(** The shape backend with the further operations; the trace keeps to the
    calls of the layers of [Module0]. *)
Definition ShapeBackend' : Backend' :=
  {| base := ShapeBackend;
     t_iadd := t_iadd_shape;
     t_mul := t_add_shape;
     t_scale := fun x _ => Ok x;
     torch_arange := torch_arange_shape;
     unsqueeze1 := unsqueeze1_shape;
     torch_zeros3 := torch_zeros3_shape;
     torch_exp := fun x => Ok x;
     torch_sin := fun x => Ok x;
     torch_cos := fun x => Ok x;
     setitem_stride2 := setitem_stride2_shape;
     permute201 := permute201_shape;
     slice0_to := slice0_to_shape;
     mean0 := mean0_shape;
     transformer_call := fun _ enc x => lift (TransformerEncoder_shape enc x) |}.

(** The shape a [nn.Sequential] of library layers gives to its input. *)
Definition Sequential0_shape (training : bool) (layers : list Module0) (x : list Z)
  : result (list Z) :=
  fold_left (fun acc layer => rbind acc (Module0_shape training layer)) layers (Ok x).

(** The statements that follow [self.layer(x)] in the forward pass of the
    two residual blocks, on shapes. *)
Definition skip_add_shape (x out : list Z) : result (list Z) :=
  (x_len <- index "tuple index out of range" x 2 ;;
   out_len <- index "tuple index out of range" out 2 ;;
   x_head <- slice2_shape x 0 (x_len - (x_len - out_len)) ;;
   t_add_shape x_head out)%res.

(** ** The actions of the driver, by kind *)

Definition is_h5_request (a : Driver.action) : bool :=
  match a with
  | Driver.GenerateH5 _ _ _ _ => true
  | _ => false
  end.

Definition is_ray_call (a : Driver.action) : bool :=
  match a with
  | Driver.RayInit _ _ | Driver.RegisterTrainable _ | Driver.TuneRun _
  | Driver.RayShutdown => true
  | _ => false
  end.

Definition sets_env (a : Driver.action) : bool :=
  match a with
  | Driver.SetEnv _ _ => true
  | _ => false
  end.

(** The list [bw_files] of [main] once the table at [bw_paths] is read. *)
Definition bw_files_of (host : Driver.Host) (args : Driver.Args) : list string :=
  match Driver.given (Driver.bw_paths args) with
  | Some _ =>
      match Driver.bw_table host with
      | Some (files, _) => files
      | None => []
      end
  | None => []
  end.

(** The calls of [generate_h5f] in the two loops of [main]. *)
Definition h5_requests (host : Driver.Host) (args : Driver.Args) : list Driver.action :=
  map (fun d_radius =>
         Driver.GenerateH5 (Driver.train_data args) d_radius (Driver.distal_order args)
           (bw_files_of host args))
      (Driver.distal_radius args)
  ++ match Driver.given (Driver.validation_data args) with
     | Some valid_file =>
         map (fun d_radius =>
                Driver.GenerateH5 valid_file d_radius (Driver.distal_order args)
                  (bw_files_of host args))
             (Driver.distal_radius args)
     | None => []
     end.

(** [config[key]] *)
Fixpoint sampler_of (key : string) (space : list (string * Driver.sampler))
  : option Driver.sampler :=
  match space with
  | [] => None
  | (k, s) :: rest => if String.eqb k key then Some s else sampler_of key rest
  end.

(** Two machines that differ at most in the availability of CUDA. *)
Definition same_but_cuda (h1 h2 : Driver.Host) : Prop :=
  Driver.bw_table h1 = Driver.bw_table h2
  /\ Driver.tune_run_raises h1 = Driver.tune_run_raises h2.

(** The two bounds of a log-uniform sampler, from the values of the command
    line: one value is both bounds, of more values the first two count. *)
Definition bounds_of (xs : list Q) : option (Q * Q) :=
  match xs with
  | [] => None
  | [v] => Some (v, v)
  | lower :: upper :: _ => Some (lower, upper)
  end.

(** Values of [--learning_rate] or [--weight_decay] whose two bounds
    [tune.loguniform] accepts. *)
Definition positive_bounds (xs : list Q) : Prop :=
  match bounds_of xs with
  | Some (lower, upper) => (0 < lower /\ 0 < upper)%Q
  | None => False
  end.

(** The scheduler that [main] asks for. *)
Definition requested_scheduler (args : Driver.Args) : Driver.ASHAScheduler :=
  {| Driver.metric := Driver.ASHA_metric args;
     Driver.mode := "min";
     Driver.max_t := Driver.epochs args;
     Driver.asha_grace_period := Driver.grace_period args;
     Driver.reduction_factor := 2 |}.


(** The command line [--ray_ngpus 0 --gpu_per_trial 0], other arguments at
    their defaults. *)
Definition cpu_only_args : Driver.Args :=
  let d := Driver.default_args "seq.fa" "train.sorted.bed" in
  {| Driver.ref_genome := Driver.ref_genome d;
     Driver.train_data := Driver.train_data d;
     Driver.validation_data := Driver.validation_data d;
     Driver.bw_paths := Driver.bw_paths d;
     Driver.seq_only := Driver.seq_only d;
     Driver.n_class := Driver.n_class d;
     Driver.local_radius := Driver.local_radius d;
     Driver.local_order := Driver.local_order d;
     Driver.local_hidden1_size := Driver.local_hidden1_size d;
     Driver.local_hidden2_size := Driver.local_hidden2_size d;
     Driver.distal_radius := Driver.distal_radius d;
     Driver.distal_order := Driver.distal_order d;
     Driver.batch_size := Driver.batch_size d;
     Driver.emb_dropout := Driver.emb_dropout d;
     Driver.local_dropout := Driver.local_dropout d;
     Driver.CNN_kernel_size := Driver.CNN_kernel_size d;
     Driver.CNN_out_channels := Driver.CNN_out_channels d;
     Driver.distal_fc_dropout := Driver.distal_fc_dropout d;
     Driver.model_no := Driver.model_no d;
     Driver.optim := Driver.optim d;
     Driver.cuda_id := Driver.cuda_id d;
     Driver.valid_ratio := Driver.valid_ratio d;
     Driver.split_seed := Driver.split_seed d;
     Driver.learning_rate := Driver.learning_rate d;
     Driver.weight_decay := Driver.weight_decay d;
     Driver.LR_gamma := Driver.LR_gamma d;
     Driver.epochs := Driver.epochs d;
     Driver.grace_period := Driver.grace_period d;
     Driver.n_trials := Driver.n_trials d;
     Driver.experiment_name := Driver.experiment_name d;
     Driver.ASHA_metric := Driver.ASHA_metric d;
     Driver.ray_ncpus := Driver.ray_ncpus d;
     Driver.ray_ngpus := 0;
     Driver.cpu_per_trial := Driver.cpu_per_trial d;
     Driver.gpu_per_trial := 0;
     Driver.save_valid_preds := Driver.save_valid_preds d;
     Driver.rerun_failed := Driver.rerun_failed d |}.

(** The command line [--learning_rate 0.001 0.01 0.1], other arguments at
    their defaults. *)
Definition three_learning_rates : Driver.Args :=
  let d := Driver.default_args "seq.fa" "train.sorted.bed" in
  {| Driver.ref_genome := Driver.ref_genome d;
     Driver.train_data := Driver.train_data d;
     Driver.validation_data := Driver.validation_data d;
     Driver.bw_paths := Driver.bw_paths d;
     Driver.seq_only := Driver.seq_only d;
     Driver.n_class := Driver.n_class d;
     Driver.local_radius := Driver.local_radius d;
     Driver.local_order := Driver.local_order d;
     Driver.local_hidden1_size := Driver.local_hidden1_size d;
     Driver.local_hidden2_size := Driver.local_hidden2_size d;
     Driver.distal_radius := Driver.distal_radius d;
     Driver.distal_order := Driver.distal_order d;
     Driver.batch_size := Driver.batch_size d;
     Driver.emb_dropout := Driver.emb_dropout d;
     Driver.local_dropout := Driver.local_dropout d;
     Driver.CNN_kernel_size := Driver.CNN_kernel_size d;
     Driver.CNN_out_channels := Driver.CNN_out_channels d;
     Driver.distal_fc_dropout := Driver.distal_fc_dropout d;
     Driver.model_no := Driver.model_no d;
     Driver.optim := Driver.optim d;
     Driver.cuda_id := Driver.cuda_id d;
     Driver.valid_ratio := Driver.valid_ratio d;
     Driver.split_seed := Driver.split_seed d;
     Driver.learning_rate := [1 # 1000; 1 # 100; 1 # 10];
     Driver.weight_decay := Driver.weight_decay d;
     Driver.LR_gamma := Driver.LR_gamma d;
     Driver.epochs := Driver.epochs d;
     Driver.grace_period := Driver.grace_period d;
     Driver.n_trials := Driver.n_trials d;
     Driver.experiment_name := Driver.experiment_name d;
     Driver.ASHA_metric := Driver.ASHA_metric d;
     Driver.ray_ncpus := Driver.ray_ncpus d;
     Driver.ray_ngpus := Driver.ray_ngpus d;
     Driver.cpu_per_trial := Driver.cpu_per_trial d;
     Driver.gpu_per_trial := Driver.gpu_per_trial d;
     Driver.save_valid_preds := Driver.save_valid_preds d;
     Driver.rerun_failed := Driver.rerun_failed d |}.

(** ** What a computation leaves of the world *)

(** Every step of [m] takes a world to one related to it by [R]. *)
Definition steps {A : Type} (R : shape_world -> shape_world -> Prop)
  (m : M shape_world A) : Prop :=
  forall w, R w (snd (m w)).

(** [R] holds between a world and itself, through successive steps, and
    across the record of a layer call. *)
Definition kept_by_calls (R : shape_world -> shape_world -> Prop) : Prop :=
  (forall w, R w w)
  /\ (forall w1 w2 w3, R w1 w2 -> R w2 w3 -> R w1 w3)
  /\ (forall tr layer x w, R w (snd (emit (Call tr layer x) w))).

Definition is_printed (e : event) : bool :=
  match e with
  | Printed _ => true
  | Call _ _ _ => false
  end.

(** The trace has grown. *)
Definition grown (w w' : shape_world) : Prop :=
  exists added, trace w' = trace w ++ added.

(** No number was taken from the random generator of NumPy. *)
Definition undrawn (w w' : shape_world) : Prop :=
  rng w' = rng w /\ rng_pos w' = rng_pos w.

(** No number was taken from the generator of NumPy and nothing was
    printed. *)
Definition silent (w w' : shape_world) : Prop :=
  undrawn w w'
  /\ filter is_printed (trace w') = filter is_printed (trace w).

(** [m] takes at most one number from the generator of NumPy, and exactly
    one when it returns. *)
Definition draws_one {A : Type} (m : M shape_world A) : Prop :=
  forall w,
    rng (snd (m w)) = rng w
    /\ (rng_pos (snd (m w)) <= S (rng_pos w))%nat
    /\ (forall a, fst (m w) = Ok a -> rng_pos (snd (m w)) = S (rng_pos w)).

(** The logits [x] with [c i] added to every entry of sample [i], the first
    row being sample [first]. *)
Fixpoint shift_rows (c : nat -> R) (first : nat) (x : list (list R)) : list (list R) :=
  match x with
  | [] => []
  | row :: rest => map (fun v => (v + c first)%R) row :: shift_rows c (S first) rest
  end.

(** * Properties *)

Section Monad_facts.

Context {S A B : Type}.

Lemma returns_ret (a : A) : returns (@ret S A a) a.
Proof. intros s. exists s. reflexivity. Qed.

Lemma returns_lift (r : result A) (a : A) : r = Ok a -> returns (@lift S A r) a.
Proof. intros -> s. exists s. reflexivity. Qed.

Lemma returns_bind (m : M S A) (k : A -> M S B) (a : A) (b : B) :
  returns m a -> returns (k a) b -> returns (bind m k) b.
Proof.
  intros Hm Hk s. unfold bind.
  destruct (Hm s) as [s1 ->]. apply Hk.
Qed.

Lemma raises_bind (m : M S A) (k : A -> M S B) (e : exn) :
  raises m e -> raises (bind m k) e.
Proof.
  intros Hm s. unfold bind.
  destruct (Hm s) as [s1 ->]. exists s1. reflexivity.
Qed.

Lemma raises_after (m : M S A) (k : A -> M S B) (a : A) (e : exn) :
  returns m a -> raises (k a) e -> raises (bind m k) e.
Proof.
  intros Hm Hk s. unfold bind.
  destruct (Hm s) as [s1 ->]. apply Hk.
Qed.

Lemma outcome_bind (m : M S A) (k : A -> M S B) (a : A) (r : result B) :
  returns m a -> outcome (k a) r -> outcome (bind m k) r.
Proof.
  intros Hm Hk s. unfold bind.
  destruct (Hm s) as [s1 ->]. apply Hk.
Qed.


Lemma raises_lift (r : result A) (e : exn) : r = Raise e -> raises (@lift S A r) e.
Proof. intros -> s. exists s. reflexivity. Qed.

Lemma returns_inj (m : M S A) (a a' : A) (s0 : S) :
  returns m a -> returns m a' -> a = a'.
Proof.
  intros H H'. destruct (H s0) as [s1 E], (H' s0) as [s2 E'].
  congruence.
Qed.

End Monad_facts.

Lemma bind_assoc {S A B C : Type} (m : M S A) (k : A -> M S B) (h : B -> M S C) (s : S) :
  bind (bind m k) h s = bind m (fun a => bind (k a) h) s.
Proof.
  unfold bind. destruct (m s) as [[a | e] s1]; reflexivity.
Qed.

Lemma bind_cong {S A B : Type} (m : M S A) (k k' : A -> M S B) (s : S) :
  (forall a s', k a s' = k' a s') -> bind m k s = bind m k' s.
Proof.
  intros H. unfold bind. destruct (m s) as [[a | e] s1]; [apply H | reflexivity].
Qed.

Lemma returns_assert {S : Type} (cond : bool) (msg : string) :
  cond = true -> returns (@assert_ S cond msg) tt.
Proof. intros ->. apply returns_ret. Qed.


(** ** The constructors: what a built module is *)

Section Constructor_facts.

Lemma rbind_Ok {A B : Type} (r : result A) (k : A -> result B) (b : B) :
  rbind r k = Ok b -> exists a, r = Ok a /\ k a = Ok b.
Proof. destruct r as [a | e]; [| discriminate]. intros H. exists a. split; [reflexivity | exact H]. Qed.

Lemma nn_Embedding_Ok (n d : Z) (m : Module0) :
  nn_Embedding n d = Ok m -> m = Embedding n d /\ 0 <= n /\ 0 <= d.
Proof.
  unfold nn_Embedding.
  destruct (Z.ltb_spec n 0); [discriminate |].
  destruct (Z.ltb_spec d 0); [discriminate |].
  cbn [orb]. intros [= <-]. repeat split; assumption.
Qed.

Lemma nn_Linear_Ok (i o : Z) (m : Module0) :
  nn_Linear i o = Ok m -> m = Linear i o /\ 0 <= i /\ 0 <= o.
Proof.
  unfold nn_Linear.
  destruct (Z.ltb_spec i 0); [discriminate |].
  destruct (Z.ltb_spec o 0); [discriminate |].
  cbn [orb]. intros [= <-]. repeat split; assumption.
Qed.

Lemma nn_BatchNorm1d_Ok (n : Z) (m : Module0) :
  nn_BatchNorm1d n = Ok m -> m = BatchNorm1d n /\ 0 <= n.
Proof.
  unfold nn_BatchNorm1d.
  destruct (Z.ltb_spec n 0); [discriminate |].
  intros [= <-]. split; [reflexivity | assumption].
Qed.

(** A rate that [nn.Dropout] accepts. *)
Lemma nn_Dropout_Ok (p : Q) (m : Module0) :
  nn_Dropout p = Ok m -> m = Dropout p /\ (0 <= p <= 1)%Q.
Proof.
  unfold nn_Dropout, Qltb.
  destruct (Qle_bool 0 p) eqn:E0; [| discriminate].
  destruct (Qle_bool p 1) eqn:E1; [| discriminate].
  cbn [negb orb]. intros [= <-].
  split; [reflexivity |]. split; apply Qle_bool_iff; assumption.
Qed.

Lemma nn_Dropout_accepts (p : Q) : (0 <= p <= 1)%Q -> nn_Dropout p = Ok (Dropout p).
Proof.
  intros [H0 H1]. unfold nn_Dropout, Qltb.
  apply Qle_bool_iff in H0. apply Qle_bool_iff in H1. rewrite H0, H1. reflexivity.
Qed.

Lemma nn_Dropout_refuses (p : Q) :
  (p < 0 \/ 1 < p)%Q ->
  nn_Dropout p = Raise (ValueError "dropout probability has to be between 0 and 1").
Proof.
  intros H. unfold nn_Dropout, Qltb.
  destruct (Qle_bool 0 p) eqn:E0; cbn [negb orb]; [| reflexivity].
  destruct (Qle_bool p 1) eqn:E1; cbn [negb]; [| reflexivity].
  apply Qle_bool_iff in E0. apply Qle_bool_iff in E1.
  destruct H as [H | H]; [apply Qlt_not_le in H | apply Qlt_not_le in H]; contradiction.
Qed.

Lemma nn_Conv1d_Ok (i o k s p d : Z) (m : Module0) :
  nn_Conv1d i o k s p d = Ok m -> m = Conv1d i o k s p d /\ 0 <= i /\ 0 <= o /\ 0 <= k.
Proof.
  unfold nn_Conv1d.
  destruct (Z.ltb_spec i 0); [discriminate |].
  destruct (Z.ltb_spec o 0); [discriminate |].
  destruct (Z.ltb_spec k 0); [discriminate |].
  cbn [orb]. intros [= <-]. repeat split; assumption.
Qed.

Lemma map_result_Ok {A B : Type} (f : A -> result B) (g : A -> B) (P : A -> Prop)
  (xs : list A) (ys : list B) :
  (forall x y, f x = Ok y -> y = g x /\ P x) ->
  map_result f xs = Ok ys -> ys = map g xs /\ Forall P xs.
Proof.
  intros Hf. revert ys. induction xs as [| x xs IH]; intros ys H.
  - injection H as <-. split; [reflexivity | constructor].
  - cbn [map_result] in H.
    apply rbind_Ok in H. destruct H as [y [Ey H]].
    apply rbind_Ok in H. destruct H as [ys' [Eys H]].
    injection H as <-.
    destruct (Hf x y Ey) as [-> Px]. destruct (IH ys' Eys) as [-> Pxs].
    split; [reflexivity | constructor; assumption].
Qed.

Lemma map_result_accepts {A B : Type} (f : A -> result B) (g : A -> B) (xs : list A) :
  Forall (fun x => f x = Ok (g x)) xs -> map_result f xs = Ok (map g xs).
Proof.
  induction 1 as [| x xs Hx _ IH]; [reflexivity |].
  cbn [map_result map]. rewrite Hx. cbn [rbind]. rewrite IH. reflexivity.
Qed.

Lemma ResBlock_construct_Ok (c k s p d : Z) (rb : ResBlock.t) :
  ResBlock.construct c k s p d = Ok rb -> rb = ResBlock.init c k s p d /\ 0 <= c /\ 0 <= k.
Proof.
  unfold ResBlock.construct. intros H.
  apply rbind_Ok in H. destruct H as [bn1 [E1 H]].
  apply rbind_Ok in H. destruct H as [conv1 [E2 H]].
  apply rbind_Ok in H. destruct H as [bn2 [E3 H]].
  apply rbind_Ok in H. destruct H as [conv2 [E4 H]].
  apply nn_BatchNorm1d_Ok in E1. destruct E1 as [-> Hc].
  apply nn_Conv1d_Ok in E2. destruct E2 as [-> [_ [_ Hk]]].
  apply nn_BatchNorm1d_Ok in E3. destruct E3 as [-> _].
  apply nn_Conv1d_Ok in E4. destruct E4 as [-> _].
  injection H as <-. repeat split; assumption.
Qed.

Lemma two_ResBlocks_Ok (c k : Z) (rbs : list ResBlock.t) :
  two_ResBlocks c k = Ok rbs ->
  rbs = map (fun _ => ResBlock.init c k 1 ((k - 1) / 2) 1) (range 2) /\ 0 <= c.
Proof.
  unfold two_ResBlocks. intros H.
  apply (map_result_Ok _ (fun _ => ResBlock.init c k 1 ((k - 1) / 2) 1)
           (fun _ => 0 <= c)) in H.
  - destruct H as [-> HP]. split; [reflexivity |].
    inversion HP; assumption.
  - intros x y E. apply ResBlock_construct_Ok in E. destruct E as [-> [Hc _]].
    split; [reflexivity | exact Hc].
Qed.

Lemma conv_layers_Ok (i o k : Z) (layers : list Module0) :
  conv_layers i o k = Ok layers ->
  layers = [BatchNorm1d i; Conv1d i o k 1 ((k - 1) / 2) 1] /\ 0 <= i /\ 0 <= o /\ 0 <= k.
Proof.
  unfold conv_layers. intros H.
  apply rbind_Ok in H. destruct H as [bn [E1 H]].
  apply rbind_Ok in H. destruct H as [conv [E2 H]].
  apply nn_BatchNorm1d_Ok in E1. destruct E1 as [-> _].
  apply nn_Conv1d_Ok in E2. destruct E2 as [-> Hs].
  injection H as <-. split; [reflexivity | exact Hs].
Qed.

Lemma conv_relu_layers_Ok (i o k : Z) (layers : list Module0) :
  conv_relu_layers i o k = Ok layers ->
  layers = [BatchNorm1d i; Conv1d i o k 1 ((k - 1) / 2) 1; ReLU].
Proof.
  unfold conv_relu_layers. intros H.
  apply rbind_Ok in H. destruct H as [bn [E1 H]].
  apply rbind_Ok in H. destruct H as [conv [E2 H]].
  apply nn_BatchNorm1d_Ok in E1. destruct E1 as [-> _].
  apply nn_Conv1d_Ok in E2. destruct E2 as [-> _].
  injection H as <-. reflexivity.
Qed.

Lemma fc_layers_Ok (c : Z) (p : Q) (n : Z) (layers : list Module0) :
  fc_layers c p n = Ok layers ->
  layers = [BatchNorm1d c; Dropout p; Linear c n] /\ (0 <= p <= 1)%Q /\ 0 <= n.
Proof.
  unfold fc_layers. intros H.
  apply rbind_Ok in H. destruct H as [bn [E1 H]].
  apply rbind_Ok in H. destruct H as [dropout [E2 H]].
  apply rbind_Ok in H. destruct H as [linear [E3 H]].
  apply nn_BatchNorm1d_Ok in E1. destruct E1 as [-> _].
  apply nn_Dropout_Ok in E2. destruct E2 as [-> Hp].
  apply nn_Linear_Ok in E3. destruct E3 as [-> [_ Hn]].
  injection H as <-. repeat split; try assumption; apply Hp.
Qed.

Lemma hidden_linears_shift (s0 : Z) (sizes : list Z) (js : list nat) :
  map_result (fun i => nn_Linear (nth i (s0 :: sizes) 0) (nth (S i) (s0 :: sizes) 0))
    (map S js)
  = map_result (fun i => nn_Linear (nth i sizes 0) (nth (S i) sizes 0)) js.
Proof.
  induction js as [| j js IH]; [reflexivity |].
  cbn [map map_result]. rewrite IH. reflexivity.
Qed.

Lemma hidden_linears_cons (s0 s1 : Z) (rest : list Z) :
  hidden_linears (s0 :: s1 :: rest)
  = (l <- nn_Linear s0 s1 ;; ls <- hidden_linears (s1 :: rest) ;; Ok (l :: ls))%res.
Proof.
  unfold hidden_linears. cbn [List.length].
  replace (S (S (List.length rest)) - 1)%nat with (S (List.length rest)) by lia.
  replace (S (List.length rest) - 1)%nat with (List.length rest) by lia.
  cbn [seq map_result]. rewrite <- seq_shift, hidden_linears_shift. reflexivity.
Qed.

Lemma hidden_linears_Ok (input s0 : Z) (rest : list Z) (hidden : list Module0) :
  hidden_linears (s0 :: rest) = Ok hidden ->
  Linear input s0 :: hidden = linears_from input (s0 :: rest) /\ Forall (Z.le 0) rest.
Proof.
  cbn [linears_from]. revert s0 hidden.
  induction rest as [| s1 rest IH]; intros s0 hidden H.
  - injection H as <-. split; [reflexivity | constructor].
  - rewrite hidden_linears_cons in H.
    apply rbind_Ok in H. destruct H as [l [El H]].
    apply rbind_Ok in H. destruct H as [ls [Els H]].
    injection H as <-.
    apply nn_Linear_Ok in El. destruct El as [-> [_ H1]].
    destruct (IH s1 ls Els) as [E Hrest].
    injection E as E.
    split; [cbn [linears_from]; rewrite E; reflexivity | constructor; assumption].
Qed.

Lemma hidden_linears_accepts (s0 : Z) (rest : list Z) :
  Forall (Z.le 0) (s0 :: rest) ->
  exists hidden, hidden_linears (s0 :: rest) = Ok hidden.
Proof.
  revert s0. induction rest as [| s1 rest IH]; intros s0 H.
  - exists []. reflexivity.
  - inversion H as [| ? ? H0 H']; subst. inversion H' as [| ? ? H1 _]; subst.
    destruct (IH s1 H') as [ls Els].
    exists (Linear s0 s1 :: ls). rewrite hidden_linears_cons, Els.
    unfold nn_Linear.
    replace (s0 <? 0) with false by (symmetry; apply Z.ltb_ge; exact H0).
    replace (s1 <? 0) with false by (symmetry; apply Z.ltb_ge; exact H1).
    reflexivity.
Qed.

Lemma last_nonempty_default (x : Z) (l : list Z) (d d' : Z) :
  last (x :: l) d = last (x :: l) d'.
Proof.
  revert x. induction l as [| y l IH]; intros x; [reflexivity |].
  change (last (y :: l) d = last (y :: l) d'). apply IH.
Qed.

Lemma last_cons_as_default (s : Z) (sizes : list Z) (d : Z) :
  last (s :: sizes) d = last sizes s.
Proof.
  destruct sizes as [| z sizes]; [reflexivity |].
  change (last (z :: sizes) d = last (z :: sizes) s). apply last_nonempty_default.
Qed.

Lemma last_item_last (what : string) (s0 : Z) (rest : list Z) :
  last_item what (s0 :: rest) = Ok (last rest s0).
Proof.
  destruct (exists_last (l := s0 :: rest)) as [front [a E]]; [discriminate |].
  unfold last_item. rewrite E, rev_unit.
  rewrite <- (last_cons_as_default s0 rest s0), E, last_last. reflexivity.
Qed.

Ltac open_bind H x E :=
  apply rbind_Ok in H; destruct H as [x [E H]].

Lemma len_nonneg {A : Type} (xs : list A) : 0 <= len xs.
Proof. unfold len. lia. Qed.

(** What [FeedForwardNN.__init__] accepts, and the module it then builds. *)
Lemma FeedForwardNN_init_Ok (emb_dims : list (Z * Z)) (no_of_cont : Z)
  (lin_layer_sizes : list Z) (emb_dropout : Q) (lin_layer_dropouts : list Q)
  (n_class : Z) (emb_padding_idx : option Z) (ff : FeedForwardNN.t) :
  FeedForwardNN.init emb_dims no_of_cont lin_layer_sizes emb_dropout lin_layer_dropouts
    n_class emb_padding_idx = Ok ff ->
  exists pad s0 rest,
    emb_padding_idx = Some pad /\ lin_layer_sizes = s0 :: rest
    /\ ff = FeedForwardNN.built emb_dims no_of_cont s0 rest emb_dropout
              lin_layer_dropouts n_class pad
    /\ local_arguments_accepted no_of_cont lin_layer_sizes emb_dropout
         lin_layer_dropouts pad
    /\ 0 <= n_class.
Proof.
  unfold FeedForwardNN.init. intros H.
  destruct emb_padding_idx as [pad |]; [| discriminate].
  destruct lin_layer_sizes as [| s0 rest].
  { cbn [padding_idx_plus_1 rbind] in H.
    open_bind H emb Eemb. discriminate. }
  exists pad, s0, rest.
  cbn [padding_idx_plus_1 rbind] in H.
  open_bind H emb Eemb.
  change (index "list index out of range" (s0 :: rest) 0) with (Ok s0) in H.
  cbn [rbind] in H.
  open_bind H lin0 Efirst. open_bind H hidden Ehidden.
  open_bind H bn0 Ebn0. open_bind H bns Ebns.
  open_bind H dp0 Edp0. open_bind H dps Edps.
  rewrite last_item_last in H. cbn [rbind] in H.
  open_bind H out Eout.
  apply nn_Embedding_Ok in Eemb. destruct Eemb as [-> [Hpad _]].
  apply nn_Linear_Ok in Efirst. destruct Efirst as [-> [_ Hs0]].
  apply (hidden_linears_Ok (len emb_dims * 5 + no_of_cont)) in Ehidden.
  destruct Ehidden as [Ehidden Hrest].
  apply nn_BatchNorm1d_Ok in Ebn0. destruct Ebn0 as [-> Hcont].
  apply (map_result_Ok _ BatchNorm1d (Z.le 0)) in Ebns;
    [| intros x y E; apply nn_BatchNorm1d_Ok in E; exact E].
  destruct Ebns as [-> _].
  apply nn_Dropout_Ok in Edp0. destruct Edp0 as [-> Hdp0].
  apply (map_result_Ok _ Dropout is_rate) in Edps;
    [| intros x y E; apply nn_Dropout_Ok in E; exact E].
  destruct Edps as [-> Hdps].
  apply nn_Linear_Ok in Eout. destruct Eout as [-> [_ Hn]].
  injection H as <-.
  split; [reflexivity |]. split; [reflexivity |].
  split; [unfold FeedForwardNN.built; rewrite <- Ehidden; reflexivity |].
  split; [| exact Hn].
  repeat split; try assumption; try (constructor; assumption); apply Hdp0.
Qed.

Lemma index_first_cons {A : Type} (what : string) (x : A) (xs : list A) :
  index what (x :: xs) 0 = Ok x.
Proof. reflexivity. Qed.

Lemma nn_BatchNorm1d_accepts (n : Z) : 0 <= n -> nn_BatchNorm1d n = Ok (BatchNorm1d n).
Proof.
  intros H. unfold nn_BatchNorm1d.
  replace (n <? 0) with false by (symmetry; apply Z.ltb_ge; exact H). reflexivity.
Qed.

Lemma nn_Linear_accepts (i o : Z) : 0 <= i -> 0 <= o -> nn_Linear i o = Ok (Linear i o).
Proof.
  intros Hi Ho. unfold nn_Linear.
  replace (i <? 0) with false by (symmetry; apply Z.ltb_ge; exact Hi).
  replace (o <? 0) with false by (symmetry; apply Z.ltb_ge; exact Ho). reflexivity.
Qed.

Lemma nn_Embedding_accepts (n d : Z) :
  0 <= n -> 0 <= d -> nn_Embedding n d = Ok (Embedding n d).
Proof.
  intros Hn Hd. unfold nn_Embedding.
  replace (n <? 0) with false by (symmetry; apply Z.ltb_ge; exact Hn).
  replace (d <? 0) with false by (symmetry; apply Z.ltb_ge; exact Hd). reflexivity.
Qed.

Lemma nn_Conv1d_accepts (i o k s p d : Z) :
  0 <= i -> 0 <= o -> 0 <= k -> nn_Conv1d i o k s p d = Ok (Conv1d i o k s p d).
Proof.
  intros Hi Ho Hk. unfold nn_Conv1d.
  replace (i <? 0) with false by (symmetry; apply Z.ltb_ge; exact Hi).
  replace (o <? 0) with false by (symmetry; apply Z.ltb_ge; exact Ho).
  replace (k <? 0) with false by (symmetry; apply Z.ltb_ge; exact Hk). reflexivity.
Qed.

Lemma last_nonneg (s0 : Z) (rest : list Z) :
  Forall (Z.le 0) (s0 :: rest) -> 0 <= last rest s0.
Proof.
  revert s0. induction rest as [| s1 rest IH]; intros s0 H.
  - inversion H; assumption.
  - inversion H as [| ? ? _ H']; subst.
    rewrite last_cons_as_default. apply IH. exact H'.
Qed.

Lemma local_layers_accepted (emb_dims : list (Z * Z)) (no_of_cont s0 : Z)
  (rest : list Z) (emb_dropout : Q) (dps : list Q) (pad : Z) :
  local_arguments_accepted no_of_cont (s0 :: rest) emb_dropout dps pad ->
  nn_Embedding (pad + 1) 5 = Ok (Embedding (pad + 1) 5)
  /\ nn_Linear (len emb_dims * 5 + no_of_cont) s0
     = Ok (Linear (len emb_dims * 5 + no_of_cont) s0)
  /\ (exists hidden,
        hidden_linears (s0 :: rest) = Ok hidden
        /\ Linear (len emb_dims * 5 + no_of_cont) s0 :: hidden
           = linears_from (len emb_dims * 5 + no_of_cont) (s0 :: rest))
  /\ nn_BatchNorm1d no_of_cont = Ok (BatchNorm1d no_of_cont)
  /\ map_result nn_BatchNorm1d (s0 :: rest) = Ok (map BatchNorm1d (s0 :: rest))
  /\ nn_Dropout emb_dropout = Ok (Dropout emb_dropout)
  /\ map_result nn_Dropout dps = Ok (map Dropout dps).
Proof.
  intros [Hpad [Hsizes [Hcont [Hrate Hrates]]]].
  pose proof (len_nonneg emb_dims) as Hlen.
  assert (Hs0 : 0 <= s0) by (inversion Hsizes; assumption).
  split; [apply nn_Embedding_accepts; lia |].
  split; [apply nn_Linear_accepts; lia |].
  split.
  { destruct (hidden_linears_accepts s0 rest Hsizes) as [hidden E].
    exists hidden. split; [exact E |].
    apply (hidden_linears_Ok _ _ _ _ E). }
  split; [apply nn_BatchNorm1d_accepts; exact Hcont |].
  split.
  { apply map_result_accepts. eapply Forall_impl; [| exact Hsizes].
    intros x Hx. apply nn_BatchNorm1d_accepts. exact Hx. }
  split; [apply nn_Dropout_accepts; exact Hrate |].
  apply map_result_accepts. eapply Forall_impl; [| exact Hrates].
  intros x Hx. apply nn_Dropout_accepts. exact Hx.
Qed.

Lemma FeedForwardNN_init_accepts (emb_dims : list (Z * Z)) (no_of_cont s0 : Z)
  (rest : list Z) (emb_dropout : Q) (dps : list Q) (n_class pad : Z) :
  local_arguments_accepted no_of_cont (s0 :: rest) emb_dropout dps pad ->
  0 <= n_class ->
  FeedForwardNN.init emb_dims no_of_cont (s0 :: rest) emb_dropout dps n_class (Some pad)
  = Ok (FeedForwardNN.built emb_dims no_of_cont s0 rest emb_dropout dps n_class pad).
Proof.
  intros Hlocal Hn.
  destruct (local_layers_accepted emb_dims _ _ _ _ _ _ Hlocal)
    as [Eemb [Efirst [[hidden [Ehidden Elin]] [Ebn0 [Ebns [Edp0 Edps]]]]]].
  assert (Hlast : 0 <= last rest s0) by (apply last_nonneg; apply Hlocal).
  unfold FeedForwardNN.init. cbn [padding_idx_plus_1 rbind].
  rewrite Eemb. cbn [rbind]. rewrite index_first_cons. cbn [rbind].
  rewrite Efirst. cbn [rbind]. rewrite Ehidden. cbn [rbind].
  rewrite Ebn0. cbn [rbind]. rewrite Ebns. cbn [rbind].
  rewrite Edp0. cbn [rbind]. rewrite Edps. cbn [rbind].
  rewrite last_item_last. cbn [rbind].
  rewrite (nn_Linear_accepts _ _ Hlast Hn). cbn [rbind].
  unfold FeedForwardNN.built. rewrite Elin. reflexivity.
Qed.

Lemma conv_layers_accepts (i o k : Z) :
  0 <= i -> 0 <= o -> 0 <= k ->
  conv_layers i o k = Ok [BatchNorm1d i; Conv1d i o k 1 ((k - 1) / 2) 1]
  /\ conv_relu_layers i o k = Ok [BatchNorm1d i; Conv1d i o k 1 ((k - 1) / 2) 1; ReLU].
Proof.
  intros Hi Ho Hk. unfold conv_layers, conv_relu_layers.
  rewrite (nn_BatchNorm1d_accepts i Hi), (nn_Conv1d_accepts i o k _ _ _ Hi Ho Hk).
  split; reflexivity.
Qed.

Lemma two_ResBlocks_accepts (c k : Z) :
  0 <= c -> 0 <= k ->
  two_ResBlocks c k = Ok (map (fun _ => ResBlock.init c k 1 ((k - 1) / 2) 1) (range 2)).
Proof.
  intros Hc Hk. unfold two_ResBlocks. apply map_result_accepts.
  apply Forall_forall. intros x _. unfold ResBlock.construct.
  rewrite (nn_BatchNorm1d_accepts c Hc), (nn_Conv1d_accepts c c k _ _ _ Hc Hc Hk).
  reflexivity.
Qed.

Lemma fc_layers_accepts (c : Z) (p : Q) (n : Z) :
  0 <= c -> is_rate p -> 0 <= n ->
  fc_layers c p n = Ok [BatchNorm1d c; Dropout p; Linear c n].
Proof.
  intros Hc Hp Hn. unfold fc_layers.
  rewrite (nn_BatchNorm1d_accepts c Hc), (nn_Dropout_accepts p Hp),
    (nn_Linear_accepts c n Hc Hn).
  reflexivity.
Qed.

(** What [Network1(...)] accepts, and the module it then builds. *)
Lemma Network1_construct_Ok (cin cout k radius order : Z) (dp : Q) (n_class : Z)
  (net : Network1.t) :
  Network1.construct cin cout k radius order dp n_class = Ok net ->
  net = Network1.init cin cout k radius order dp n_class
  /\ distal_arguments_accepted cin cout k dp n_class.
Proof.
  unfold Network1.construct. intros H.
  open_bind H conv1 Hc1. open_bind H RBs1 Hc2. open_bind H conv2 Hc3.
  open_bind H RBs2 Hc4. open_bind H conv3 Hc5. open_bind H fc1 Hc6.
  open_bind H conv1_2 Hc7. open_bind H RBs1_2 Hc8. open_bind H conv2_2 Hc9.
  open_bind H RBs2_2 Hc10. open_bind H conv3_2 Hc11. open_bind H fc2 Hc12.
  apply conv_layers_Ok in Hc1. destruct Hc1 as [-> [Hi [Ho Hk]]].
  apply two_ResBlocks_Ok in Hc2. destruct Hc2 as [-> _].
  apply conv_layers_Ok in Hc3. destruct Hc3 as [-> _].
  apply two_ResBlocks_Ok in Hc4. destruct Hc4 as [-> _].
  apply conv_relu_layers_Ok in Hc5. subst conv3.
  apply fc_layers_Ok in Hc6. destruct Hc6 as [-> [Hp Hn]].
  apply conv_layers_Ok in Hc7. destruct Hc7 as [-> _].
  apply two_ResBlocks_Ok in Hc8. destruct Hc8 as [-> _].
  apply conv_layers_Ok in Hc9. destruct Hc9 as [-> _].
  apply two_ResBlocks_Ok in Hc10. destruct Hc10 as [-> _].
  apply conv_relu_layers_Ok in Hc11. subst conv3_2.
  apply fc_layers_Ok in Hc12. destruct Hc12 as [-> _].
  injection H as <-.
  split; [reflexivity |]. repeat split; try assumption; apply Hp.
Qed.

Lemma Network1_construct_accepts (cin cout k radius order : Z) (dp : Q) (n_class : Z) :
  distal_arguments_accepted cin cout k dp n_class ->
  Network1.construct cin cout k radius order dp n_class
  = Ok (Network1.init cin cout k radius order dp n_class).
Proof.
  intros [Hi [Ho [Hk [Hp Hn]]]]. unfold Network1.construct.
  destruct (conv_layers_accepts cin cout k Hi Ho Hk) as [Ec1 _].
  destruct (conv_layers_accepts cout cout k Ho Ho Hk) as [Ec2 Ec3].
  rewrite Ec1, Ec2, Ec3, (two_ResBlocks_accepts cout 3 Ho ltac:(lia)),
    (fc_layers_accepts cout dp n_class Ho Hp Hn).
  reflexivity.
Qed.

(** What [Network2.__init__] accepts, and the module it then builds. *)
Lemma Network2_init_Ok (emb_dims : list (Z * Z)) (no_of_cont : Z)
  (lin_layer_sizes : list Z) (emb_dropout : Q) (lin_layer_dropouts : list Q)
  (cin cout k radius order : Z) (dp : Q) (n_class : Z) (emb_padding_idx : option Z)
  (net : Network2.t) :
  Network2.init emb_dims no_of_cont lin_layer_sizes emb_dropout lin_layer_dropouts
    cin cout k radius order dp n_class emb_padding_idx = Ok net ->
  exists pad s0 rest,
    emb_padding_idx = Some pad /\ lin_layer_sizes = s0 :: rest
    /\ net = Network2.built emb_dims no_of_cont s0 rest emb_dropout lin_layer_dropouts
               cin cout k radius order dp n_class pad
    /\ local_arguments_accepted no_of_cont lin_layer_sizes emb_dropout
         lin_layer_dropouts pad
    /\ distal_arguments_accepted cin cout k dp n_class.
Proof.
  unfold Network2.init. intros H.
  destruct emb_padding_idx as [pad |]; [| discriminate].
  destruct lin_layer_sizes as [| s0 rest].
  { cbn [padding_idx_plus_1 rbind] in H.
    open_bind H emb Eemb. discriminate. }
  exists pad, s0, rest.
  cbn [padding_idx_plus_1 rbind] in H.
  open_bind H emb Eemb.
  change (index "list index out of range" (s0 :: rest) 0) with (Ok s0) in H.
  cbn [rbind] in H.
  open_bind H lin0 Efirst. open_bind H hidden Ehidden.
  open_bind H bn0 Ebn0. open_bind H bns Ebns.
  open_bind H dp0 Edp0. open_bind H dps Edps.
  open_bind H conv1 Hc1. open_bind H RBs1 Hc2. open_bind H conv2 Hc3.
  open_bind H RBs2 Hc4. open_bind H conv3 Hc5. open_bind H fc1 Hc6.
  open_bind H conv1_2 Hc7. open_bind H RBs1_2 Hc8. open_bind H conv2_2 Hc9.
  open_bind H RBs2_2 Hc10. open_bind H conv3_2 Hc11. open_bind H fc2 Hc12.
  rewrite last_item_last in H. cbn [rbind] in H.
  open_bind H out Eout.
  apply nn_Embedding_Ok in Eemb. destruct Eemb as [-> [Hpad _]].
  apply nn_Linear_Ok in Efirst. destruct Efirst as [-> [_ Hs0]].
  apply (hidden_linears_Ok (len emb_dims * 5 + no_of_cont)) in Ehidden.
  destruct Ehidden as [Ehidden Hrest].
  apply nn_BatchNorm1d_Ok in Ebn0. destruct Ebn0 as [-> Hcont].
  apply (map_result_Ok _ BatchNorm1d (Z.le 0)) in Ebns;
    [| intros x y E; apply nn_BatchNorm1d_Ok in E; exact E].
  destruct Ebns as [-> _].
  apply nn_Dropout_Ok in Edp0. destruct Edp0 as [-> Hdp0].
  apply (map_result_Ok _ Dropout is_rate) in Edps;
    [| intros x y E; apply nn_Dropout_Ok in E; exact E].
  destruct Edps as [-> Hdps].
  apply conv_layers_Ok in Hc1. destruct Hc1 as [-> [Hi [Ho Hk]]].
  apply two_ResBlocks_Ok in Hc2. destruct Hc2 as [-> _].
  apply conv_layers_Ok in Hc3. destruct Hc3 as [-> _].
  apply two_ResBlocks_Ok in Hc4. destruct Hc4 as [-> _].
  apply conv_relu_layers_Ok in Hc5. subst conv3.
  apply fc_layers_Ok in Hc6. destruct Hc6 as [-> [Hp Hn]].
  apply conv_layers_Ok in Hc7. destruct Hc7 as [-> _].
  apply two_ResBlocks_Ok in Hc8. destruct Hc8 as [-> _].
  apply conv_layers_Ok in Hc9. destruct Hc9 as [-> _].
  apply two_ResBlocks_Ok in Hc10. destruct Hc10 as [-> _].
  apply conv_relu_layers_Ok in Hc11. subst conv3_2.
  apply fc_layers_Ok in Hc12. destruct Hc12 as [-> _].
  apply nn_Linear_Ok in Eout. destruct Eout as [-> _].
  injection H as <-.
  split; [reflexivity |]. split; [reflexivity |].
  split; [unfold Network2.built; rewrite <- Ehidden; reflexivity |].
  split.
  - repeat split; try assumption; try (constructor; assumption); apply Hdp0.
  - repeat split; try assumption; apply Hp.
Qed.

Lemma Network2_init_accepts (emb_dims : list (Z * Z)) (no_of_cont s0 : Z)
  (rest : list Z) (emb_dropout : Q) (dps : list Q) (cin cout k radius order : Z)
  (dp : Q) (n_class pad : Z) :
  local_arguments_accepted no_of_cont (s0 :: rest) emb_dropout dps pad ->
  distal_arguments_accepted cin cout k dp n_class ->
  Network2.init emb_dims no_of_cont (s0 :: rest) emb_dropout dps cin cout k radius
    order dp n_class (Some pad)
  = Ok (Network2.built emb_dims no_of_cont s0 rest emb_dropout dps cin cout k radius
          order dp n_class pad).
Proof.
  intros Hlocal [Hi [Ho [Hk [Hp Hn]]]].
  destruct (local_layers_accepted emb_dims _ _ _ _ _ _ Hlocal)
    as [Eemb [Efirst [[hidden [Ehidden Elin]] [Ebn0 [Ebns [Edp0 Edps]]]]]].
  assert (Hlast : 0 <= last rest s0) by (apply last_nonneg; apply Hlocal).
  destruct (conv_layers_accepts cin cout k Hi Ho Hk) as [Ec1 _].
  destruct (conv_layers_accepts cout cout k Ho Ho Hk) as [Ec2 Ec3].
  unfold Network2.init. cbn [padding_idx_plus_1 rbind].
  rewrite Eemb. cbn [rbind]. rewrite index_first_cons. cbn [rbind].
  rewrite Efirst. cbn [rbind]. rewrite Ehidden. cbn [rbind].
  rewrite Ebn0. cbn [rbind]. rewrite Ebns. cbn [rbind].
  rewrite Edp0. cbn [rbind]. rewrite Edps. cbn [rbind].
  rewrite Ec1, Ec2, Ec3, (two_ResBlocks_accepts cout 3 Ho ltac:(lia)),
    (fc_layers_accepts cout dp n_class Ho Hp Hn).
  cbn [rbind]. rewrite last_item_last. cbn [rbind].
  rewrite (nn_Linear_accepts _ _ Hlast Hn). cbn [rbind].
  unfold Network2.built. rewrite Elin. reflexivity.
Qed.

End Constructor_facts.

(** ** The local-only model ignores the distal input *)

(** C10: [Network0.forward] gives, for one local input, the same computation
    whatever its distal argument is ([None] included): it is the forward
    pass of the wrapped [FeedForwardNN] on the continuous and categorical
    parts of the local input.  This holds for every interpretation of the
    layers. *)
Theorem Network0_forward_ignores_distal (B : Backend) (self : Network0.t)
  (local_input : tensor B * tensor B) (d1 d2 : option (tensor B)) :
  Network0.forward B self local_input d1 = Network0.forward B self local_input d2
  /\ Network0.forward B self local_input d1
     = FeedForwardNN.forward B (Network0.model self) (fst local_input) (snd local_input).
Proof.
  destruct local_input as [cont_data cat_data]. split; reflexivity.
Qed.

(** ** The local branch without categorical positions *)

(** C7: with no categorical position ([emb_dims] empty, three continuous
    features) the modules are built, but both forward passes stop at
    [torch.cat(local_out, dim = 1)]: [local_out] was never bound.  No layer
    has been called by then, whatever the inputs and the interpretation of
    the layers. *)
Theorem forward_without_embeddings_raises (B : Backend)
  (cont_data cat_data distal_input : tensor B) (w : world B) :
  (exists ff,
      FeedForwardNN.init [] 3 [150; 75] (1 # 10) [1 # 10; 1 # 10] 4 (Some 4) = Ok ff
      /\ FeedForwardNN.forward B ff cont_data cat_data w
         = (Raise (UnboundLocalError "local_out"), w))
  /\ (exists net,
      Network2.init [] 3 [150; 75] (1 # 10) [1 # 10; 1 # 10] 7 32 3 100 1 (1 # 4) 4
        (Some 4) = Ok net
      /\ Network2.forward B net (cont_data, cat_data) distal_input w
         = (Raise (UnboundLocalError "local_out"), w)).
Proof.
  split; eexists; (split; [reflexivity | reflexivity]).
Qed.

(** ** The driver *)

Section Driver_facts.

Import Driver.

Lemma act_launches_nothing (a : action) :
  launches_trials a = false -> launches_nothing (act a).
Proof.
  intros Ha log. exists [a]. split; [reflexivity |].
  simpl. rewrite Ha. reflexivity.
Qed.

Lemma ret_launches_nothing {A : Type} (a : A) : launches_nothing (ret a).
Proof. intros log. exists []. split; [symmetry; apply app_nil_r | reflexivity]. Qed.

Lemma raise_launches_nothing {A : Type} (e : exn) : launches_nothing (@raise _ A e).
Proof. intros log. exists []. split; [symmetry; apply app_nil_r | reflexivity]. Qed.

Lemma bind_launches_nothing {A B : Type} (m : M (list action) A)
  (k : A -> M (list action) B) :
  launches_nothing m -> (forall a, launches_nothing (k a)) ->
  launches_nothing (bind m k).
Proof.
  intros Hm Hk log. unfold bind.
  destruct (Hm log) as [added1 [E1 Q1]].
  destruct (m log) as [[a | e] log1]; simpl in E1; subst log1.
  - destruct (Hk a (log ++ added1)) as [added2 [E2 Q2]].
    exists (added1 ++ added2). rewrite E2, app_assoc. split; [reflexivity |].
    rewrite existsb_app, Q1, Q2. reflexivity.
  - exists added1. split; [reflexivity | exact Q1].
Qed.

Lemma for_each_launches_nothing {X : Type} (xs : list X)
  (body : unit -> X -> M (list action) unit) (acc : unit) :
  (forall u x, launches_nothing (body u x)) ->
  launches_nothing (for_each xs body acc).
Proof.
  intros Hbody. revert acc.
  induction xs as [| x xs IH]; intros acc; simpl.
  - apply ret_launches_nothing.
  - apply bind_launches_nothing; [apply Hbody | intros a; apply IH].
Qed.

Lemma for_each_act_returns {X : Type} (xs : list X) (f : X -> action) :
  returns (for_each xs (fun _ x => act (f x)) tt) tt.
Proof.
  induction xs as [| x xs IH]; simpl.
  - apply returns_ret.
  - eapply returns_bind; [| exact IH].
    intros log. eexists. reflexivity.
Qed.

Lemma returns_act (a : action) : returns (act a) tt.
Proof. intros log. eexists. reflexivity. Qed.

Lemma prepare_returns (host : Host) (args : Args) :
  exists bw_files,
    returns (prepare host args)
      (bw_files, as_bounds (learning_rate args), as_bounds (weight_decay args)).
Proof.
  unfold prepare.
  assert (Hbw : exists bw,
    returns (match given (bw_paths args) with
             | Some _ =>
                 match bw_table host with
                 | Some (files, names) => ret (files, names)
                 | None => bind (act (Stdout "Warnings: no bigWig files provided in"))
                             (fun _ => ret ([], []))
                 end
             | None => bind (act (Stdout "NOTE: no bigWig files provided."))
                         (fun _ => ret ([], []))
             end) bw).
  { destruct (given (bw_paths args)) as [path |].
    - destruct (bw_table host) as [[files names] |].
      + eexists. apply returns_ret.
      + eexists. eapply returns_bind; [apply returns_act | apply returns_ret].
    - eexists. eapply returns_bind; [apply returns_act | apply returns_ret]. }
  destruct Hbw as [[bw_files bw_names] Hbw].
  exists bw_files.
  eapply returns_bind; [apply returns_act |].
  eapply returns_bind; [apply returns_act |].
  eapply returns_bind; [apply returns_act |].
  eapply returns_bind; [exact Hbw |].
  eapply returns_bind; [apply for_each_act_returns |].
  eapply returns_bind; [| apply returns_ret].
  destruct (given (validation_data args)) as [valid_file |].
  - apply for_each_act_returns.
  - apply returns_ret.
Qed.

Lemma prepare_launches_nothing (host : Host) (args : Args) :
  launches_nothing (prepare host args).
Proof.
  unfold prepare.
  repeat (apply bind_launches_nothing;
          [first [ apply act_launches_nothing; reflexivity
                 | apply for_each_launches_nothing; intros;
                   apply act_launches_nothing; reflexivity
                 | idtac ]
          | intros ]).
  - destruct (given (bw_paths args)) as [path |].
    + destruct (bw_table host) as [[files names] |].
      * apply ret_launches_nothing.
      * apply bind_launches_nothing;
          [apply act_launches_nothing; reflexivity | intros; apply ret_launches_nothing].
    + apply bind_launches_nothing;
        [apply act_launches_nothing; reflexivity | intros; apply ret_launches_nothing].
  - match goal with
    | pair_of_lists : (list string * list string)%type |- _ =>
        destruct pair_of_lists as [bw_files bw_names]
    end.
    repeat (apply bind_launches_nothing;
            [first [ apply for_each_launches_nothing; intros;
                     apply act_launches_nothing; reflexivity
                   | idtac ]
            | intros ]).
    + destruct (given (validation_data args)) as [valid_file |].
      * apply for_each_launches_nothing; intros;
          apply act_launches_nothing; reflexivity.
      * apply ret_launches_nothing.
    + apply ret_launches_nothing.
Qed.

Lemma gpu_requested_test (args : Args) :
  0 < ray_ngpus args \/ (0 < gpu_per_trial args)%Q ->
  (0 <? ray_ngpus args) || Qltb 0 (gpu_per_trial args) = true.
Proof.
  intros [H | H].
  - apply orb_true_iff. left. apply Z.ltb_lt. exact H.
  - apply orb_true_iff. right. unfold Qltb.
    destruct (Qle_bool (gpu_per_trial args) 0) eqn:E; [| reflexivity].
    apply Qle_bool_iff in E. exfalso. exact (Qlt_not_le _ _ H E).
Qed.

End Driver_facts.

(** C8: when a GPU is requested ([ray_ngpus > 0] or [gpu_per_trial > 0])
    and CUDA is not available, [main] stops at [sys.exit()] after the
    message on the standard error: nothing it has done by then initialises
    Ray or runs a trial.  [sys.exit()] has no argument, so the exit status
    of the process is 0. *)
Theorem gpu_unavailable_exit_status (host : Driver.Host) (args : Driver.Args)
  (log : list Driver.action) :
  0 < Driver.ray_ngpus args \/ (0 < Driver.gpu_per_trial args)%Q ->
  Driver.cuda_is_available host = false ->
  exists added,
    Driver.main host args log = (Raise (SystemExit None), log ++ added)
    /\ existsb Driver.launches_trials added = false
    /\ Driver.exit_status (fst (Driver.main host args log)) = 0.
Proof.
  intros Hgpu Hcuda.
  destruct (prepare_returns host args) as [bw_files Hret].
  destruct (Hret log) as [log1 E1].
  destruct (prepare_launches_nothing host args log) as [added1 [E2 Q1]].
  rewrite E1 in E2. simpl in E2. subst log1.
  assert (Emain : Driver.main host args log
                  = (Raise (SystemExit None),
                     log ++ added1
                     ++ [Driver.Stderr
                           "Error: You requested GPU computing, but CUDA is not available!"])).
  { unfold Driver.main, bind at 1. rewrite E1.
    unfold bind at 1, Driver.select_device.
    rewrite (gpu_requested_test args Hgpu), Hcuda. simpl.
    unfold bind, Driver.act, raise. simpl. rewrite <- app_assoc. reflexivity. }
  eexists. split; [exact Emain |]. split.
  - rewrite existsb_app, Q1. reflexivity.
  - rewrite Emain. reflexivity.
Qed.

(** The defaults of the command line ([ray_ngpus=1], [gpu_per_trial=0.19])
    on a machine without CUDA. *)
Lemma gpu_unavailable_exit_status_default :
  (0 < Driver.ray_ngpus (Driver.default_args "seq.fa" "train.sorted.bed")
   \/ (0 < Driver.gpu_per_trial (Driver.default_args "seq.fa" "train.sorted.bed"))%Q)
  /\ exists added,
    Driver.main
      {| Driver.cuda_is_available := false; Driver.bw_table := None;
         Driver.tune_run_raises := None |}
      (Driver.default_args "seq.fa" "train.sorted.bed") []
    = (Raise (SystemExit None), [] ++ added)
    /\ existsb Driver.launches_trials added = false
    /\ Driver.exit_status
         (fst (Driver.main
                 {| Driver.cuda_is_available := false; Driver.bw_table := None;
                    Driver.tune_run_raises := None |}
                 (Driver.default_args "seq.fa" "train.sorted.bed") [])) = 0.
Proof.
  split.
  - left. simpl. lia.
  - apply (gpu_unavailable_exit_status
             {| Driver.cuda_is_available := false; Driver.bw_table := None;
                Driver.tune_run_raises := None |}
             (Driver.default_args "seq.fa" "train.sorted.bed") []).
    + left. simpl. lia.
    + reflexivity.
Defined.

Section Driver_run_facts.

Import Driver.

Lemma index_first {A : Type} (what : string) (xs : list A) :
  xs <> [] -> exists a, index what xs 0 = Ok a.
Proof.
  destruct xs as [| x xs]; [congruence |].
  intros _. exists x. reflexivity.
Qed.

Lemma as_bounds_of (xs : list Q) :
  match bounds_of xs with
  | Some (lower, upper) =>
      index "list index out of range" (as_bounds xs) 0 = Ok lower
      /\ index "list index out of range" (as_bounds xs) 1 = Ok upper
  | None => index "list index out of range" (as_bounds xs) 0
            = Raise (IndexError "list index out of range")
  end.
Proof.
  destruct xs as [| x [| y rest]]; simpl bounds_of.
  - reflexivity.
  - split; reflexivity.
  - unfold as_bounds.
    replace (len (x :: y :: rest) =? 1) with false; [split; reflexivity |].
    symmetry. apply Z.eqb_neq. unfold len. simpl List.length. lia.
Qed.

Lemma Qltb_lt (a b : Q) : Qltb a b = true <-> (a < b)%Q.
Proof.
  unfold Qltb. split.
  - intros H. destruct (Qle_bool b a) eqn:E; [discriminate |].
    apply Qnot_le_lt. intros Hle. apply Qle_bool_iff in Hle. congruence.
  - intros H. destruct (Qle_bool b a) eqn:E; [| reflexivity].
    apply Qle_bool_iff in E. exfalso. exact (Qlt_not_le _ _ H E).
Qed.

Lemma tune_loguniform_accepts (lower upper : Q) :
  (0 < lower /\ 0 < upper)%Q -> tune_loguniform lower upper = Ok (loguniform lower upper).
Proof.
  intros [Hl Hu]. unfold tune_loguniform.
  apply Qltb_lt in Hl. apply Qltb_lt in Hu. rewrite Hl, Hu. reflexivity.
Qed.

Lemma tune_loguniform_refuses (lower upper : Q) :
  ~ (0 < lower /\ 0 < upper)%Q ->
  exists msg, tune_loguniform lower upper = Raise (ValueError msg).
Proof.
  intros H. unfold tune_loguniform.
  destruct (Qltb 0 lower) eqn:El; cbn [negb]; [| eexists; reflexivity].
  destruct (Qltb 0 upper) eqn:Eu; cbn [negb]; [| eexists; reflexivity].
  exfalso. apply H. split; apply Qltb_lt; assumption.
Qed.

(** The dictionary that [main] builds from accepted bounds. *)
Lemma search_space_defined (args : Args) :
  local_hidden2_size args <> [] ->
  positive_bounds (learning_rate args) -> positive_bounds (weight_decay args) ->
  exists space lr0 lr1 wd0 wd1,
    search_space args (as_bounds (learning_rate args)) (as_bounds (weight_decay args))
    = Ok space
    /\ bounds_of (learning_rate args) = Some (lr0, lr1)
    /\ bounds_of (weight_decay args) = Some (wd0, wd1)
    /\ sampler_of "learning_rate" space = Some (loguniform lr0 lr1)
    /\ sampler_of "weight_decay" space = Some (loguniform wd0 wd1).
Proof.
  intros H2 Hlr Hwd. unfold search_space, positive_bounds in *.
  destruct (index_first "list index out of range" _ H2) as [h ->].
  pose proof (as_bounds_of (learning_rate args)) as Elr.
  pose proof (as_bounds_of (weight_decay args)) as Ewd.
  destruct (bounds_of (learning_rate args)) as [[lr0 lr1] |]; [| contradiction].
  destruct (bounds_of (weight_decay args)) as [[wd0 wd1] |]; [| contradiction].
  destruct Elr as [-> ->]. destruct Ewd as [-> ->]. cbn [rbind].
  rewrite (tune_loguniform_accepts _ _ Hlr), (tune_loguniform_accepts _ _ Hwd).
  cbn [rbind]. eexists. exists lr0, lr1, wd0, wd1.
  split; [reflexivity |]. repeat split; reflexivity.
Qed.

Lemma asha_accepts (args : Args) :
  0 < grace_period args <= epochs args -> asha args = Ok (requested_scheduler args).
Proof.
  intros [Hg He]. unfold asha.
  replace (0 <? epochs args) with true by (symmetry; apply Z.ltb_lt; lia).
  replace (grace_period args <=? epochs args) with true
    by (symmetry; apply Z.leb_le; lia).
  replace (0 <? grace_period args) with true by (symmetry; apply Z.ltb_lt; lia).
  reflexivity.
Qed.


Lemma select_device_passes (host : Host) (args : Args) (log : list action) :
  (ray_ngpus args <= 0 /\ (gpu_per_trial args <= 0)%Q) \/ cuda_is_available host = true ->
  exists added,
    select_device host args log = (Ok tt, log ++ added)
    /\ existsb launches_trials added = false.
Proof.
  intros Hok. unfold select_device.
  destruct ((0 <? ray_ngpus args) || Qltb 0 (gpu_per_trial args)) eqn:Ereq.
  - destruct (cuda_is_available host) eqn:Ecuda.
    + eexists. unfold bind, act, ret. simpl.
      rewrite <- !app_assoc. split; reflexivity.
    + exfalso. destruct Hok as [[Hn Hg] | Hc]; [| congruence].
      apply orb_true_iff in Ereq. destruct Ereq as [E | E].
      * apply Z.ltb_lt in E. lia.
      * unfold Qltb in E. apply Qle_bool_iff in Hg. rewrite Hg in E. discriminate.
  - eexists. unfold act. split; reflexivity.
Qed.

(** [launch], by what the search space, the scheduler and [tune.run] do. *)
Lemma launch_outcome (host : Host) (args : Args) (lr wd : list Q) (log : list action) :
  launch host args lr wd log
  = match search_space args lr wd with
    | Raise e => (Raise e, log ++ [RayInit (ray_ncpus args) (ray_ngpus args)])
    | Ok space =>
        match asha args with
        | Raise e => (Raise e, log ++ [RayInit (ray_ncpus args) (ray_ngpus args)])
        | Ok scheduler =>
            match tune_run_raises host with
            | Some e =>
                (Raise e,
                 log ++ [RayInit (ray_ncpus args) (ray_ngpus args);
                         RegisterTrainable "Train";
                         TuneRun (run_spec args space scheduler)])
            | None =>
                (Ok tt,
                 log ++ [RayInit (ray_ncpus args) (ray_ngpus args);
                         RegisterTrainable "Train";
                         TuneRun (run_spec args space scheduler); RayShutdown;
                         Stdout "Total time used:"])
            end
        end
    end.
Proof.
  unfold launch, bind, act, lift. simpl.
  destruct (search_space args lr wd) as [space | e]; [| reflexivity].
  destruct (asha args) as [scheduler | e]; [| reflexivity].
  destruct (tune_run_raises host) as [e |].
  - unfold raise. rewrite <- !app_assoc. reflexivity.
  - unfold ret. rewrite <- !app_assoc. reflexivity.
Qed.

End Driver_run_facts.




(** ** The forward passes end in the fusion of the branch logits *)

Ltac same_prefix :=
  repeat (etransitivity; [| symmetry; apply bind_assoc];
          apply bind_cong; intros ? ?);
  reflexivity.

(** [Network1.forward] is its prefix [Network1.logits] followed by the
    fusion of the two logits, for every backend. *)
Lemma Network1_forward_fuses (B : Backend) (self : Network1.t)
  (local_input : tensor B * tensor B) (distal_input : tensor B) (w : world B) :
  Network1.forward B self local_input distal_input w
  = bind (Network1.logits B self distal_input)
      (fun '(distal_out, distal_out2) =>
         lift (Network1.fusion B distal_out distal_out2)) w.
Proof.
  unfold Network1.forward, Network1.logits. cbv zeta. same_prefix.
Qed.

(** [Network2.forward] is its prefix [Network2.logits] followed by the
    last statements on the three logits, for every backend. *)
Lemma Network2_forward_fuses (B : Backend) (self : Network2.t)
  (local_input : tensor B * tensor B) (distal_input : tensor B) (w : world B) :
  Network2.forward B self local_input distal_input w
  = bind (Network2.logits B self local_input distal_input)
      (fun '(local_logits, distal_out, distal_out2) =>
         (distal <-- Network2.distal_mean B distal_out distal_out2 ;;
          local_out <-- F_softmax1 B local_logits ;;
          Network2.report B self local_out distal ;;;
          lift (Network2.log_mean B local_out distal))%M) w.
Proof.
  unfold Network2.forward, Network2.logits. cbv zeta. same_prefix.
Qed.

(** What [Network1.forward] returns is the fusion of the logits of its two
    sub-pipelines, and it returns whenever the sub-pipelines do and the
    fusion is defined. *)
Lemma Network1_forward_is_fusion (B : Backend) (self : Network1.t)
  (local_input : tensor B * tensor B) (distal_input : tensor B) (w : world B) :
  Network1.forward B self local_input distal_input w
  = match Network1.logits B self distal_input w with
    | (Ok (distal_out, distal_out2), w1) =>
        (Network1.fusion B distal_out distal_out2, w1)
    | (Raise e, w1) => (Raise e, w1)
    end.
Proof.
  rewrite Network1_forward_fuses. unfold bind, lift.
  destruct (Network1.logits B self distal_input w) as [[[d1 d2] | e] w1]; reflexivity.
Qed.

(** The last statements of [Network2.forward] return the fusion of the
    three logits whenever they return. *)
Lemma Network2_tail_is_fusion (B : Backend) (self : Network2.t)
  (local_logits distal_out distal_out2 out : tensor B) (w w' : world B) :
  (distal <-- Network2.distal_mean B distal_out distal_out2 ;;
   local_out <-- F_softmax1 B local_logits ;;
   Network2.report B self local_out distal ;;;
   lift (Network2.log_mean B local_out distal))%M w = (Ok out, w') ->
  Network2.fusion B local_logits distal_out distal_out2 = Ok out.
Proof.
  unfold Network2.fusion, bind, lift, rbind.
  destruct (Network2.distal_mean B distal_out distal_out2) as [distal | e];
    [| discriminate].
  destruct (F_softmax1 B local_logits) as [local_out | e]; [| discriminate].
  destruct (Network2.report B self local_out distal w) as [[[] | e] w1];
    [| discriminate].
  intros [= -> _]. reflexivity.
Qed.

(** What [Network2.forward] returns is the fusion of the logits of its three
    branches. *)
Lemma Network2_forward_is_fusion (B : Backend) (self : Network2.t)
  (local_input : tensor B * tensor B) (distal_input out : tensor B)
  (w w' : world B) :
  Network2.forward B self local_input distal_input w = (Ok out, w') ->
  exists local_logits distal_out distal_out2 w1,
    Network2.logits B self local_input distal_input w
    = (Ok (local_logits, distal_out, distal_out2), w1)
    /\ Network2.fusion B local_logits distal_out distal_out2 = Ok out.
Proof.
  rewrite Network2_forward_fuses. unfold bind at 1.
  destruct (Network2.logits B self local_input distal_input w)
    as [[[[l d1] d2] | e] w1]; [| discriminate].
  intros H. exists l, d1, d2, w1. split; [reflexivity |].
  apply (Network2_tail_is_fusion B self l d1 d2 out w1 w'). exact H.
Qed.

(** In training mode, where nothing is reported, the last statements of
    [Network2.forward] compute [Network2.fusion] of the three logits and
    leave the world as it is; this holds for every backend. *)
Lemma Network2_forward_ends_in_fusion (B : Backend) (self : Network2.t)
  (local_logits distal_out distal_out2 : tensor B) (w : world B) :
  Network2.training self = true ->
  (distal <-- Network2.distal_mean B distal_out distal_out2 ;;
   local_out <-- F_softmax1 B local_logits ;;
   Network2.report B self local_out distal ;;;
   lift (Network2.log_mean B local_out distal))%M w
  = (Network2.fusion B local_logits distal_out distal_out2, w).
Proof.
  intros Htr. unfold Network2.fusion, Network2.report, bind, lift, rbind.
  rewrite Htr. cbn [negb]. unfold ret.
  destruct (Network2.distal_mean B distal_out distal_out2) as [distal | e];
    [| reflexivity].
  destruct (F_softmax1 B local_logits) as [local_out | e]; reflexivity.
Qed.

(** ** The fused output over the reals *)

Section Fusion_facts.

Local Open Scope R_scope.

Lemma clamp_floor_value : Q2R clamp_floor = / 1000000000.
Proof. unfold Q2R, clamp_floor. simpl. lra. Qed.

Lemma zip_with_total {A : Type} (f : A -> A -> result A) (g : A -> A -> A)
  (xs ys : list A) :
  List.length xs = List.length ys ->
  (forall x y, In (x, y) (combine xs ys) -> f x y = Ok (g x y)) ->
  zip_with f xs ys = Ok (map (fun '(x, y) => g x y) (combine xs ys)).
Proof.
  revert ys. induction xs as [| x xs IH]; intros [| y ys] Hlen Hf;
    try discriminate; simpl.
  - reflexivity.
  - rewrite (Hf x y) by (left; reflexivity). simpl.
    rewrite (IH ys); [reflexivity | simpl in Hlen; congruence |].
    intros x' y' Hin. apply Hf. right. exact Hin.
Qed.

Lemma broadcast_with_same_length {A : Type} (f : A -> A -> result A)
  (g : A -> A -> A) (xs ys : list A) :
  List.length xs = List.length ys ->
  (forall x y, In (x, y) (combine xs ys) -> f x y = Ok (g x y)) ->
  broadcast_with f xs ys = Ok (map (fun '(x, y) => g x y) (combine xs ys)).
Proof.
  intros Hlen Hf. unfold broadcast_with.
  rewrite Hlen, Nat.eqb_refl. apply zip_with_total; assumption.
Qed.

Lemma add_rows (p q : list R) :
  List.length p = List.length q ->
  broadcast_with (fun a b => Ok (a + b)) p q = Ok (vector_add p q).
Proof.
  intros Hlen. unfold vector_add.
  apply (broadcast_with_same_length _ Rplus); [exact Hlen | reflexivity].
Qed.

Lemma in_combine_rows (rows cols : nat) (x y : list (list R)) (p q : list R) :
  is_matrix rows cols x -> is_matrix rows cols y -> In (p, q) (combine x y) ->
  List.length p = cols /\ List.length q = cols.
Proof.
  intros [_ Hx] [_ Hy] Hin. rewrite Forall_forall in Hx, Hy. split.
  - apply Hx. eapply in_combine_l. exact Hin.
  - apply Hy. eapply in_combine_r. exact Hin.
Qed.

Lemma t_add_real_matrix (rows cols : nat) (x y : list (list R)) :
  is_matrix rows cols x -> is_matrix rows cols y ->
  t_add_real x y = Ok (map (fun '(p, q) => vector_add p q) (combine x y)).
Proof.
  intros Hx Hy. unfold t_add_real.
  apply (broadcast_with_same_length _ vector_add).
  - destruct Hx as [-> _], Hy as [-> _]. reflexivity.
  - intros p q Hin.
    destruct (in_combine_rows rows cols x y p q Hx Hy Hin) as [Hp Hq].
    apply add_rows. congruence.
Qed.

Lemma length_vector_add (p q : list R) :
  List.length (vector_add p q) = Nat.min (List.length p) (List.length q).
Proof. unfold vector_add. rewrite length_map. apply length_combine. Qed.

Lemma length_softmax_row (x : list R) : List.length (softmax_row x) = List.length x.
Proof. apply length_map. Qed.

Lemma softmax_matrix (rows cols : nat) (x : list (list R)) :
  is_matrix rows cols x -> is_matrix rows cols (map softmax_row x).
Proof.
  intros [Hlen Hrows]. split; [rewrite length_map; exact Hlen |].
  rewrite Forall_forall in *. intros r Hin.
  apply in_map_iff in Hin. destruct Hin as [r0 [<- Hin]].
  rewrite length_softmax_row. apply Hrows. exact Hin.
Qed.

Lemma halved_sum_matrix (rows cols : nat) (x y : list (list R)) (c : R) :
  is_matrix rows cols x -> is_matrix rows cols y ->
  is_matrix rows cols
    (map (map (fun v => v / c)) (map (fun '(p, q) => vector_add p q) (combine x y))).
Proof.
  intros Hx Hy. split.
  - rewrite !length_map, length_combine.
    destruct Hx as [-> _], Hy as [-> _]. apply Nat.min_id.
  - rewrite Forall_forall. intros r Hin.
    apply in_map_iff in Hin. destruct Hin as [r0 [<- Hin]].
    apply in_map_iff in Hin. destruct Hin as [[p q] [<- Hin]].
    rewrite length_map, length_vector_add.
    destruct (in_combine_rows rows cols x y p q Hx Hy Hin) as [-> ->].
    apply Nat.min_id.
Qed.

End Fusion_facts.

Section Fusion_closed_form.

Local Open Scope R_scope.

Lemma spec_fused_two (p q : list R) :
  map ln (map (fun v => Rmax v (Q2R clamp_floor))
            (map (fun v => v / IZR 2) (vector_add p q)))
  = spec_fused [p; q].
Proof.
  unfold spec_fused, log_clamp, mean_of. simpl fold_left. simpl List.length.
  rewrite !map_map. apply map_ext. intros v.
  rewrite clamp_floor_value. simpl INR.
  replace (1 + 1) with 2 by lra. reflexivity.
Qed.

Lemma mean_of_two (p q : list R) :
  map (fun v => v / IZR 2) (vector_add p q) = mean_of [p; q].
Proof.
  unfold mean_of. simpl fold_left. simpl List.length.
  apply map_ext. intros v. simpl INR. lra.
Qed.

Lemma fusion1_rows (d1 d2 : list (list R)) :
  map (map ln)
    (map (map (fun v => Rmax v (Q2R clamp_floor)))
       (map (map (fun v => v / IZR 2))
          (map (fun '(p, q) => vector_add p q)
             (combine (map softmax_row d1) (map softmax_row d2)))))
  = map (fun '(a, b) => spec_fused [softmax_row a; softmax_row b]) (combine d1 d2).
Proof.
  revert d2. induction d1 as [| a d1 IH]; intros [| b d2]; simpl; try reflexivity.
  rewrite IH. f_equal. apply spec_fused_two.
Qed.

Lemma fusion2_rows (l d1 d2 : list (list R)) :
  map (map ln)
    (map (map (fun v => Rmax v (Q2R clamp_floor)))
       (map (map (fun v => v / IZR 2))
          (map (fun '(p, q) => vector_add p q)
             (combine (map softmax_row l)
                (map (map (fun v => v / IZR 2))
                   (map (fun '(p, q) => vector_add p q)
                      (combine (map softmax_row d1) (map softmax_row d2))))))))
  = map (fun '(x, (a, b)) =>
           spec_fused [softmax_row x; mean_of [softmax_row a; softmax_row b]])
      (combine l (combine d1 d2)).
Proof.
  revert d1 d2. induction l as [| x l IH]; intros [| a d1] [| b d2]; simpl;
    try reflexivity.
  rewrite IH. f_equal. rewrite mean_of_two. apply spec_fused_two.
Qed.

Lemma Network1_fusion_closed (rows cols : nat) (d1 d2 : list (list R)) :
  is_matrix rows cols d1 -> is_matrix rows cols d2 ->
  Network1.fusion RealFunctional d1 d2
  = Ok (map (fun '(a, b) => spec_fused [softmax_row a; softmax_row b])
          (combine d1 d2)).
Proof.
  intros H1 H2. unfold Network1.fusion.
  cbn [F_softmax1 t_add t_div torch_clamp_min torch_log RealFunctional rbind].
  rewrite (t_add_real_matrix rows cols) by (apply softmax_matrix; assumption).
  cbn [rbind]. unfold torch_log_real. f_equal. apply fusion1_rows.
Qed.

Lemma Network2_fusion_closed (rows cols : nat) (l d1 d2 : list (list R)) :
  is_matrix rows cols l -> is_matrix rows cols d1 -> is_matrix rows cols d2 ->
  Network2.fusion RealFunctional l d1 d2
  = Ok (map (fun '(x, (a, b)) =>
               spec_fused [softmax_row x; mean_of [softmax_row a; softmax_row b]])
          (combine l (combine d1 d2))).
Proof.
  intros Hl H1 H2. unfold Network2.fusion, Network2.distal_mean, Network2.log_mean.
  cbn [F_softmax1 t_add t_div torch_clamp_min torch_log RealFunctional rbind].
  rewrite (t_add_real_matrix rows cols) by (apply softmax_matrix; assumption).
  cbn [rbind].
  rewrite (t_add_real_matrix rows cols).
  - cbn [rbind]. unfold torch_log_real. f_equal. apply fusion2_rows.
  - apply softmax_matrix. exact Hl.
  - apply halved_sum_matrix; apply softmax_matrix; assumption.
Qed.




End Fusion_closed_form.

Section Fusion_entries.

Local Open Scope R_scope.


Lemma length_mean_of_two (p q : list R) :
  List.length (mean_of [p; q]) = Nat.min (List.length p) (List.length q).
Proof. rewrite <- mean_of_two, length_map. apply length_vector_add. Qed.




Lemma fused1_matrix (rows cols : nat) (d1 d2 : list (list R)) :
  is_matrix rows cols d1 -> is_matrix rows cols d2 ->
  is_matrix rows cols
    (map (fun '(a, b) => spec_fused [softmax_row a; softmax_row b]) (combine d1 d2)).
Proof.
  intros H1 H2. split.
  - rewrite length_map, length_combine.
    destruct H1 as [-> _], H2 as [-> _]. apply Nat.min_id.
  - rewrite Forall_forall. intros r Hin.
    apply in_map_iff in Hin. destruct Hin as [[a b] [<- Hin]].
    destruct (in_combine_rows rows cols d1 d2 a b H1 H2 Hin) as [Ha Hb].
    unfold spec_fused, log_clamp.
    rewrite length_map, length_mean_of_two, !length_softmax_row, Ha, Hb.
    apply Nat.min_id.
Qed.

Lemma fused2_matrix (rows cols : nat) (l d1 d2 : list (list R)) :
  is_matrix rows cols l -> is_matrix rows cols d1 -> is_matrix rows cols d2 ->
  is_matrix rows cols
    (map (fun '(x, (a, b)) =>
            spec_fused [softmax_row x; mean_of [softmax_row a; softmax_row b]])
       (combine l (combine d1 d2))).
Proof.
  intros Hl H1 H2. split.
  - rewrite length_map, !length_combine.
    destruct Hl as [-> _], H1 as [-> _], H2 as [-> _]. rewrite !Nat.min_id.
    reflexivity.
  - rewrite Forall_forall. intros r Hin.
    apply in_map_iff in Hin. destruct Hin as [[x [a b]] [<- Hin]].
    assert (Hx : List.length x = cols).
    { destruct Hl as [_ Hl]. rewrite Forall_forall in Hl. apply Hl.
      eapply in_combine_l. exact Hin. }
    apply in_combine_r in Hin.
    destruct (in_combine_rows rows cols d1 d2 a b H1 H2 Hin) as [Ha Hb].
    unfold spec_fused, log_clamp.
    rewrite length_map, !length_mean_of_two, !length_softmax_row, Hx, Ha, Hb.
    rewrite !Nat.min_id. reflexivity.
Qed.



End Fusion_entries.

(** ** The forward passes over the reals *)

Section Forward_over_reals.

Variable I : RealLayers.
Variables rows cols : nat.

(** When its sub-pipelines return matrices, [Network1.forward] returns the
    fusion of the specification of their softmax, row by row. *)
Lemma Network1_forward_closed (self : Network1.t)
  (local_input : list (list R) * list (list R)) (distal_input : list (list R))
  (w w1 : real_world I) (sub1 sub2 : list (list R)) :
  Network1.logits (RealBackend I) self distal_input w = (Ok (sub1, sub2), w1) ->
  is_matrix rows cols sub1 -> is_matrix rows cols sub2 ->
  Network1.forward (RealBackend I) self local_input distal_input w
  = (Ok (map (fun '(a, b) => spec_fused [softmax_row a; softmax_row b])
           (combine sub1 sub2)), w1).
Proof.
  intros Hrun H1 H2. rewrite Network1_forward_is_fusion, Hrun.
  change (Network1.fusion (RealBackend I) sub1 sub2)
    with (Network1.fusion RealFunctional sub1 sub2).
  rewrite (Network1_fusion_closed rows cols) by assumption. reflexivity.
Qed.

(** When its branches return matrices, whatever [Network2.forward] returns
    is the fusion of the specification, row by row. *)
Lemma Network2_forward_closed (self : Network2.t)
  (local_input : list (list R) * list (list R)) (distal_input : list (list R))
  (w w2 w' : real_world I)
  (local_logits distal_out distal_out2 out : list (list R)) :
  Network2.logits (RealBackend I) self local_input distal_input w
  = (Ok (local_logits, distal_out, distal_out2), w2) ->
  is_matrix rows cols local_logits ->
  is_matrix rows cols distal_out -> is_matrix rows cols distal_out2 ->
  Network2.forward (RealBackend I) self local_input distal_input w = (Ok out, w') ->
  out = map (fun '(x, (a, b)) =>
               spec_fused [softmax_row x; mean_of [softmax_row a; softmax_row b]])
          (combine local_logits (combine distal_out distal_out2)).
Proof.
  intros Hrun Hl H1 H2 Hfwd.
  apply Network2_forward_is_fusion in Hfwd.
  destruct Hfwd as [l [d1 [d2 [w3 [Hrun' Hfusion]]]]].
  rewrite Hrun in Hrun'. injection Hrun' as <- <- <- _.
  change (Network2.fusion (RealBackend I) local_logits distal_out distal_out2)
    with (Network2.fusion RealFunctional local_logits distal_out distal_out2)
    in Hfusion.
  rewrite (Network2_fusion_closed rows cols) in Hfusion by assumption.
  injection Hfusion as <-. reflexivity.
Qed.

(** In training mode, where nothing is reported, it does return it. *)
Lemma Network2_forward_closed_training (self : Network2.t)
  (local_input : list (list R) * list (list R)) (distal_input : list (list R))
  (w w2 : real_world I) (local_logits distal_out distal_out2 : list (list R)) :
  Network2.logits (RealBackend I) self local_input distal_input w
  = (Ok (local_logits, distal_out, distal_out2), w2) ->
  is_matrix rows cols local_logits ->
  is_matrix rows cols distal_out -> is_matrix rows cols distal_out2 ->
  Network2.training self = true ->
  Network2.forward (RealBackend I) self local_input distal_input w
  = (Ok (map (fun '(x, (a, b)) =>
                spec_fused [softmax_row x; mean_of [softmax_row a; softmax_row b]])
           (combine local_logits (combine distal_out distal_out2))), w2).
Proof.
  intros Hrun Hl H1 H2 Htr.
  rewrite Network2_forward_fuses. unfold bind at 1. rewrite Hrun.
  rewrite (Network2_forward_ends_in_fusion (RealBackend I) self _ _ _ w2 Htr).
  change (Network2.fusion (RealBackend I) local_logits distal_out distal_out2)
    with (Network2.fusion RealFunctional local_logits distal_out distal_out2).
  rewrite (Network2_fusion_closed rows cols) by assumption. reflexivity.
Qed.

End Forward_over_reals.



(** ** The fused output is a distribution in log space *)

Section Distribution_facts.

Local Open Scope R_scope.

Lemma Rsum_map_div (p : list R) (c : R) :
  Rsum (map (fun v => v / c) p) = Rsum p / c.
Proof.
  induction p as [| v p IH]; simpl.
  - unfold Rdiv. ring.
  - rewrite IH. unfold Rdiv. ring.
Qed.

Lemma Rsum_exp_pos (x : list R) : x <> [] -> 0 < Rsum (map exp x).
Proof.
  assert (Hnonneg : forall y, 0 <= Rsum (map exp y)).
  { induction y as [| v y IH]; simpl; [lra |].
    pose proof (exp_pos v). lra. }
  destruct x as [| v x]; [congruence |]. intros _. simpl.
  pose proof (exp_pos v). pose proof (Hnonneg x). lra.
Qed.

Lemma Rsum_softmax_row (x : list R) (total : R) :
  Rsum (map (fun v => exp v / total) x) = Rsum (map exp x) / total.
Proof.
  induction x as [| v x IH]; simpl.
  - unfold Rdiv. ring.
  - rewrite IH. unfold Rdiv. ring.
Qed.

Lemma softmax_row_distribution (x : list R) :
  x <> [] -> is_distribution (softmax_row x).
Proof.
  intros Hx. pose proof (Rsum_exp_pos x Hx) as Hpos. split.
  - unfold softmax_row. rewrite Forall_forall. intros v Hin.
    apply in_map_iff in Hin. destruct Hin as [u [<- _]].
    apply Rlt_le. apply Rdiv_lt_0_compat; [apply exp_pos | exact Hpos].
  - unfold softmax_row. rewrite Rsum_softmax_row. field. lra.
Qed.

Lemma Rsum_vector_add (p q : list R) :
  List.length p = List.length q -> Rsum (vector_add p q) = Rsum p + Rsum q.
Proof.
  revert q. induction p as [| a p IH]; intros [| b q] Hlen; try discriminate.
  - simpl. lra.
  - unfold vector_add in *. simpl. rewrite IH by (simpl in Hlen; congruence). lra.
Qed.

Lemma mean_of_two_distribution (p q : list R) :
  List.length p = List.length q ->
  is_distribution p -> is_distribution q -> is_distribution (mean_of [p; q]).
Proof.
  intros Hlen [Hp Sp] [Hq Sq]. rewrite <- mean_of_two. split.
  - rewrite Forall_forall in *. intros v Hin.
    apply in_map_iff in Hin. destruct Hin as [u [<- Hin]].
    unfold vector_add in Hin. apply in_map_iff in Hin.
    destruct Hin as [[a b] [<- Hin]].
    pose proof (Hp a (in_combine_l _ _ _ _ Hin)).
    pose proof (Hq b (in_combine_r _ _ _ _ Hin)). lra.
  - rewrite Rsum_map_div, Rsum_vector_add, Sp, Sq by exact Hlen. lra.
Qed.

Lemma ln_monotone (x y : R) : 0 < x -> x <= y -> ln x <= ln y.
Proof.
  intros Hx [Hlt | ->]; [| lra].
  apply Rlt_le. apply ln_increasing; assumption.
Qed.

Lemma exp_log_clamp (p : list R) :
  map exp (log_clamp p) = map (fun v => Rmax v (/ 1000000000)) p.
Proof.
  unfold log_clamp. rewrite map_map. apply map_ext. intros v.
  apply exp_ln. apply Rlt_le_trans with (/ 1000000000); [lra | apply Rmax_r].
Qed.

Lemma Rsum_clamped (p : list R) :
  Forall (fun v => 0 <= v) p ->
  Rsum p <= Rsum (map (fun v => Rmax v (/ 1000000000)) p)
  /\ Rsum (map (fun v => Rmax v (/ 1000000000)) p)
     <= Rsum p + INR (List.length p) * / 1000000000.
Proof.
  induction 1 as [| v p Hv Hp IH].
  - simpl. lra.
  - cbn [map Rsum fold_right List.length]. fold (Rsum p).
    fold (Rsum (map (fun v => Rmax v (/ 1000000000)) p)).
    rewrite S_INR.
    assert (Hmax : v <= Rmax v (/ 1000000000) <= v + / 1000000000).
    { unfold Rmax. destruct (Rle_dec v (/ 1000000000)); lra. }
    lra.
Qed.

Lemma log_clamp_floor (p : list R) :
  Forall (fun v => ln (/ 1000000000) <= v) (log_clamp p).
Proof.
  unfold log_clamp. rewrite Forall_forall. intros v Hin.
  apply in_map_iff in Hin. destruct Hin as [u [<- _]].
  apply ln_monotone; [lra | apply Rmax_r].
Qed.

Lemma spec_fused_bounds (ps : list (list R)) :
  is_distribution (mean_of ps) ->
  1 <= Rsum (map exp (spec_fused ps))
       <= 1 + INR (List.length (mean_of ps)) * / 1000000000
  /\ Forall (fun v => ln (/ 1000000000) <= v) (spec_fused ps).
Proof.
  intros [Hnonneg Hsum]. unfold spec_fused. split.
  - rewrite exp_log_clamp.
    destruct (Rsum_clamped (mean_of ps) Hnonneg) as [Hlow Hhigh].
    rewrite Hsum in Hlow, Hhigh. split; assumption.
  - apply log_clamp_floor.
Qed.

End Distribution_facts.

Section Fused_rows.

Local Open Scope R_scope.

Lemma nonempty_of_length (cols : nat) (x : list R) :
  (1 <= cols)%nat -> List.length x = cols -> x <> [].
Proof. intros Hc Hx ->. simpl in Hx. subst cols. inversion Hc. Qed.

Lemma fused1_row_bounds (cols : nat) (a b : list R) :
  (1 <= cols)%nat -> List.length a = cols -> List.length b = cols ->
  1 <= Rsum (map exp (spec_fused [softmax_row a; softmax_row b]))
       <= 1 + INR cols * / 1000000000
  /\ Forall (fun v => ln (/ 1000000000) <= v)
       (spec_fused [softmax_row a; softmax_row b]).
Proof.
  intros Hc Ha Hb.
  assert (Hd : is_distribution (mean_of [softmax_row a; softmax_row b])).
  { apply mean_of_two_distribution.
    - rewrite !length_softmax_row. congruence.
    - apply softmax_row_distribution. apply (nonempty_of_length cols); assumption.
    - apply softmax_row_distribution. apply (nonempty_of_length cols); assumption. }
  pose proof (spec_fused_bounds _ Hd) as Hbounds.
  rewrite length_mean_of_two, !length_softmax_row, Ha, Hb, Nat.min_id in Hbounds.
  exact Hbounds.
Qed.

Lemma fused2_row_bounds (cols : nat) (x a b : list R) :
  (1 <= cols)%nat ->
  List.length x = cols -> List.length a = cols -> List.length b = cols ->
  1 <= Rsum (map exp (spec_fused [softmax_row x;
                                   mean_of [softmax_row a; softmax_row b]]))
       <= 1 + INR cols * / 1000000000
  /\ Forall (fun v => ln (/ 1000000000) <= v)
       (spec_fused [softmax_row x; mean_of [softmax_row a; softmax_row b]]).
Proof.
  intros Hc Hx Ha Hb.
  assert (Hm : is_distribution (mean_of [softmax_row a; softmax_row b])).
  { apply mean_of_two_distribution.
    - rewrite !length_softmax_row. congruence.
    - apply softmax_row_distribution. apply (nonempty_of_length cols); assumption.
    - apply softmax_row_distribution. apply (nonempty_of_length cols); assumption. }
  assert (Lm : List.length (mean_of [softmax_row a; softmax_row b]) = cols).
  { rewrite length_mean_of_two, !length_softmax_row, Ha, Hb. apply Nat.min_id. }
  assert (Hd : is_distribution
                 (mean_of [softmax_row x; mean_of [softmax_row a; softmax_row b]])).
  { apply mean_of_two_distribution.
    - rewrite length_softmax_row. congruence.
    - apply softmax_row_distribution. apply (nonempty_of_length cols); assumption.
    - exact Hm. }
  pose proof (spec_fused_bounds _ Hd) as Hbounds.
  rewrite length_mean_of_two, length_softmax_row, Hx, Lm, Nat.min_id in Hbounds.
  exact Hbounds.
Qed.

End Fused_rows.

(** ** The clamp in single precision *)

Section Float32_floor.

Local Open Scope R_scope.

(** The float32 nearest to [1e-9] is [9007199 / 2^53]. *)
Lemma float32_floor_value :
  float32_of clamp_floor = (9007199 # 9007199254740992)%Q.
Proof. vm_compute. reflexivity. Qed.

Lemma float32_floor_below : Q2R (float32_of clamp_floor) < / 1000000000.
Proof. rewrite float32_floor_value. unfold Q2R. cbn [Qnum Qden]. lra. Qed.

Lemma float32_floor_pos : 0 < Q2R (float32_of clamp_floor).
Proof. rewrite float32_floor_value. unfold Q2R. cbn [Qnum Qden]. lra. Qed.

Lemma exp_100_large : 25937424601 <= exp 100.
Proof.
  assert (H10 : 11 <= exp 10).
  { pose proof (exp_ineq1 10). lra. }
  assert (Hpos : 0 < exp 10) by apply exp_pos.
  replace 100 with (10 + 10 + 10 + 10 + 10 + 10 + 10 + 10 + 10 + 10) by lra.
  rewrite !exp_plus.
  set (x := exp 10) in *.
  assert (H2 : 121 <= x * x) by nra.
  assert (H4 : 14641 <= x * x * x * x) by nra.
  assert (H8 : 214358881 <= x * x * x * x * x * x * x * x) by nra.
  nra.
Qed.

(** The probability of the first class under [near_certain_logits] is
    below the float32 bound of the clamp. *)
Lemma near_certain_entry_small :
  exp 0 / (exp 0 + (exp 100 + 0)) < Q2R (float32_of clamp_floor).
Proof.
  rewrite float32_floor_value. unfold Q2R. cbn [Qnum Qden].
  rewrite exp_0. pose proof exp_100_large as H.
  apply (Rmult_lt_reg_r (1 + (exp 100 + 0))); [lra |].
  unfold Rdiv. rewrite Rmult_assoc, Rinv_l by lra.
  lra.
Qed.

(** A clamped value that was below the float32 bound has a logarithm below
    [log(1e-9)]. *)
Lemma clamped_log_below (v : R) :
  v < Q2R (float32_of clamp_floor) ->
  ln (Rmax v (Q2R (float32_of clamp_floor))) < ln (/ 1000000000).
Proof.
  intros Hv. rewrite Rmax_right by lra.
  apply ln_increasing; [apply float32_floor_pos | apply float32_floor_below].
Qed.

End Float32_floor.

(** C4, as the specification states it, fails in the arithmetic of the code:
    the tensors are float32, and the float32 nearest to [1e-9] is below
    [1e-9].  With the bound of the clamp cast to float32 and everything else
    exact, on logits that are near-certain of the second class, the first
    entry of the output of [Network1.forward] and of [Network2.forward] is
    below [log(1e-9)]. *)
Lemma fused_output_below_floor_in_float32 :
  (Q2R (float32_of clamp_floor) < / 1000000000)%R
  /\ (exists out,
        Network1.forward (Float32ClampBackend (constant_layers near_certain_logits))
          (Network1.init 4 32 3 100 1 (1 # 4) 2)
          (near_certain_logits, near_certain_logits) near_certain_logits tt
        = (Ok out, tt)
        /\ (entry out 0 0 < ln (/ 1000000000))%R)
  /\ (exists out,
        Network2.forward (Float32ClampBackend (constant_layers near_certain_logits))
          (Network2.built (repeat (5, 5) 11) 0 150 [75] (1 # 10) [1 # 10; 1 # 10]
             4 32 3 100 1 (1 # 4) 2 4)
          (near_certain_logits, near_certain_logits) near_certain_logits tt
        = (Ok out, tt)
        /\ (entry out 0 0 < ln (/ 1000000000))%R).
Proof.
  split; [exact float32_floor_below |]. split.
  - eexists. split.
    + assert (Hrun : Network1.logits
                       (Float32ClampBackend (constant_layers near_certain_logits))
                       (Network1.init 4 32 3 100 1 (1 # 4) 2) near_certain_logits tt
                     = (Ok (near_certain_logits, near_certain_logits), tt))
        by reflexivity.
      rewrite Network1_forward_is_fusion, Hrun.
      unfold Network1.fusion, near_certain_logits.
      cbn [fn F_softmax1 t_add t_div torch_clamp_min torch_log Float32ClampBackend
           Float32ClampFunctional RealFunctional rbind map].
      unfold t_add_real, broadcast_with. cbn [List.length Nat.eqb zip_with rbind].
      cbn [map torch_log_real]. reflexivity.
    + unfold entry. cbn [nth map softmax_row Rsum fold_right Z.of_nat IZR].
      apply clamped_log_below.
      pose proof near_certain_entry_small as H.
      pose proof float32_floor_pos as Hp.
      set (p := (exp 0 / (exp 0 + (exp 100 + 0)))%R) in *. 
      change (IZR 2) with 2%R. lra.
  - eexists. split.
    + assert (Hrun : Network2.logits
                       (Float32ClampBackend (constant_layers near_certain_logits))
                       (Network2.built (repeat (5, 5) 11) 0 150 [75] (1 # 10)
                          [1 # 10; 1 # 10] 4 32 3 100 1 (1 # 4) 2 4)
                       (near_certain_logits, near_certain_logits)
                       near_certain_logits tt
                     = (Ok (near_certain_logits, near_certain_logits,
                            near_certain_logits), tt))
        by reflexivity.
      rewrite Network2_forward_fuses. unfold bind at 1. rewrite Hrun.
      rewrite Network2_forward_ends_in_fusion by reflexivity.
      unfold Network2.fusion, Network2.distal_mean, Network2.log_mean,
        near_certain_logits.
      cbn [fn F_softmax1 t_add t_div torch_clamp_min torch_log Float32ClampBackend
           Float32ClampFunctional RealFunctional rbind map].
      unfold t_add_real, broadcast_with. cbn [List.length Nat.eqb zip_with rbind map].
      cbn [List.length Nat.eqb zip_with rbind map torch_log_real]. reflexivity.
    + unfold entry. cbn [nth map softmax_row Rsum fold_right Z.of_nat IZR].
      apply clamped_log_below.
      pose proof near_certain_entry_small as H.
      set (p := (exp 0 / (exp 0 + (exp 100 + 0)))%R) in *.
      change (IZR 2) with 2%R. lra.
Qed.

(** C4, amended: take a backend over the reals, whatever its layers
    compute, and a run in which the branches of Network1 and of Network2
    return logits of shape [batch, n_class] with at least one class.  In
    exact real arithmetic [Network1.forward] returns one row per sample, and
    so does [Network2.forward] whenever it returns (it does in training
    mode); the exponentials of each row sum to a value between 1 and
    [1 + n_class * 1e-9], and each entry is at least [log(1e-9)]. *)
Theorem fused_output_is_log_distribution (I : RealLayers) (rows cols : nat)
  (self1 : Network1.t) (self2 : Network2.t)
  (local_input : list (list R) * list (list R)) (distal_input : list (list R))
  (w w1 w2 : real_world I)
  (sub1 sub2 local_logits distal_out distal_out2 : list (list R)) :
  (1 <= cols)%nat ->
  Network1.logits (RealBackend I) self1 distal_input w = (Ok (sub1, sub2), w1) ->
  Network2.logits (RealBackend I) self2 local_input distal_input w
  = (Ok (local_logits, distal_out, distal_out2), w2) ->
  is_matrix rows cols sub1 -> is_matrix rows cols sub2 ->
  is_matrix rows cols local_logits ->
  is_matrix rows cols distal_out -> is_matrix rows cols distal_out2 ->
  (exists out1,
      Network1.forward (RealBackend I) self1 local_input distal_input w
      = (Ok out1, w1)
      /\ List.length out1 = rows
      /\ forall row, In row out1 ->
           (1 <= Rsum (map exp row) <= 1 + INR cols * / 1000000000)%R
           /\ Forall (fun v => (ln (/ 1000000000) <= v)%R) row)
  /\ (forall out2 w',
        Network2.forward (RealBackend I) self2 local_input distal_input w
        = (Ok out2, w') ->
        List.length out2 = rows
        /\ forall row, In row out2 ->
             (1 <= Rsum (map exp row) <= 1 + INR cols * / 1000000000)%R
             /\ Forall (fun v => (ln (/ 1000000000) <= v)%R) row)
  /\ (Network2.training self2 = true ->
      exists out2,
        Network2.forward (RealBackend I) self2 local_input distal_input w
        = (Ok out2, w2)).
Proof.
  intros Hcols Hrun1 Hrun2 Hs1 Hs2 Hl H1 H2. split; [| split].
  - eexists.
    split; [exact (Network1_forward_closed I rows cols self1 local_input distal_input
                     w w1 sub1 sub2 Hrun1 Hs1 Hs2) |].
    split; [apply (fused1_matrix rows cols); assumption |].
    intros row Hin.
    apply in_map_iff in Hin. destruct Hin as [[a b] [<- Hin]].
    destruct (in_combine_rows rows cols _ _ a b Hs1 Hs2 Hin) as [Ha Hb].
    apply fused1_row_bounds; assumption.
  - intros out2 w' Hfwd.
    rewrite (Network2_forward_closed I rows cols self2 local_input distal_input
               w w2 w' _ _ _ out2 Hrun2 Hl H1 H2 Hfwd).
    split; [apply (fused2_matrix rows cols); assumption |].
    intros row Hin.
    apply in_map_iff in Hin. destruct Hin as [[x [a b]] [<- Hin]].
    assert (Hx : List.length x = cols).
    { destruct Hl as [_ Hl']. rewrite Forall_forall in Hl'. apply Hl'.
      eapply in_combine_l. exact Hin. }
    apply in_combine_r in Hin.
    destruct (in_combine_rows rows cols _ _ a b H1 H2 Hin) as [Ha Hb].
    apply fused2_row_bounds; assumption.
  - intros Htr. eexists.
    exact (Network2_forward_closed_training I rows cols self2 local_input
             distal_input w w2 _ _ _ Hrun2 Hl H1 H2 Htr).
Qed.

(** One sample and two classes, on the backend whose layers all return the
    logits [[0, 100]], for freshly built models (in training mode). *)
Lemma fused_output_is_log_distribution_sample :
  ((1 <= 2)%nat
   /\ Network1.logits (RealBackend (constant_layers near_certain_logits))
        (Network1.init 4 32 3 100 1 (1 # 4) 2) near_certain_logits tt
      = (Ok (near_certain_logits, near_certain_logits), tt)
   /\ Network2.logits (RealBackend (constant_layers near_certain_logits))
        (Network2.built (repeat (5, 5) 11) 0 150 [75] (1 # 10) [1 # 10; 1 # 10]
           4 32 3 100 1 (1 # 4) 2 4)
        (near_certain_logits, near_certain_logits) near_certain_logits tt
      = (Ok (near_certain_logits, near_certain_logits, near_certain_logits), tt)
   /\ is_matrix 1 2 near_certain_logits)
  /\ (exists out1,
      Network1.forward (RealBackend (constant_layers near_certain_logits))
        (Network1.init 4 32 3 100 1 (1 # 4) 2)
        (near_certain_logits, near_certain_logits) near_certain_logits tt
      = (Ok out1, tt)
      /\ List.length out1 = 1%nat
      /\ forall row, In row out1 ->
           (1 <= Rsum (map exp row) <= 1 + INR 2 * / 1000000000)%R
           /\ Forall (fun v => (ln (/ 1000000000) <= v)%R) row)
  /\ (forall out2 w',
        Network2.forward (RealBackend (constant_layers near_certain_logits))
          (Network2.built (repeat (5, 5) 11) 0 150 [75] (1 # 10) [1 # 10; 1 # 10]
             4 32 3 100 1 (1 # 4) 2 4)
          (near_certain_logits, near_certain_logits) near_certain_logits tt
        = (Ok out2, w') ->
        List.length out2 = 1%nat
        /\ forall row, In row out2 ->
             (1 <= Rsum (map exp row) <= 1 + INR 2 * / 1000000000)%R
             /\ Forall (fun v => (ln (/ 1000000000) <= v)%R) row)
  /\ (Network2.training
        (Network2.built (repeat (5, 5) 11) 0 150 [75] (1 # 10) [1 # 10; 1 # 10]
           4 32 3 100 1 (1 # 4) 2 4) = true ->
      exists out2,
        Network2.forward (RealBackend (constant_layers near_certain_logits))
          (Network2.built (repeat (5, 5) 11) 0 150 [75] (1 # 10) [1 # 10; 1 # 10]
             4 32 3 100 1 (1 # 4) 2 4)
          (near_certain_logits, near_certain_logits) near_certain_logits tt
        = (Ok out2, tt)).
Proof.
  assert (Hm : is_matrix 1 2 near_certain_logits)
    by (split; [reflexivity | repeat constructor]).
  assert (Hrun1 : Network1.logits (RealBackend (constant_layers near_certain_logits))
                    (Network1.init 4 32 3 100 1 (1 # 4) 2) near_certain_logits tt
                  = (Ok (near_certain_logits, near_certain_logits), tt))
    by reflexivity.
  assert (Hrun2 : Network2.logits (RealBackend (constant_layers near_certain_logits))
                    (Network2.built (repeat (5, 5) 11) 0 150 [75] (1 # 10)
                       [1 # 10; 1 # 10] 4 32 3 100 1 (1 # 4) 2 4)
                    (near_certain_logits, near_certain_logits) near_certain_logits tt
                  = (Ok (near_certain_logits, near_certain_logits,
                         near_certain_logits), tt))
    by reflexivity.
  assert (Hc : (1 <= 2)%nat) by (repeat constructor).
  split; [split; [exact Hc |]; split; [exact Hrun1 |];
          split; [exact Hrun2 | exact Hm] |].
  exact (fused_output_is_log_distribution (constant_layers near_certain_logits)
           1 2 _ _ (near_certain_logits, near_certain_logits) near_certain_logits
           tt tt tt _ _ _ _ _ Hc Hrun1 Hrun2 Hm Hm Hm Hm Hm).
Defined.

(** ** Shapes: the library layers *)

Ltac arith :=
  unfold conv_out_len, pool_out_len, slice_len, slice_bound in *;
  Z.to_euclidean_division_equations; lia.

Lemma returns_nn_call (tr : bool) (layer : Module0) (x y : list Z) :
  Module0_shape tr layer x = Ok y -> returns (nn_call ShapeBackend tr layer x) y.
Proof.
  intros H w. unfold nn_call, ShapeBackend, nn_call_shape, bind, emit, lift.
  rewrite H. eexists. reflexivity.
Qed.

Lemma raises_nn_call (tr : bool) (layer : Module0) (x : list Z) (e : exn) :
  Module0_shape tr layer x = Raise e -> raises (nn_call ShapeBackend tr layer x) e.
Proof.
  intros H w. unfold nn_call, ShapeBackend, nn_call_shape, bind, emit, lift.
  rewrite H. eexists. reflexivity.
Qed.

Lemma BatchNorm1d_check_ok (tr : bool) (n b l : Z) (x : list Z) :
  (tr = true -> b * l <> 1) -> BatchNorm1d_check tr n b n l x = Ok x.
Proof.
  intros H. unfold BatchNorm1d_check.
  destruct tr; cbn [andb].
  - destruct (Z.eqb_spec (b * l) 1) as [E | E]; [exfalso; apply (H eq_refl E) |].
    rewrite Z.eqb_refl. reflexivity.
  - rewrite Z.eqb_refl. reflexivity.
Qed.

Lemma returns_BatchNorm1d3 (tr : bool) (n b l : Z) :
  (tr = true -> b * l <> 1) ->
  returns (nn_call ShapeBackend tr (BatchNorm1d n) [b; n; l]) [b; n; l].
Proof.
  intros H. apply returns_nn_call. cbn [Module0_shape BatchNorm1d_shape].
  apply BatchNorm1d_check_ok. exact H.
Qed.

Lemma returns_BatchNorm1d2 (tr : bool) (n b : Z) :
  (tr = true -> b <> 1) ->
  returns (nn_call ShapeBackend tr (BatchNorm1d n) [b; n]) [b; n].
Proof.
  intros H. apply returns_nn_call. cbn [Module0_shape BatchNorm1d_shape].
  apply BatchNorm1d_check_ok. intros Htr. rewrite Z.mul_1_r. exact (H Htr).
Qed.

Lemma Conv1d_shape_ok (cin cout k s p d b l : Z) :
  1 <= k -> 1 <= s -> 0 <= p -> 1 <= d ->
  d * (k - 1) + 1 <= l + 2 * p ->
  Conv1d_shape cin cout k s p d [b; cin; l] = Ok [b; cout; conv_out_len l k s p d].
Proof.
  intros Hk Hs Hp Hd Hfit. unfold Conv1d_shape.
  replace (k <=? 0) with false by (symmetry; apply Z.leb_gt; lia).
  replace (s <=? 0) with false by (symmetry; apply Z.leb_gt; lia).
  replace (p <? 0) with false by (symmetry; apply Z.ltb_ge; lia).
  replace (d <=? 0) with false by (symmetry; apply Z.leb_gt; lia).
  rewrite Z.eqb_refl.
  replace (l + 2 * p <? d * (k - 1) + 1) with false
    by (symmetry; apply Z.ltb_ge; lia).
  reflexivity.
Qed.


Lemma returns_Conv1d (tr : bool) (cin cout k s p d b l l' : Z) :
  1 <= k -> 1 <= s -> 0 <= p -> 1 <= d ->
  d * (k - 1) + 1 <= l + 2 * p ->
  l' = conv_out_len l k s p d ->
  returns (nn_call ShapeBackend tr (Conv1d cin cout k s p d) [b; cin; l]) [b; cout; l'].
Proof.
  intros Hk Hs Hp Hd Hfit ->. apply returns_nn_call. cbn [Module0_shape].
  apply Conv1d_shape_ok; assumption.
Qed.

Lemma conv_same_len (k l : Z) :
  1 <= k -> conv_out_len l k 1 ((k - 1) / 2) 1 = l - (k - 1) mod 2.
Proof. intros Hk. arith. Qed.

Lemma returns_Conv1d_same (tr : bool) (cin cout k b l l' : Z) :
  1 <= k -> l' = l - (k - 1) mod 2 -> 1 <= l' ->
  returns (nn_call ShapeBackend tr (Conv1d cin cout k 1 ((k - 1) / 2) 1) [b; cin; l])
    [b; cout; l'].
Proof.
  intros Hk -> Hl. apply returns_nn_call. cbn [Module0_shape].
  rewrite Conv1d_shape_ok; try lia; try arith.
  rewrite conv_same_len by exact Hk. reflexivity.
Qed.


Lemma returns_MaxPool1d (tr : bool) (k s p b c l l' : Z) :
  1 <= k -> 1 <= s -> 0 <= p -> 2 * p <= k ->
  l' = pool_out_len l k s p -> 1 <= l' ->
  returns (nn_call ShapeBackend tr (MaxPool1d k s p) [b; c; l]) [b; c; l'].
Proof.
  intros Hk Hs Hp Hhalf -> Hl. apply returns_nn_call.
  cbn [Module0_shape]. unfold MaxPool1d_shape.
  replace (k <=? 0) with false by (symmetry; apply Z.leb_gt; lia).
  replace (s <=? 0) with false by (symmetry; apply Z.leb_gt; lia).
  replace (p <? 0) with false by (symmetry; apply Z.ltb_ge; lia).
  replace (k <? 2 * p) with false by (symmetry; apply Z.ltb_ge; lia).
  replace (pool_out_len l k s p <=? 0) with false by (symmetry; apply Z.leb_gt; lia).
  reflexivity.
Qed.

Lemma returns_ReLU (tr : bool) (x : list Z) :
  returns (nn_call ShapeBackend tr ReLU x) x.
Proof. apply returns_nn_call. reflexivity. Qed.

Lemma returns_Dropout (tr : bool) (p : Q) (x : list Z) :
  returns (nn_call ShapeBackend tr (Dropout p) x) x.
Proof. apply returns_nn_call. reflexivity. Qed.

Lemma returns_Linear2 (tr : bool) (i o b : Z) :
  returns (nn_call ShapeBackend tr (Linear i o) [b; i]) [b; o].
Proof.
  apply returns_nn_call. cbn [Module0_shape]. unfold Linear_shape.
  cbn [rev app]. rewrite Z.eqb_refl. reflexivity.
Qed.

Lemma returns_Embedding (tr : bool) (n dim : Z) (x : list Z) :
  returns (nn_call ShapeBackend tr (Embedding n dim) x) (x ++ [dim]).
Proof. apply returns_nn_call. reflexivity. Qed.

Lemma broadcast_rev_same (x : list Z) : broadcast_rev x x = Ok x.
Proof.
  induction x as [| a x IH]; [reflexivity |].
  cbn [broadcast_rev]. rewrite Z.eqb_refl, IH. reflexivity.
Qed.

Lemma t_add_shape_same (x : list Z) : t_add_shape x x = Ok x.
Proof.
  unfold t_add_shape. rewrite broadcast_rev_same. unfold rmap, rbind.
  rewrite rev_involutive. reflexivity.
Qed.

Lemma slice_len_head (l n : Z) : 0 <= n <= l -> slice_len l 0 n = n.
Proof.
  intros H. unfold slice_len, slice_bound. cbn [Z.ltb Z.compare].
  replace (n <? 0) with false by (symmetry; apply Z.ltb_ge; lia). lia.
Qed.

Lemma slice_len_crop (l : Z) :
  200 < l -> slice_len l (l / 2 - 100) (l / 2 + 100 + 1) = 201.
Proof.
  intros H. unfold slice_len, slice_bound.
  replace (l / 2 + 100 + 1 <? 0) with false by (symmetry; apply Z.ltb_ge; arith).
  replace (l / 2 - 100 <? 0) with false by (symmetry; apply Z.ltb_ge; arith).
  arith.
Qed.

Lemma conv_out_len_pos (l k s p d : Z) :
  1 <= s -> d * (k - 1) + 1 <= l + 2 * p -> 1 <= conv_out_len l k s p d.
Proof.
  intros Hs Hfit. unfold conv_out_len.
  assert (0 <= (l + 2 * p - d * (k - 1) - 1) / s) by (apply Z.div_pos; lia).
  lia.
Qed.

(** ** Shapes: the residual block *)

Lemma returns_ResBlock (tr : bool) (c k s p d b l : Z) :
  1 <= k -> 1 <= s -> 0 <= p -> 1 <= d ->
  d * (k - 1) + 1 <= l + 2 * p ->
  d * (k - 1) + 1 <= conv_out_len l k s p d + 2 * p ->
  (tr = true -> b * l <> 1 /\ b * conv_out_len l k s p d <> 1) ->
  conv_out_len (conv_out_len l k s p d) k s p d <= l ->
  returns (ResBlock.forward ShapeBackend tr (ResBlock.init c k s p d) [b; c; l])
    [b; c; conv_out_len (conv_out_len l k s p d) k s p d].
Proof.
  intros Hk Hs Hp Hd Hfit1 Hfit2 Hbn Hshrink.
  set (l1 := conv_out_len l k s p d) in *.
  set (l2 := conv_out_len l1 k s p d) in *.
  assert (Hl2 : 1 <= l2) by (apply conv_out_len_pos; assumption).
  unfold ResBlock.forward, Sequential0_call.
  cbn [ResBlock.init ResBlock.layer for_each].
  eapply returns_bind.
  { eapply returns_bind; [apply returns_ReLU |].
    eapply returns_bind; [apply returns_BatchNorm1d3; intros Htr; apply (Hbn Htr) |].
    eapply returns_bind; [apply (returns_Conv1d tr c c k s p d b l l1); auto |].
    eapply returns_bind; [apply returns_ReLU |].
    eapply returns_bind; [apply returns_BatchNorm1d3; intros Htr; apply (Hbn Htr) |].
    eapply returns_bind; [apply (returns_Conv1d tr c c k s p d b l1 l2); auto |].
    apply returns_ret. }
  eapply returns_bind; [apply returns_lift; reflexivity |].
  eapply returns_bind; [apply returns_lift; reflexivity |].
  eapply returns_bind.
  { apply returns_lift. cbn [slice2 ShapeBackend slice2_shape].
    replace (l - (l - l2)) with l2 by lia.
    rewrite slice_len_head by lia. reflexivity. }
  apply returns_lift. apply t_add_shape_same.
Qed.

Lemma returns_ResBlock_same (tr : bool) (c b l : Z) :
  1 <= l -> (tr = true -> b * l <> 1) ->
  returns (ResBlock.forward ShapeBackend tr (ResBlock.init c 3 1 1 1) [b; c; l])
    [b; c; l].
Proof.
  intros Hl Hbn.
  assert (E : conv_out_len l 3 1 1 1 = l) by arith.
  pose proof (returns_ResBlock tr c 3 1 1 1 b l) as H.
  rewrite !E in H. apply H; try lia.
  intros Htr. split; apply (Hbn Htr).
Qed.

Lemma ResBlock_skip_head (B : Backend) (tr : bool) (self : ResBlock.t) (x : tensor B)
  (w : world B) :
  ResBlock.forward B tr self x w
  = (out <- Sequential0_call B tr (ResBlock.layer self) x ;;
     out_len <-- shape_at B out 2 ;;
     x_head <-- slice2 B x 0 out_len ;;
     lift (t_add B x_head out))%M w
  \/ exists e, shape_at B x 2 = Raise e.
Proof.
  destruct (shape_at B x 2) as [x_len | e] eqn:Ex; [left | right; exists e; reflexivity].
  unfold ResBlock.forward, bind, lift. rewrite Ex.
  destruct (Sequential0_call B tr (ResBlock.layer self) x w) as [[out | e] w1];
    [| reflexivity].
  destruct (shape_at B out 2) as [out_len | e]; [| reflexivity].
  replace (x_len - (x_len - out_len)) with out_len by lia. reflexivity.
Qed.

(** C5, as the code has it: a block built with its own defaults has
    [padding=0], and an input of length 10 comes back with length 6; a
    block whose convolutions lengthen the sequence ([padding=2]) cannot add
    its skip and raises. *)
Lemma ResBlock_default_padding_shortens :
  fst (ResBlock.forward ShapeBackend false ResBlock.init_default [2; 32; 10]
         fresh_world) = Ok [2; 32; 6]
  /\ ResBlock.init_default <> ResBlock.init 32 3 1 1 1
  /\ fst (ResBlock.forward ShapeBackend false (ResBlock.init 32 3 1 2 1) [2; 32; 10]
            fresh_world)
     = Raise (RuntimeError "The size of tensor a must match the size of tensor b").
Proof.
  split; [reflexivity |]. split; [discriminate | reflexivity].
Qed.

Lemma raises_ResBlock_single (c k s p d b l : Z) :
  1 <= k -> 1 <= s -> 0 <= p -> 1 <= d ->
  d * (k - 1) + 1 <= l + 2 * p ->
  b * l = 1 \/ b * conv_out_len l k s p d = 1 ->
  raises (ResBlock.forward ShapeBackend true (ResBlock.init c k s p d) [b; c; l])
    (ValueError "Expected more than 1 value per channel when training").
Proof.
  intros Hk Hs Hp Hd Hfit Hone.
  assert (Hbn : forall l', b * l' = 1 ->
            raises (nn_call ShapeBackend true (BatchNorm1d c) [b; c; l'])
              (ValueError "Expected more than 1 value per channel when training")).
  { intros l' E. apply raises_nn_call.
    cbn [Module0_shape BatchNorm1d_shape]. unfold BatchNorm1d_check.
    rewrite E. reflexivity. }
  unfold ResBlock.forward, Sequential0_call.
  cbn [ResBlock.init ResBlock.layer for_each].
  apply raises_bind.
  eapply raises_after; [apply returns_ReLU |].
  destruct (Z.eq_dec (b * l) 1) as [E | E].
  { apply raises_bind. apply Hbn. exact E. }
  destruct Hone as [E' | E']; [contradiction |].
  eapply raises_after; [apply returns_BatchNorm1d3; intros _; exact E |].
  eapply raises_after;
    [apply (returns_Conv1d true c c k s p d b l (conv_out_len l k s p d)); auto |].
  eapply raises_after; [apply returns_ReLU |].
  apply raises_bind. apply Hbn. exact E'.
Qed.

(** C5, amended: take a block that the constructor builds, and an input of
    length [l] on which both convolutions apply and are not longer at their
    output than [l].  In evaluation mode, and in training mode when each of
    the two batch normalisations sees more than one value per channel, the
    output has the length left by the two convolutions; in training mode
    with a single value per channel at one of them the forward pass raises
    [ValueError].  The skip term is [x[:, :, 0:out_len]], the first
    [out_len] positions of the input from the left edge.  With
    [kernel_size=3, stride=1, dilation=1, padding=1], the values with which
    Network1 and Network2 build every block, the length is kept; the
    defaults of the signature have [padding=0] and take 4 positions off. *)
Theorem ResBlock_output_length (B : Backend) (self : ResBlock.t) (x : tensor B)
  (w : world B) (tr : bool) (c k s p d b l : Z) (rb : ResBlock.t) :
  ResBlock.construct c k s p d = Ok rb ->
  1 <= k -> 1 <= s -> 0 <= p -> 1 <= d ->
  d * (k - 1) + 1 <= l + 2 * p ->
  d * (k - 1) + 1 <= conv_out_len l k s p d + 2 * p ->
  conv_out_len (conv_out_len l k s p d) k s p d <= l ->
  ((tr = true -> b * l <> 1 /\ b * conv_out_len l k s p d <> 1) ->
   returns (ResBlock.forward ShapeBackend tr rb [b; c; l])
     [b; c; conv_out_len (conv_out_len l k s p d) k s p d])
  /\ (tr = true -> b * l = 1 \/ b * conv_out_len l k s p d = 1 ->
      raises (ResBlock.forward ShapeBackend tr rb [b; c; l])
        (ValueError "Expected more than 1 value per channel when training"))
  /\ (ResBlock.forward B tr self x w
      = (out <- Sequential0_call B tr (ResBlock.layer self) x ;;
         out_len <-- shape_at B out 2 ;;
         x_head <-- slice2 B x 0 out_len ;;
         lift (t_add B x_head out))%M w
      \/ exists e, shape_at B x 2 = Raise e)
  /\ slice2 ShapeBackend [b; c; l] 0 (conv_out_len (conv_out_len l k s p d) k s p d)
     = Ok [b; c; conv_out_len (conv_out_len l k s p d) k s p d]
  /\ (forall l' rb', ResBlock.construct c 3 1 1 1 = Ok rb' ->
      1 <= l' -> (tr = true -> b * l' <> 1) ->
      returns (ResBlock.forward ShapeBackend tr rb' [b; c; l']) [b; c; l'])
  /\ (forall cin cout ks radius order dp n net,
      Network1.construct cin cout ks radius order dp n = Ok net ->
      Forall (fun block => ResBlock.construct cout 3 1 1 1 = Ok block)
        (Network1.RBs1 net ++ Network1.RBs2 net ++ Network1.RBs1_2 net
         ++ Network1.RBs2_2 net))
  /\ (forall emb_dims no_of_cont sizes emb_dropout dps cin cout ks radius order dp n
        pad net,
      Network2.init emb_dims no_of_cont sizes emb_dropout dps cin cout ks radius order
        dp n pad = Ok net ->
      Forall (fun block => ResBlock.construct cout 3 1 1 1 = Ok block)
        (Network2.RBs1 net ++ Network2.RBs2 net ++ Network2.RBs1_2 net
         ++ Network2.RBs2_2 net))
  /\ (forall l', 5 <= l' -> (tr = true -> 2 <= b) -> 1 <= b ->
      returns (ResBlock.forward ShapeBackend tr ResBlock.init_default [b; 32; l'])
        [b; 32; l' - 4]).
Proof.
  intros Hrb Hk Hs Hp Hd Hfit1 Hfit2 Hshrink.
  apply ResBlock_construct_Ok in Hrb. destruct Hrb as [-> [Hc _]].
  assert (Hblocks : forall cout, 0 <= cout ->
            Forall (fun block => ResBlock.construct cout 3 1 1 1 = Ok block)
              (map (fun _ => ResBlock.init cout 3 1 ((3 - 1) / 2) 1) (range 2)
               ++ map (fun _ => ResBlock.init cout 3 1 ((3 - 1) / 2) 1) (range 2)
               ++ map (fun _ => ResBlock.init cout 3 1 ((3 - 1) / 2) 1) (range 2)
               ++ map (fun _ => ResBlock.init cout 3 1 ((3 - 1) / 2) 1) (range 2))).
  { intros cout Hcout.
    assert (E : ResBlock.construct cout 3 1 1 1 = Ok (ResBlock.init cout 3 1 1 1)).
    { unfold ResBlock.construct.
      rewrite (nn_BatchNorm1d_accepts cout Hcout),
        (nn_Conv1d_accepts cout cout 3 1 1 1 Hcout Hcout ltac:(lia)).
      reflexivity. }
    repeat constructor; exact E. }
  split; [intros Hbn; apply returns_ResBlock; assumption |].
  split; [intros -> Hone; apply raises_ResBlock_single; assumption |].
  split; [apply ResBlock_skip_head |].
  split.
  { cbn [slice2 ShapeBackend slice2_shape]. rewrite slice_len_head; [reflexivity |].
    pose proof (conv_out_len_pos (conv_out_len l k s p d) k s p d Hs Hfit2). lia. }
  split.
  { intros l' rb' Hrb' Hl' Hbn'.
    apply ResBlock_construct_Ok in Hrb'. destruct Hrb' as [-> _].
    apply returns_ResBlock_same; assumption. }
  split.
  { intros cin cout ks radius order dp n net Hnet.
    apply Network1_construct_Ok in Hnet. destruct Hnet as [-> [_ [Hcout _]]].
    apply Hblocks. exact Hcout. }
  split.
  { intros emb_dims no_of_cont sizes emb_dropout dps cin cout ks radius order dp n
      pad net Hinit.
    apply Network2_init_Ok in Hinit.
    destruct Hinit as [pad' [s0 [rest [_ [_ [-> [_ [_ [Hcout _]]]]]]]]].
    apply Hblocks. exact Hcout. }
  intros l' Hl' Hmode Hb.
  assert (E1 : conv_out_len l' 3 1 0 1 = l' - 2) by arith.
  assert (E2 : conv_out_len (l' - 2) 3 1 0 1 = l' - 4) by arith.
  pose proof (returns_ResBlock tr 32 3 1 0 1 b l') as H.
  rewrite E1, E2 in H.
  apply H; try lia; try (intros Htr; specialize (Hmode Htr); split; nia).
Qed.

(** A block with [kernel_size=5, stride=1, padding=1, dilation=1] on 16
    channels, in evaluation mode, for a batch of 2 sequences of length 20. *)
Lemma ResBlock_output_length_sample :
  (ResBlock.construct 16 5 1 1 1 = Ok (ResBlock.init 16 5 1 1 1)
   /\ 1 <= 5 /\ 1 <= 1 /\ 0 <= 1 /\ 1 <= 1
   /\ 1 * (5 - 1) + 1 <= 20 + 2 * 1
   /\ 1 * (5 - 1) + 1 <= conv_out_len 20 5 1 1 1 + 2 * 1
   /\ conv_out_len (conv_out_len 20 5 1 1 1) 5 1 1 1 <= 20)
  /\ returns (ResBlock.forward ShapeBackend false (ResBlock.init 16 5 1 1 1) [2; 16; 20])
       [2; 16; 16]
  /\ raises (ResBlock.forward ShapeBackend true (ResBlock.init 16 5 1 1 1) [1; 16; 3])
       (ValueError "Expected more than 1 value per channel when training").
Proof.
  assert (H1 : 1 * (5 - 1) + 1 <= conv_out_len 20 5 1 1 1 + 2 * 1)
    by (vm_compute; discriminate).
  assert (H2 : conv_out_len (conv_out_len 20 5 1 1 1) 5 1 1 1 <= 20)
    by (vm_compute; discriminate).
  assert (H3 : false = true -> 2 * 20 <> 1 /\ 2 * conv_out_len 20 5 1 1 1 <> 1)
    by discriminate.
  split.
  { repeat split; try lia; try exact H1; try exact H2. }
  split.
  - exact (proj1 (ResBlock_output_length ShapeBackend (ResBlock.init 16 5 1 1 1)
                    [2; 16; 20] fresh_world false 16 5 1 1 1 2 20
                    (ResBlock.init 16 5 1 1 1) eq_refl
                    ltac:(lia) ltac:(lia) ltac:(lia) ltac:(lia) ltac:(lia) H1 H2) H3).
  - intros w. eexists. reflexivity.
Defined.

(** ** Shapes: the stages of the expanded branch *)

Ltac side :=
  first [ assumption | reflexivity | lia
        | match goal with
          | |- _ = true -> _ <> 1 =>
              let Htr := fresh "Htr" in
              intros Htr;
              repeat match goal with
                     | H : _ = true -> _ |- _ => specialize (H Htr)
                     end; nia
          end ].

Lemma returns_conv_block (tr : bool) (cin cout k b l l' : Z) :
  1 <= k -> l' = l - (k - 1) mod 2 -> 1 <= l' -> (tr = true -> b * l <> 1) ->
  returns (Sequential0_call ShapeBackend tr
             [BatchNorm1d cin; Conv1d cin cout k 1 ((k - 1) / 2) 1] [b; cin; l])
    [b; cout; l'].
Proof.
  intros Hk Hl' Hpos Hbn. unfold Sequential0_call. cbn [for_each].
  eapply returns_bind; [apply returns_BatchNorm1d3; exact Hbn |].
  eapply returns_bind; [apply returns_Conv1d_same; eassumption |].
  apply returns_ret.
Qed.

Lemma returns_conv_relu_block (tr : bool) (cin cout k b l l' : Z) :
  1 <= k -> l' = l - (k - 1) mod 2 -> 1 <= l' -> (tr = true -> b * l <> 1) ->
  returns (Sequential0_call ShapeBackend tr
             [BatchNorm1d cin; Conv1d cin cout k 1 ((k - 1) / 2) 1; ReLU] [b; cin; l])
    [b; cout; l'].
Proof.
  intros Hk Hl' Hpos Hbn. unfold Sequential0_call. cbn [for_each].
  eapply returns_bind; [apply returns_BatchNorm1d3; exact Hbn |].
  eapply returns_bind; [apply returns_Conv1d_same; eassumption |].
  eapply returns_bind; [apply returns_ReLU |].
  apply returns_ret.
Qed.


Lemma returns_fc_block (tr : bool) (c : Z) (dp : Q) (n b : Z) :
  (tr = true -> b <> 1) ->
  returns (Sequential0_call ShapeBackend tr
             [BatchNorm1d c; Dropout dp; Linear c n] [b; c])
    [b; n].
Proof.
  intros Hbn. unfold Sequential0_call. cbn [for_each].
  eapply returns_bind; [apply returns_BatchNorm1d2; exact Hbn |].
  eapply returns_bind; [apply returns_Dropout |].
  eapply returns_bind; [apply returns_Linear2 |].
  apply returns_ret.
Qed.


Lemma returns_ResBlocks_same (tr : bool) (c b l : Z) :
  1 <= l -> (tr = true -> b * l <> 1) ->
  returns (ResBlocks_call ShapeBackend tr
             (map (fun _ : Z => ResBlock.init c 3 1 ((3 - 1) / 2) 1) (range 2))
             [b; c; l])
    [b; c; l].
Proof.
  intros Hl Hbn.
  change (map (fun _ : Z => ResBlock.init c 3 1 ((3 - 1) / 2) 1) (range 2))
    with [ResBlock.init c 3 1 1 1; ResBlock.init c 3 1 1 1].
  unfold ResBlocks_call. cbn [for_each].
  eapply returns_bind; [apply returns_ResBlock_same; assumption |].
  eapply returns_bind; [apply returns_ResBlock_same; assumption |].
  apply returns_ret.
Qed.

(** The skip of the network around residual blocks that keep the length. *)
Lemma outcome_jump_add {A : Type} (b c l : Z) (k : list Z -> M shape_world A)
  (r : result A) :
  0 <= l ->
  outcome (k [b; c; l]) r ->
  outcome (bind (lift (shape_at ShapeBackend [b; c; l] 2)) (fun jump_len =>
           bind (lift (shape_at ShapeBackend [b; c; l] 2)) (fun out_len =>
           bind (assert_ (jump_len >=? out_len) "") (fun _ =>
           bind (lift (slice2 ShapeBackend [b; c; l] 0 out_len)) (fun jump_head =>
           bind (lift (t_add ShapeBackend [b; c; l] jump_head)) k))))) r.
Proof.
  intros Hl Hk.
  eapply outcome_bind; [apply returns_lift; reflexivity |].
  eapply outcome_bind; [apply returns_lift; reflexivity |].
  eapply outcome_bind; [apply returns_assert; apply Z.geb_le; lia |].
  eapply outcome_bind.
  { apply returns_lift. cbn [slice2 ShapeBackend slice2_shape].
    rewrite slice_len_head by lia. reflexivity. }
  eapply outcome_bind; [apply returns_lift; apply t_add_shape_same |].
  exact Hk.
Qed.

Lemma returns_torch_max2 (b c l : Z) :
  1 <= l -> returns (lift (S := shape_world) (torch_max2 ShapeBackend [b; c; l])) [b; c].
Proof.
  intros Hl. apply returns_lift. cbn [torch_max2 ShapeBackend torch_max2_shape].
  replace (l =? 0) with false by (symmetry; apply Z.eqb_neq; lia). reflexivity.
Qed.



(** One sub-pipeline of the expanded branch from its first convolution to
    its third pooling: [a], [b], [c], [d], [e] are the lengths after
    [conv1], [maxpool1], [maxpool2], [conv2] and [maxpool3]. *)
Ltac sub_pipeline_front a b c d e :=
  eapply outcome_bind; [apply (returns_conv_block _ _ _ _ _ _ a); side |];
  eapply outcome_bind; [apply (returns_MaxPool1d _ _ _ _ _ _ _ b); side |];
  eapply outcome_bind; [apply returns_ResBlocks_same; side |];
  apply outcome_jump_add; [side |];
  eapply outcome_bind; [apply (returns_MaxPool1d _ _ _ _ _ _ _ c); side |];
  eapply outcome_bind; [apply (returns_conv_block _ _ _ _ _ _ d); side |];
  eapply outcome_bind; [apply returns_ResBlocks_same; side |];
  apply outcome_jump_add; [side |];
  eapply outcome_bind; [apply (returns_MaxPool1d _ _ _ _ _ _ _ e); side |].

(** The whole sub-pipeline, to the maximum over the positions; [f] is the
    length after [conv3]. *)
Ltac sub_pipeline a b c d e f :=
  sub_pipeline_front a b c d e;
  eapply outcome_bind; [apply (returns_conv_relu_block _ _ _ _ _ _ f); side |];
  eapply outcome_bind; [apply returns_torch_max2; side |].




(** ** Shapes: the local branch of Network2 *)

Lemma returns_list_comp {S A X : Type} (f : X -> M S A) (xs : list X) (v : A) :
  (forall x, In x xs -> returns (f x) v) ->
  returns (list_comp f xs) (repeat v (List.length xs)).
Proof.
  induction xs as [| x xs IH]; intros Hf; cbn [list_comp List.length repeat].
  - apply returns_ret.
  - eapply returns_bind; [apply Hf; left; reflexivity |].
    eapply returns_bind; [apply IH; intros y Hy; apply Hf; right; exact Hy |].
    apply returns_ret.
Qed.

Lemma in_range (n i : Z) : In i (range n) -> 0 <= i < n.
Proof.
  unfold range. intros Hin. apply in_map_iff in Hin.
  destruct Hin as [j [<- Hj]]. apply in_seq in Hj. lia.
Qed.

Lemma length_range (n : Z) : List.length (range n) = Z.to_nat n.
Proof. unfold range. rewrite length_map, length_seq. reflexivity. Qed.

Lemma cat1_onto_repeat (b acc width : Z) (n : nat) :
  cat1_onto [b; acc] (repeat [b; width] n) = Ok [b; acc + width * Z.of_nat n].
Proof.
  revert acc. induction n as [| n IH]; intros acc.
  - cbn [repeat cat1_onto]. do 3 f_equal. lia.
  - cbn [repeat cat1_onto list_eqb]. rewrite Z.eqb_refl. cbn [andb].
    rewrite IH. do 3 f_equal. lia.
Qed.

Lemma torch_cat1_repeat (b width : Z) (n : nat) :
  (1 <= n)%nat ->
  torch_cat1_shape (repeat [b; width] n) = Ok [b; width * Z.of_nat n].
Proof.
  destruct n as [| n]; [lia |]. intros _.
  cbn [repeat torch_cat1_shape]. rewrite cat1_onto_repeat. do 3 f_equal. lia.
Qed.

Lemma returns_linear_loop (tr : bool) (b : Z) (sizes : list Z) (dps : list Q)
  (input : Z) :
  (List.length sizes <= List.length dps)%nat ->
  (tr = true -> b <> 1) ->
  returns
    (for_each (zip3 (linears_from input sizes) (map Dropout dps) (map BatchNorm1d sizes))
       (fun local_out '(lin_layer, dropout_layer, bn_layer) =>
          bind (nn_call ShapeBackend tr lin_layer local_out) (fun h =>
          bind (lift (F_relu ShapeBackend h)) (fun h =>
          bind (nn_call ShapeBackend tr bn_layer h) (fun h =>
          nn_call ShapeBackend tr dropout_layer h))))
       [b; input])
    [b; last sizes input].
Proof.
  intros Hlen Hbn. revert dps input Hlen.
  induction sizes as [| s sizes IH]; intros dps input Hlen.
  - cbn [linears_from zip3 for_each last]. apply returns_ret.
  - destruct dps as [| dp dps]; [cbn [List.length] in Hlen; lia |].
    cbn [linears_from map zip3 for_each].
    eapply returns_bind.
    { eapply returns_bind; [apply returns_Linear2 |].
      eapply returns_bind; [apply returns_lift; reflexivity |].
      eapply returns_bind; [apply returns_BatchNorm1d2; exact Hbn |].
      apply returns_Dropout. }
    rewrite last_cons_as_default.
    apply IH. cbn [List.length] in Hlen. lia.
Qed.

Lemma len_pos {A : Type} (xs : list A) : xs <> [] -> 1 <= len xs.
Proof. destruct xs; [congruence |]. intros _. unfold len. cbn [List.length]. lia. Qed.





Lemma returns_select_embed (tr : bool) (b ncat n dim i : Z) :
  0 <= i < ncat ->
  returns (bind (lift (select_col ShapeBackend [b; ncat] i))
             (fun col => nn_call ShapeBackend tr (Embedding n dim) col))
    [b; dim].
Proof.
  intros Hi. eapply returns_bind.
  - apply returns_lift. cbn [select_col ShapeBackend select_col_shape].
    replace ((- ncat <=? i) && (i <? ncat)) with true; [reflexivity |].
    symmetry. apply andb_true_iff. split; [apply Z.leb_le | apply Z.ltb_lt]; lia.
  - apply (returns_Embedding tr n dim [b]).
Qed.


(** ** Shapes: the forward pass of Network2 *)



(** ** The layers called before the check of the distal length *)

Section No_conv_facts.

Context {A B : Type}.





End No_conv_facts.








(** ** The precondition on the distal length *)




(** ** The shape of the output *)




(** ** The end-to-end scenario *)






(** ** The local model with one side of its input empty *)

(** With at least one categorical position the local model returns logits
    of shape [batch, n_class], with continuous features or without any
    ([no_of_cont = 0]): the side that does work when the other is empty. *)
Lemma FeedForwardNN_forward_returns (mode : bool) (emb_dims : list (Z * Z))
  (no_of_cont s0 : Z) (rest : list Z) (emb_dropout : Q) (dps : list Q)
  (n_class pad batch ncat : Z) :
  emb_dims <> [] -> 0 <= no_of_cont -> len emb_dims <= ncat ->
  (List.length (s0 :: rest) <= List.length dps)%nat ->
  (mode = true -> 2 <= batch) ->
  returns
    (FeedForwardNN.forward ShapeBackend
       (FeedForwardNN.set_training mode
          (FeedForwardNN.built emb_dims no_of_cont s0 rest emb_dropout dps n_class pad))
       [batch; no_of_cont] [batch; ncat])
    [batch; n_class].
Proof.
  intros Hemb Hcont Hcat Hdps Hmode.
  pose proof (len_pos emb_dims Hemb) as Hlen.
  unfold FeedForwardNN.forward.
  cbn [FeedForwardNN.training FeedForwardNN.set_training FeedForwardNN.no_of_embs
       FeedForwardNN.no_of_cat FeedForwardNN.emb_layer FeedForwardNN.emb_dropout_layer
       FeedForwardNN.no_of_cont FeedForwardNN.first_bn_layer FeedForwardNN.lin_layers
       FeedForwardNN.droput_layers FeedForwardNN.bn_layers FeedForwardNN.output_layer
       FeedForwardNN.built].
  replace (len emb_dims * 5 =? 0) with false by (symmetry; apply Z.eqb_neq; lia).
  cbn [negb].
  eapply returns_bind.
  { eapply returns_bind; [| apply returns_ret].
    apply returns_list_comp. intros i Hi. apply in_range in Hi.
    apply returns_select_embed. lia. }
  eapply returns_bind; [apply returns_ret |].
  rewrite length_range.
  eapply returns_bind.
  { apply returns_lift. cbn [torch_cat1 ShapeBackend].
    apply torch_cat1_repeat. unfold len in *. lia. }
  eapply returns_bind; [apply returns_Dropout |].
  replace (Z.of_nat (Z.to_nat (len emb_dims))) with (len emb_dims) by lia.
  eapply returns_bind with (a := [batch; len emb_dims * 5 + no_of_cont]).
  { destruct (Z.eqb_spec no_of_cont 0) as [E | E]; cbn [negb].
    - replace (len emb_dims * 5 + no_of_cont) with (5 * len emb_dims) by lia.
      apply returns_ret.
    - eapply returns_bind; [apply returns_BatchNorm1d2; side |].
      apply returns_lift.
      cbn [torch_cat1 ShapeBackend torch_cat1_shape cat1_onto list_eqb].
      rewrite Z.eqb_refl. cbn [andb]. do 3 f_equal. lia. }
  eapply returns_bind; [apply returns_linear_loop; [exact Hdps | side] |].
  rewrite last_cons_as_default. apply returns_Linear2.
Qed.

(** ** The driver: files, devices and the shutdown of Ray *)

Lemma bind_ok {S A B : Type} (m : M S A) (k : A -> M S B) (s s' : S) (a : A) :
  m s = (Ok a, s') -> bind m k s = k a s'.
Proof. intros E. unfold bind. rewrite E. reflexivity. Qed.

Lemma bind_raise {S A B : Type} (m : M S A) (k : A -> M S B) (s s' : S) (e : exn) :
  m s = (Raise e, s') -> bind m k s = (Raise e, s').
Proof. intros E. unfold bind. rewrite E. reflexivity. Qed.

Section Driver_log_facts.

Import Driver.

Lemma for_each_act_log {X : Type} (xs : list X) (f : X -> action) (log : list action) :
  for_each xs (fun _ x => act (f x)) tt log = (Ok tt, log ++ map f xs).
Proof.
  revert log. induction xs as [| x xs IH]; intros log; simpl.
  - unfold ret. rewrite app_nil_r. reflexivity.
  - unfold bind, act. rewrite IH, <- app_assoc. reflexivity.
Qed.

Lemma prepare_log (host : Host) (args : Args) (log : list action) :
  exists notice,
    prepare host args log
    = (Ok (bw_files_of host args, as_bounds (learning_rate args),
           as_bounds (weight_decay args)),
       (log ++ ([Stdout "Start time:"; Stdout "sys.argv"; Stdout "args.split_seed:"]
                ++ notice)) ++ h5_requests host args)
    /\ forall a, In a notice -> exists text, a = Stdout text.
Proof.
  assert (Hbw : exists notice,
    (match given (bw_paths args) with
     | Some _ =>
         match bw_table host with
         | Some (files, names) => ret (files, names)
         | None => bind (act (Stdout "Warnings: no bigWig files provided in"))
                     (fun _ => ret ([], []))
         end
     | None => bind (act (Stdout "NOTE: no bigWig files provided."))
                 (fun _ => ret ([], []))
     end) (((log ++ [Stdout "Start time:"]) ++ [Stdout "sys.argv"])
           ++ [Stdout "args.split_seed:"])
    = (Ok (bw_files_of host args,
           match given (bw_paths args) with
           | Some _ => match bw_table host with Some (_, names) => names | None => [] end
           | None => []
           end),
       (((log ++ [Stdout "Start time:"]) ++ [Stdout "sys.argv"])
        ++ [Stdout "args.split_seed:"]) ++ notice)
    /\ forall a, In a notice -> exists text, a = Stdout text).
  { unfold bw_files_of. destruct (given (bw_paths args)) as [path |].
    - destruct (bw_table host) as [[files names] |].
      + exists []. split; [| intros a []]. unfold ret. rewrite app_nil_r. reflexivity.
      + eexists. split; [reflexivity |]. intros a [<- | []]. eexists. reflexivity.
    - eexists. split; [reflexivity |]. intros a [<- | []]. eexists. reflexivity. }
  destruct Hbw as [notice [Ebw Hnotice]].
  exists notice. split; [| exact Hnotice].
  unfold prepare.
  erewrite bind_ok by reflexivity.
  erewrite bind_ok by reflexivity.
  erewrite bind_ok by reflexivity.
  rewrite (bind_ok _ _ _ _ _ Ebw).
  erewrite bind_ok by apply for_each_act_log.
  unfold h5_requests.
  destruct (given (validation_data args)) as [valid_file |].
  - erewrite bind_ok by apply for_each_act_log.
    unfold ret. rewrite <- !app_assoc. reflexivity.
  - erewrite bind_ok by reflexivity.
    unfold ret. rewrite app_nil_r, <- !app_assoc. reflexivity.
Qed.

Lemma select_device_log (host : Host) (args : Args) (log : list action) :
  exists added,
    snd (select_device host args log) = log ++ added
    /\ existsb is_h5_request added = false
    /\ existsb is_ray_call added = false
    /\ (fst (select_device host args log) = Ok tt
        \/ fst (select_device host args log) = Raise (SystemExit None))
    /\ ((0 <? ray_ngpus args) || Qltb 0 (gpu_per_trial args) = false ->
        select_device host args log = (Ok tt, log ++ [Stdout "Ray is using only CPUs ..."]))
    /\ ((0 <? ray_ngpus args) || Qltb 0 (gpu_per_trial args) = true ->
        cuda_is_available host = true ->
        select_device host args log
        = (Ok tt, log ++ [SetEnv "CUDA_DEVICE_ORDER" "PCI_BUS_ID";
                          SetEnv "CUDA_VISIBLE_DEVICES" (cuda_id args);
                          Stdout "Ray is using GPU device"])).
Proof.
  unfold select_device.
  destruct ((0 <? ray_ngpus args) || Qltb 0 (gpu_per_trial args)).
  - destruct (cuda_is_available host).
    + eexists. unfold bind, act, ret. simpl. rewrite <- !app_assoc. simpl.
      repeat split; try reflexivity; try discriminate. left. reflexivity.
    + eexists. unfold bind, act, raise. simpl.
      repeat split; try reflexivity; try discriminate. right. reflexivity.
  - eexists. unfold act. simpl.
    repeat split; try reflexivity; try discriminate. left. reflexivity.
Qed.

Lemma launch_adds (host : Host) (args : Args) (lr wd : list Q) (log : list action) :
  exists added,
    snd (launch host args lr wd log) = log ++ added
    /\ existsb is_h5_request added = false
    /\ existsb sets_env added = false.
Proof.
  rewrite launch_outcome.
  destruct (search_space args lr wd) as [space | e].
  - destruct (asha args) as [scheduler | e].
    + destruct (tune_run_raises host) as [e |];
        eexists; (split; [reflexivity |]); split; reflexivity.
    + eexists. split; [reflexivity |]. split; reflexivity.
  - eexists. split; [reflexivity |]. split; reflexivity.
Qed.

Lemma existsb_map_false {X : Type} (p : action -> bool) (f : X -> action) (xs : list X) :
  (forall x, p (f x) = false) -> existsb p (map f xs) = false.
Proof.
  intros H. induction xs as [| x xs IH]; simpl; [reflexivity |].
  rewrite H, IH. reflexivity.
Qed.

Lemma existsb_stdout_false (p : action -> bool) (xs : list action) :
  (forall text, p (Stdout text) = false) ->
  (forall a, In a xs -> exists text, a = Stdout text) ->
  existsb p xs = false.
Proof.
  intros Hp H. induction xs as [| x xs IH]; simpl; [reflexivity |].
  destruct (H x (or_introl eq_refl)) as [text ->]. rewrite Hp. simpl.
  apply IH. intros a Ha. apply H. right. exact Ha.
Qed.

Lemma h5_requests_no_other (host : Host) (args : Args) (p : action -> bool) :
  (forall bed r o files, p (GenerateH5 bed r o files) = false) ->
  existsb p (h5_requests host args) = false.
Proof.
  intros Hp. unfold h5_requests. rewrite existsb_app.
  rewrite existsb_map_false by (intros; apply Hp).
  destruct (given (validation_data args)) as [valid_file |]; [| reflexivity].
  rewrite existsb_map_false by (intros; apply Hp). reflexivity.
Qed.

End Driver_log_facts.

Lemma filter_existsb_false {X : Type} (p : X -> bool) (xs : list X) :
  existsb p xs = false -> filter p xs = [].
Proof.
  induction xs as [| x xs IH]; simpl; [reflexivity |].
  destruct (p x); simpl; [discriminate | exact IH].
Qed.

Lemma main_passing_device (host : Driver.Host) (args : Driver.Args)
  (log : list Driver.action) :
  (Driver.ray_ngpus args <= 0 /\ (Driver.gpu_per_trial args <= 0)%Q)
  \/ Driver.cuda_is_available host = true ->
  exists before,
    Driver.main host args log
    = Driver.launch host args (Driver.as_bounds (Driver.learning_rate args))
        (Driver.as_bounds (Driver.weight_decay args)) (log ++ before)
    /\ existsb is_ray_call before = false.
Proof.
  intros Hdev.
  destruct (prepare_log host args log) as [notice [Eprep Hnotice]].
  remember ([Driver.Stdout "Start time:"; Driver.Stdout "sys.argv";
             Driver.Stdout "args.split_seed:"] ++ notice) as before eqn:Ebefore.
  assert (Hbefore : existsb is_ray_call before = false).
  { subst before. rewrite existsb_app. simpl.
    apply existsb_stdout_false; [reflexivity | assumption]. }
  clear Ebefore.
  destruct (select_device_passes host args ((log ++ before) ++ h5_requests host args) Hdev)
    as [added2 [E2 _]].
  destruct (select_device_log host args ((log ++ before) ++ h5_requests host args))
    as [added2' [E2' [_ [Q2 _]]]].
  rewrite E2 in E2'. cbn [snd] in E2'. apply app_inv_head in E2'. subst added2'.
  exists ((before ++ h5_requests host args) ++ added2).
  unfold Driver.main. rewrite (bind_ok _ _ _ _ _ Eprep). cbv beta iota.
  rewrite (bind_ok _ _ _ _ _ E2).
  split; [rewrite <- !app_assoc; reflexivity |].
  rewrite !existsb_app, Hbefore, Q2.
  rewrite h5_requests_no_other by reflexivity. reflexivity.
Qed.

(** X2: once the preparation of the files has returned, the device check
    passes, the search space is built and the scheduler is accepted
    ([--local_hidden2_size] not empty, positive bounds
    for the learning rate and the weight decay,
    [0 < grace_period <= epochs]), [main] shuts Ray down exactly when
    [tune.run] returns.  If [tune.run] raises, [main] ends with that
    exception; Ray has been initialised, the trainable registered and the
    run started, and [ray.shutdown] is never called.  If it returns,
    [ray.shutdown] is the one call of Ray that follows, and [main]
    returns. *)
Theorem ray_shut_down_only_when_tune_run_returns (host : Driver.Host)
  (args : Driver.Args) (log : list Driver.action)
  (prepared : list string * list Q * list Q) :
  fst (Driver.prepare host args log) = Ok prepared ->
  (Driver.ray_ngpus args <= 0 /\ (Driver.gpu_per_trial args <= 0)%Q)
  \/ Driver.cuda_is_available host = true ->
  Driver.local_hidden2_size args <> [] ->
  positive_bounds (Driver.learning_rate args) ->
  positive_bounds (Driver.weight_decay args) ->
  0 < Driver.grace_period args <= Driver.epochs args ->
  exists space,
    Driver.search_space args (Driver.as_bounds (Driver.learning_rate args))
      (Driver.as_bounds (Driver.weight_decay args)) = Ok space
    /\ match Driver.tune_run_raises host with
       | Some e =>
           fst (Driver.main host args log) = Raise e
           /\ filter is_ray_call (snd (Driver.main host args log))
              = filter is_ray_call log
                ++ [Driver.RayInit (Driver.ray_ncpus args) (Driver.ray_ngpus args);
                    Driver.RegisterTrainable "Train";
                    Driver.TuneRun
                      (Driver.run_spec args space (requested_scheduler args))]
       | None =>
           fst (Driver.main host args log) = Ok tt
           /\ filter is_ray_call (snd (Driver.main host args log))
              = filter is_ray_call log
                ++ [Driver.RayInit (Driver.ray_ncpus args) (Driver.ray_ngpus args);
                    Driver.RegisterTrainable "Train";
                    Driver.TuneRun
                      (Driver.run_spec args space (requested_scheduler args));
                    Driver.RayShutdown]
       end.
Proof.
  intros _ Hdev H2 Hlr Hwd Hsched.
  destruct (search_space_defined args H2 Hlr Hwd)
    as [space [lr0 [lr1 [wd0 [wd1 [Hspace _]]]]]].
  exists space. split; [exact Hspace |].
  destruct (main_passing_device host args log Hdev) as [before [Emain Qbefore]].
  rewrite Emain, launch_outcome, Hspace, (asha_accepts args Hsched).
  destruct (Driver.tune_run_raises host) as [e |]; cbn [fst snd];
    (split; [reflexivity |]);
    rewrite !filter_app, (filter_existsb_false _ _ Qbefore), app_nil_r; reflexivity.
Qed.

(** The defaults of the command line on a machine with CUDA where
    [tune.run] raises. *)
Lemma ray_shut_down_only_when_tune_run_returns_failing :
  (fst (Driver.prepare
          {| Driver.cuda_is_available := true; Driver.bw_table := None;
             Driver.tune_run_raises := Some (TuneError "Trials did not complete") |}
          (Driver.default_args "seq.fa" "train.sorted.bed") [])
   = Ok ([], [5 # 1000; 5 # 1000], [1 # 100000; 1 # 100000])
   /\ positive_bounds (Driver.learning_rate (Driver.default_args "seq.fa" "train.sorted.bed"))
   /\ positive_bounds
        (Driver.weight_decay (Driver.default_args "seq.fa" "train.sorted.bed"))
   /\ 0 < Driver.grace_period (Driver.default_args "seq.fa" "train.sorted.bed")
      <= Driver.epochs (Driver.default_args "seq.fa" "train.sorted.bed"))
  /\ exists space,
    Driver.search_space (Driver.default_args "seq.fa" "train.sorted.bed")
      (Driver.as_bounds [5 # 1000]) (Driver.as_bounds [1 # 100000]) = Ok space
    /\ fst (Driver.main
              {| Driver.cuda_is_available := true; Driver.bw_table := None;
                 Driver.tune_run_raises := Some (TuneError "Trials did not complete") |}
              (Driver.default_args "seq.fa" "train.sorted.bed") [])
       = Raise (TuneError "Trials did not complete")
    /\ filter is_ray_call
         (snd (Driver.main
                 {| Driver.cuda_is_available := true; Driver.bw_table := None;
                    Driver.tune_run_raises := Some (TuneError "Trials did not complete") |}
                 (Driver.default_args "seq.fa" "train.sorted.bed") []))
       = [Driver.RayInit 6 1; Driver.RegisterTrainable "Train";
          Driver.TuneRun
            (Driver.run_spec (Driver.default_args "seq.fa" "train.sorted.bed") space
               (requested_scheduler
                  (Driver.default_args "seq.fa" "train.sorted.bed")))].
Proof.
  assert (Hlr : positive_bounds
                  (Driver.learning_rate (Driver.default_args "seq.fa" "train.sorted.bed")))
    by (split; reflexivity).
  assert (Hwd : positive_bounds
                  (Driver.weight_decay (Driver.default_args "seq.fa" "train.sorted.bed")))
    by (split; reflexivity).
  assert (Hsched : 0 < Driver.grace_period
                         (Driver.default_args "seq.fa" "train.sorted.bed")
                   <= Driver.epochs (Driver.default_args "seq.fa" "train.sorted.bed"))
    by (cbn; lia).
  split; [split; [reflexivity |]; split; [exact Hlr |]; split; [exact Hwd | exact Hsched] |].
  exact (ray_shut_down_only_when_tune_run_returns
           {| Driver.cuda_is_available := true; Driver.bw_table := None;
              Driver.tune_run_raises := Some (TuneError "Trials did not complete") |}
           (Driver.default_args "seq.fa" "train.sorted.bed") [] _ eq_refl
           (or_intror eq_refl) ltac:(discriminate) Hlr Hwd Hsched).
Defined.

(** X3: a run that asks for no GPU ([ray_ngpus <= 0] and
    [gpu_per_trial <= 0]) never looks at CUDA: on two machines that differ
    only in the availability of CUDA, [main] does the same and ends the
    same; and it sets no environment variable. *)
Theorem cpu_only_run_ignores_cuda (h1 h2 : Driver.Host) (args : Driver.Args)
  (log : list Driver.action) :
  same_but_cuda h1 h2 ->
  Driver.ray_ngpus args <= 0 -> (Driver.gpu_per_trial args <= 0)%Q ->
  Driver.main h1 args log = Driver.main h2 args log
  /\ exists added,
       snd (Driver.main h1 args log) = log ++ added
       /\ existsb sets_env added = false.
Proof.
  intros [Hbw Htune] Hn Hg.
  assert (Ereq : (0 <? Driver.ray_ngpus args) || Qltb 0 (Driver.gpu_per_trial args) = false).
  { apply orb_false_iff. split; [apply Z.ltb_ge; exact Hn |].
    unfold Qltb. apply Qle_bool_iff in Hg. rewrite Hg. reflexivity. }
  assert (Eprepare : Driver.prepare h1 args = Driver.prepare h2 args).
  { unfold Driver.prepare. rewrite Hbw. reflexivity. }
  assert (Edevice : forall h, Driver.select_device h args
                              = Driver.act (Driver.Stdout "Ray is using only CPUs ...")).
  { intros h. unfold Driver.select_device. rewrite Ereq. reflexivity. }
  assert (Elaunch : forall lr wd, Driver.launch h1 args lr wd = Driver.launch h2 args lr wd).
  { intros lr wd. unfold Driver.launch. rewrite Htune. reflexivity. }
  split.
  - unfold Driver.main. rewrite Eprepare, !Edevice.
    unfold bind. destruct (Driver.prepare h2 args log) as [[[[bw lr] wd] | e] log1];
      [| reflexivity].
    destruct (Driver.act _ log1) as [[[] | e] log2]; [| reflexivity].
    rewrite Elaunch. reflexivity.
  - destruct (prepare_log h1 args log) as [notice [Eprep Hnotice]].
    remember ([Driver.Stdout "Start time:"; Driver.Stdout "sys.argv";
               Driver.Stdout "args.split_seed:"] ++ notice) as before eqn:Ebefore.
    assert (Hbefore : existsb sets_env before = false).
    { subst before. rewrite existsb_app. simpl.
      apply existsb_stdout_false; [reflexivity | assumption]. }
    clear Ebefore.
    unfold Driver.main. rewrite (bind_ok _ _ _ _ _ Eprep). cbv beta iota.
    rewrite Edevice. erewrite bind_ok by reflexivity.
    destruct (launch_adds h1 args (Driver.as_bounds (Driver.learning_rate args))
                (Driver.as_bounds (Driver.weight_decay args))
                (((log ++ before) ++ h5_requests h1 args)
                 ++ [Driver.Stdout "Ray is using only CPUs ..."]))
      as [added3 [E3 [_ Q3]]].
    rewrite E3.
    exists (((before ++ h5_requests h1 args) ++ [Driver.Stdout "Ray is using only CPUs ..."])
            ++ added3).
    split; [rewrite <- !app_assoc; reflexivity |].
    rewrite !existsb_app, Hbefore, Q3.
    rewrite h5_requests_no_other by reflexivity. reflexivity.
Qed.

(** A machine with CUDA and one without, for [--ray_ngpus 0 --gpu_per_trial 0]. *)
Lemma cpu_only_run_ignores_cuda_sample :
  Driver.main
    {| Driver.cuda_is_available := true; Driver.bw_table := None;
       Driver.tune_run_raises := None |} cpu_only_args []
  = Driver.main
      {| Driver.cuda_is_available := false; Driver.bw_table := None;
         Driver.tune_run_raises := None |} cpu_only_args []
  /\ exists added,
       snd (Driver.main
              {| Driver.cuda_is_available := true; Driver.bw_table := None;
                 Driver.tune_run_raises := None |} cpu_only_args [])
       = [] ++ added
       /\ existsb sets_env added = false.
Proof.
  apply (cpu_only_run_ignores_cuda
           {| Driver.cuda_is_available := true; Driver.bw_table := None;
              Driver.tune_run_raises := None |}
           {| Driver.cuda_is_available := false; Driver.bw_table := None;
              Driver.tune_run_raises := None |} cpu_only_args []).
  - split; reflexivity.
  - simpl. lia.
  - simpl. discriminate.
Defined.

(** X4: the bounds of the two log-uniform samplers of the search space.  A
    single value of [--learning_rate] (or [--weight_decay]) is both the lower
    and the upper bound; of several values the first two are the bounds and
    the others are ignored.  The dictionary is built when the four bounds
    are positive.  With no value for the learning rate it cannot be built:
    [IndexError]; with a bound of the learning rate that is not positive
    [tune.loguniform] raises [ValueError]; and likewise for the weight
    decay, whose sampler is built after that of the learning rate. *)
Theorem loguniform_bounds_of_search_space (args : Driver.Args) :
  Driver.local_hidden2_size args <> [] ->
  match bounds_of (Driver.learning_rate args) with
  | None =>
      Driver.search_space args (Driver.as_bounds (Driver.learning_rate args))
        (Driver.as_bounds (Driver.weight_decay args))
      = Raise (IndexError "list index out of range")
  | Some (lr0, lr1) =>
      (~ (0 < lr0 /\ 0 < lr1)%Q ->
       exists msg,
         Driver.search_space args (Driver.as_bounds (Driver.learning_rate args))
           (Driver.as_bounds (Driver.weight_decay args))
         = Raise (ValueError msg))
      /\ ((0 < lr0 /\ 0 < lr1)%Q ->
          match bounds_of (Driver.weight_decay args) with
          | None =>
              Driver.search_space args (Driver.as_bounds (Driver.learning_rate args))
                (Driver.as_bounds (Driver.weight_decay args))
              = Raise (IndexError "list index out of range")
          | Some (wd0, wd1) =>
              (~ (0 < wd0 /\ 0 < wd1)%Q ->
               exists msg,
                 Driver.search_space args
                   (Driver.as_bounds (Driver.learning_rate args))
                   (Driver.as_bounds (Driver.weight_decay args))
                 = Raise (ValueError msg))
              /\ ((0 < wd0 /\ 0 < wd1)%Q ->
                  exists space,
                    Driver.search_space args
                      (Driver.as_bounds (Driver.learning_rate args))
                      (Driver.as_bounds (Driver.weight_decay args)) = Ok space
                    /\ sampler_of "learning_rate" space
                       = Some (Driver.loguniform lr0 lr1)
                    /\ sampler_of "weight_decay" space
                       = Some (Driver.loguniform wd0 wd1))
          end)
  end.
Proof.
  intros H2. unfold Driver.search_space.
  destruct (index_first "list index out of range" _ H2) as [h ->].
  pose proof (as_bounds_of (Driver.learning_rate args)) as Hlr.
  pose proof (as_bounds_of (Driver.weight_decay args)) as Hwd.
  destruct (bounds_of (Driver.learning_rate args)) as [[lr0 lr1] |].
  2:{ cbn [rbind]. rewrite Hlr. reflexivity. }
  destruct Hlr as [-> ->]. cbn [rbind]. split.
  { intros Hneg. destruct (tune_loguniform_refuses lr0 lr1 Hneg) as [msg ->].
    exists msg. reflexivity. }
  intros Hpos. rewrite (tune_loguniform_accepts lr0 lr1 Hpos). cbn [rbind].
  destruct (bounds_of (Driver.weight_decay args)) as [[wd0 wd1] |].
  2:{ rewrite Hwd. reflexivity. }
  destruct Hwd as [-> ->]. cbn [rbind]. split.
  { intros Hneg. destruct (tune_loguniform_refuses wd0 wd1 Hneg) as [msg ->].
    exists msg. reflexivity. }
  intros Hpos'. rewrite (tune_loguniform_accepts wd0 wd1 Hpos'). cbn [rbind].
  eexists. split; [reflexivity |]. split; reflexivity.
Qed.

(** [--learning_rate 0.001 0.01 0.1] with the default [--weight_decay 1e-5]. *)
Lemma loguniform_bounds_of_search_space_sample :
  Driver.local_hidden2_size three_learning_rates <> []
  /\ exists space,
    Driver.search_space three_learning_rates
      (Driver.as_bounds [1 # 1000; 1 # 100; 1 # 10]) (Driver.as_bounds [1 # 100000])
    = Ok space
    /\ sampler_of "learning_rate" space = Some (Driver.loguniform (1 # 1000) (1 # 100))
    /\ sampler_of "weight_decay" space
       = Some (Driver.loguniform (1 # 100000) (1 # 100000)).
Proof.
  assert (H2 : Driver.local_hidden2_size three_learning_rates <> []) by discriminate.
  split; [exact H2 |].
  exact (proj2 (proj2 (loguniform_bounds_of_search_space three_learning_rates H2)
                  (conj eq_refl eq_refl))
           (conj eq_refl eq_refl)).
Defined.

(** ** The local model: construction, truncated layer lists, narrow inputs *)

Lemma len_map {X Y : Type} (f : X -> Y) (xs : list X) : len (map f xs) = len xs.
Proof. unfold len. rewrite length_map. reflexivity. Qed.

Lemma FeedForwardNN_init_refuses_rate (emb_dims : list (Z * Z)) (no_of_cont s0 : Z)
  (rest : list Z) (emb_dropout : Q) (dps : list Q) (n_class pad : Z) :
  0 <= pad + 1 -> Forall (Z.le 0) (s0 :: rest) -> 0 <= no_of_cont ->
  (emb_dropout < 0 \/ 1 < emb_dropout)%Q ->
  FeedForwardNN.init emb_dims no_of_cont (s0 :: rest) emb_dropout dps n_class (Some pad)
  = Raise (ValueError "dropout probability has to be between 0 and 1").
Proof.
  intros Hpad Hsizes Hcont Hrate.
  pose proof (len_nonneg emb_dims) as Hlen.
  assert (Hs0 : 0 <= s0) by (inversion Hsizes; assumption).
  destruct (hidden_linears_accepts s0 rest Hsizes) as [hidden Ehidden].
  unfold FeedForwardNN.init. cbn [padding_idx_plus_1 rbind].
  rewrite nn_Embedding_accepts by lia. cbn [rbind].
  rewrite index_first_cons. cbn [rbind].
  rewrite nn_Linear_accepts by lia. cbn [rbind].
  rewrite Ehidden. cbn [rbind].
  rewrite (nn_BatchNorm1d_accepts _ Hcont). cbn [rbind].
  rewrite (map_result_accepts nn_BatchNorm1d BatchNorm1d).
  2:{ eapply Forall_impl; [| exact Hsizes].
      intros x Hx. apply nn_BatchNorm1d_accepts. exact Hx. }
  cbn [rbind]. rewrite (nn_Dropout_refuses _ Hrate). reflexivity.
Qed.

(** X5: what the constructor of the local model does with its arguments.
    It returns a module exactly when [emb_padding_idx] is given and is at
    least [-1], [lin_layer_sizes] is not empty, no size, [no_of_cont] or
    [n_class] is negative, and every dropout rate lies within [[0, 1]].  The
    module is then in training mode, with an embedding table of
    [emb_padding_idx+1] rows of width 5, linear layers chained from
    [5*len(emb_dims) + no_of_cont] through the sizes, and an output layer
    from the last size to [n_class].  With the default
    [emb_padding_idx=None] the constructor raises [TypeError]; with an
    accepted padding index and an empty [lin_layer_sizes] it raises
    [IndexError]; with accepted sizes and an [emb_dropout] outside [[0, 1]]
    it raises [ValueError].  Of [emb_dims] only the length is used: changing
    its entries changes nothing.  [Network0] wraps that module. *)
Theorem local_model_constructor_outcome (f : Z * Z -> Z * Z)
  (emb_dims : list (Z * Z)) (no_of_cont : Z) (lin_layer_sizes : list Z)
  (emb_dropout : Q) (lin_layer_dropouts : list Q) (n_class : Z)
  (emb_padding_idx : option Z) :
  ((exists ff,
       FeedForwardNN.init emb_dims no_of_cont lin_layer_sizes emb_dropout
         lin_layer_dropouts n_class emb_padding_idx = Ok ff)
   <-> (exists pad,
          emb_padding_idx = Some pad /\ lin_layer_sizes <> []
          /\ local_arguments_accepted no_of_cont lin_layer_sizes emb_dropout
               lin_layer_dropouts pad
          /\ 0 <= n_class))
  /\ (forall ff,
        FeedForwardNN.init emb_dims no_of_cont lin_layer_sizes emb_dropout
          lin_layer_dropouts n_class emb_padding_idx = Ok ff ->
        exists pad s0 rest,
          emb_padding_idx = Some pad /\ lin_layer_sizes = s0 :: rest
          /\ FeedForwardNN.training ff = true
          /\ FeedForwardNN.emb_layer ff = Embedding (pad + 1) 5
          /\ FeedForwardNN.lin_layers ff
             = linears_from (len emb_dims * 5 + no_of_cont) lin_layer_sizes
          /\ FeedForwardNN.output_layer ff = Linear (last rest s0) n_class)
  /\ (emb_padding_idx = None ->
      FeedForwardNN.init emb_dims no_of_cont lin_layer_sizes emb_dropout
        lin_layer_dropouts n_class emb_padding_idx
      = Raise (TypeError "unsupported operand type(s) for +: 'NoneType' and 'int'"))
  /\ (forall pad,
        emb_padding_idx = Some pad -> 0 <= pad + 1 -> lin_layer_sizes = [] ->
        FeedForwardNN.init emb_dims no_of_cont lin_layer_sizes emb_dropout
          lin_layer_dropouts n_class emb_padding_idx
        = Raise (IndexError "list index out of range"))
  /\ (forall pad,
        emb_padding_idx = Some pad -> 0 <= pad + 1 -> lin_layer_sizes <> [] ->
        Forall (Z.le 0) lin_layer_sizes -> 0 <= no_of_cont ->
        (emb_dropout < 0 \/ 1 < emb_dropout)%Q ->
        FeedForwardNN.init emb_dims no_of_cont lin_layer_sizes emb_dropout
          lin_layer_dropouts n_class emb_padding_idx
        = Raise (ValueError "dropout probability has to be between 0 and 1"))
  /\ FeedForwardNN.init (map f emb_dims) no_of_cont lin_layer_sizes emb_dropout
       lin_layer_dropouts n_class emb_padding_idx
     = FeedForwardNN.init emb_dims no_of_cont lin_layer_sizes emb_dropout
         lin_layer_dropouts n_class emb_padding_idx
  /\ Network0.init emb_dims no_of_cont lin_layer_sizes emb_dropout
       lin_layer_dropouts n_class emb_padding_idx
     = rmap (fun m => {| Network0.model := m |})
         (FeedForwardNN.init emb_dims no_of_cont lin_layer_sizes emb_dropout
            lin_layer_dropouts n_class emb_padding_idx).
Proof.
  split.
  { split.
    - intros [ff Hff]. apply FeedForwardNN_init_Ok in Hff.
      destruct Hff as [pad [s0 [rest [Epad [Esizes [_ [Hlocal Hn]]]]]]].
      exists pad. split; [exact Epad |]. split; [rewrite Esizes; discriminate |].
      split; assumption.
    - intros [pad [-> [Hne [Hlocal Hn]]]].
      destruct lin_layer_sizes as [| s0 rest]; [congruence |].
      eexists. apply FeedForwardNN_init_accepts; assumption. }
  split.
  { intros ff Hff. apply FeedForwardNN_init_Ok in Hff.
    destruct Hff as [pad [s0 [rest [Epad [Esizes [-> _]]]]]].
    exists pad, s0, rest. rewrite Esizes. repeat split; assumption || reflexivity. }
  split; [intros ->; reflexivity |].
  split.
  { intros pad -> Hpad ->. unfold FeedForwardNN.init. cbn [padding_idx_plus_1 rbind].
    rewrite nn_Embedding_accepts by lia. reflexivity. }
  split.
  { intros pad -> Hpad Hne Hsizes Hcont Hrate.
    destruct lin_layer_sizes as [| s0 rest]; [congruence |].
    apply FeedForwardNN_init_refuses_rate; assumption. }
  split; [unfold FeedForwardNN.init; rewrite len_map; reflexivity | reflexivity].
Qed.

(** The default [emb_padding_idx=None], and an embedding dropout of 3/2. *)
Lemma local_model_constructor_outcome_sample :
  FeedForwardNN.init (repeat (5, 5) 11) 0 [150; 75] (1 # 10) [1 # 10; 1 # 10] 4 None
  = Raise (TypeError "unsupported operand type(s) for +: 'NoneType' and 'int'")
  /\ ((0 <= 4 + 1 /\ [150; 75] <> [] /\ Forall (Z.le 0) [150; 75] /\ 0 <= 0
       /\ (3 # 2 < 0 \/ 1 < 3 # 2)%Q)
      /\ FeedForwardNN.init (repeat (5, 5) 11) 0 [150; 75] (3 # 2) [1 # 10; 1 # 10] 4
           (Some 4)
         = Raise (ValueError "dropout probability has to be between 0 and 1")).
Proof.
  assert (Hpad : 0 <= 4 + 1) by lia.
  assert (Hsizes : [150; 75] <> ([] : list Z)) by discriminate.
  assert (Hpos : Forall (Z.le 0) [150; 75]) by (repeat constructor; lia).
  assert (Hcont : 0 <= 0) by lia.
  assert (Hrate : (3 # 2 < 0 \/ 1 < 3 # 2)%Q) by (right; reflexivity).
  split.
  - exact (proj1 (proj2 (proj2
             (local_model_constructor_outcome (fun d => d) (repeat (5, 5) 11) 0
                [150; 75] (1 # 10) [1 # 10; 1 # 10] 4 None))) eq_refl).
  - split; [repeat split; assumption |].
    exact (proj1 (proj2 (proj2 (proj2 (proj2
             (local_model_constructor_outcome (fun d => d) (repeat (5, 5) 11) 0
                [150; 75] (3 # 2) [1 # 10; 1 # 10] 4 (Some 4))))))
             4 eq_refl Hpad Hsizes Hpos Hcont Hrate).
Defined.














Lemma raises_BatchNorm1d_single (n c : Z) :
  raises (nn_call ShapeBackend true (BatchNorm1d n) [1; c])
    (ValueError "Expected more than 1 value per channel when training").
Proof. apply raises_nn_call. reflexivity. Qed.





Lemma raises_fc_block_single (c : Z) (dp : Q) (n : Z) :
  raises (Sequential0_call ShapeBackend true
            [BatchNorm1d c; Dropout dp; Linear c n] [1; c])
    (ValueError "Expected more than 1 value per channel when training").
Proof.
  unfold Sequential0_call. cbn [for_each].
  apply raises_bind. apply raises_BatchNorm1d_single.
Qed.

(** X9: a training step on a single sample fails in the expanded-only model
    too.  With a distal input longer than 200 positions the first
    sub-pipeline runs to its end (batch normalisation sees more than one
    position per channel there); after the maximum over the positions one
    value per channel is left and the batch normalisation of [distal_fc1]
    raises [ValueError]. *)
Theorem Network1_training_batch_of_one
  (in_channels out_channels kernel_size distal_radius distal_order : Z)
  (distal_fc_dropout : Q) (n_class : Z) (local_input : list Z * list Z) (L : Z) :
  1 <= kernel_size -> 200 < L ->
  raises
    (Network1.forward ShapeBackend
       (Network1.set_training true
          (Network1.init in_channels out_channels kernel_size distal_radius
             distal_order distal_fc_dropout n_class))
       local_input [1; in_channels; L])
    (ValueError "Expected more than 1 value per channel when training").
Proof.
  intros Hk HL.
  set (m := (kernel_size - 1) mod 2).
  assert (Hm : 0 <= m <= 1)
    by (subst m; pose proof (Z.mod_pos_bound (kernel_size - 1) 2); lia).
  assert (P1 : 67 = pool_out_len (201 - m) 3 3 1) by arith.
  assert (P2 : 23 = pool_out_len 67 3 3 1) by reflexivity.
  assert (P3 : 8 = pool_out_len (23 - m) 3 3 1) by arith.
  unfold Network1.forward.
  cbn [Network1.training Network1.conv1 Network1.maxpool1 Network1.RBs1
       Network1.maxpool2 Network1.conv2 Network1.RBs2 Network1.maxpool3
       Network1.conv3 Network1.distal_fc1 Network1.conv1_2 Network1.maxpool1_2
       Network1.RBs1_2 Network1.maxpool2_2 Network1.conv2_2 Network1.RBs2_2
       Network1.maxpool3_2 Network1.conv3_2 Network1.distal_fc2
       Network1.set_training Network1.init].
  eapply outcome_bind; [apply returns_lift; reflexivity |].
  eapply outcome_bind; [apply returns_assert; apply Z.gtb_lt; exact HL |].
  eapply outcome_bind.
  { apply returns_lift. cbn [slice2 ShapeBackend slice2_shape].
    rewrite slice_len_crop by exact HL. reflexivity. }
  sub_pipeline (201 - m) 67 23 (23 - m) 8 (8 - m).
  apply raises_bind. apply raises_fc_block_single.
Qed.

(** The default kernel size and a window of 201 positions. *)
Lemma Network1_training_batch_of_one_sample :
  raises
    (Network1.forward ShapeBackend
       (Network1.set_training true (Network1.init 4 32 3 100 1 (1 # 4) 4))
       ([1; 0], [1; 11]) [1; 4; 201])
    (ValueError "Expected more than 1 value per channel when training").
Proof.
  apply (Network1_training_batch_of_one 4 32 3 100 1 (1 # 4) 4 ([1; 0], [1; 11]) 201);
    lia.
Defined.

(** ** The second residual block and the bottleneck block *)

Lemma outcome_nn_call (tr : bool) (layer : Module0) (x : list Z) :
  outcome (nn_call ShapeBackend tr layer x) (Module0_shape tr layer x).
Proof.
  intros w. unfold nn_call, ShapeBackend, nn_call_shape, bind, emit, lift.
  eexists. reflexivity.
Qed.

Lemma outcome_rbind {S A B : Type} (m : M S A) (k : A -> M S B) (r : result A)
  (f : A -> result B) :
  outcome m r -> (forall a, outcome (k a) (f a)) -> outcome (bind m k) (rbind r f).
Proof.
  intros Hm Hk s. unfold bind. destruct (Hm s) as [s1 ->].
  destruct r as [a | e]; [apply Hk | exists s1; reflexivity].
Qed.

Lemma outcome_lift {S A : Type} (r : result A) : outcome (@lift S A r) r.
Proof. intros s. exists s. reflexivity. Qed.

Lemma fold_left_raise (tr : bool) (layers : list Module0) (e : exn) :
  fold_left (fun acc layer => rbind acc (Module0_shape tr layer)) layers (Raise e)
  = Raise e.
Proof. induction layers as [| l layers IH]; [reflexivity | exact IH]. Qed.

Lemma outcome_Sequential0 (tr : bool) (layers : list Module0) (x : list Z) :
  outcome (Sequential0_call ShapeBackend tr layers x) (Sequential0_shape tr layers x).
Proof.
  unfold Sequential0_call, Sequential0_shape. revert x.
  induction layers as [| l layers IH]; intros x; cbn [for_each fold_left].
  - intros w. exists w. reflexivity.
  - cbn [rbind]. intros w. unfold bind.
    destruct (outcome_nn_call tr l x w) as [w1 ->].
    destruct (Module0_shape tr l x) as [y | e].
    + apply IH.
    + rewrite fold_left_raise. exists w1. reflexivity.
Qed.

Lemma outcome_skip_add (x out : list Z) :
  outcome (S := shape_world)
    (bind (lift (shape_at ShapeBackend x 2)) (fun x_len =>
     bind (lift (shape_at ShapeBackend out 2)) (fun out_len =>
     bind (lift (slice2 ShapeBackend x 0 (x_len - (x_len - out_len)))) (fun x_head =>
     lift (t_add ShapeBackend x_head out)))))
    (skip_add_shape x out).
Proof.
  unfold skip_add_shape.
  apply outcome_rbind; [apply outcome_lift |]. intros x_len.
  apply outcome_rbind; [apply outcome_lift |]. intros out_len.
  apply outcome_rbind; [apply outcome_lift |]. intros x_head.
  apply outcome_lift.
Qed.

Lemma Sequential0_shape_orders (tr : bool) (bn1 conv1 bn2 conv2 : Module0) (x : list Z) :
  (forall y z, Module0_shape tr bn1 y = Ok z -> z = y) ->
  (forall y z, Module0_shape tr bn2 y = Ok z -> z = y) ->
  Sequential0_shape tr [bn1; ReLU; conv1; bn2; ReLU; conv2] x
  = Sequential0_shape tr [ReLU; bn1; conv1; ReLU; bn2; conv2] x.
Proof.
  intros H1 H2. unfold Sequential0_shape. cbn [fold_left rbind].
  change (Module0_shape tr ReLU x) with (Ok x). cbn [rbind].
  destruct (Module0_shape tr bn1 x) as [y |] eqn:E1; cbn [rbind]; [| reflexivity].
  apply H1 in E1. subst y.
  change (Module0_shape tr ReLU x) with (Ok x). cbn [rbind].
  destruct (Module0_shape tr conv1 x) as [z |]; cbn [rbind]; [| reflexivity].
  change (Module0_shape tr ReLU z) with (Ok z). cbn [rbind].
  destruct (Module0_shape tr bn2 z) as [u |] eqn:E2; cbn [rbind]; [| reflexivity].
  apply H2 in E2. subst u.
  change (Module0_shape tr ReLU z) with (Ok z). reflexivity.
Qed.

(** X10: [ResBlock2] differs from [ResBlock] in the order of normalisation
    and activation only.  On every input, in both modes, the two blocks
    built from the same arguments give the same result: the same output
    shape, or the same exception. *)
Theorem ResBlock2_same_shapes_as_ResBlock (tr : bool) (c k s p d : Z) (x : list Z)
  (w w' : shape_world) :
  fst (ResBlock2.forward ShapeBackend tr (ResBlock2.init c k s p d) x w)
  = fst (ResBlock.forward ShapeBackend tr (ResBlock.init c k s p d) x w')
  /\ ResBlock2.layer (ResBlock2.init c k s p d)
     = [BatchNorm1d c; ReLU; Conv1d c c k s p d; BatchNorm1d c; ReLU; Conv1d c c k s p d]
  /\ ResBlock.layer (ResBlock.init c k s p d)
     = [ReLU; BatchNorm1d c; Conv1d c c k s p d; ReLU; BatchNorm1d c; Conv1d c c k s p d].
Proof.
  split; [| split; reflexivity].
  assert (H2 : outcome (ResBlock2.forward ShapeBackend tr (ResBlock2.init c k s p d) x)
                 (rbind (Sequential0_shape tr
                           (ResBlock2.layer (ResBlock2.init c k s p d)) x)
                    (skip_add_shape x))).
  { unfold ResBlock2.forward.
    apply outcome_rbind; [apply outcome_Sequential0 |]. intros out.
    apply outcome_skip_add. }
  assert (H1 : outcome (ResBlock.forward ShapeBackend tr (ResBlock.init c k s p d) x)
                 (rbind (Sequential0_shape tr
                           (ResBlock.layer (ResBlock.init c k s p d)) x)
                    (skip_add_shape x))).
  { unfold ResBlock.forward.
    apply outcome_rbind; [apply outcome_Sequential0 |]. intros out.
    apply outcome_skip_add. }
  destruct (H2 w) as [w2 ->]. destruct (H1 w') as [w1 ->]. cbn [fst].
  cbn [ResBlock2.init ResBlock2.layer ResBlock.init ResBlock.layer].
  rewrite Sequential0_shape_orders; [reflexivity | |].
  - intros y z. cbn [Module0_shape]. unfold BatchNorm1d_shape, BatchNorm1d_check.
    destruct y as [| a [| b [| l [| ? ?]]]]; try discriminate;
      repeat match goal with
             | |- context [if ?c then _ else _] => destruct c
             end; congruence.
  - intros y z. cbn [Module0_shape]. unfold BatchNorm1d_shape, BatchNorm1d_check.
    destruct y as [| a [| b [| l [| ? ?]]]]; try discriminate;
      repeat match goal with
             | |- context [if ?c then _ else _] => destruct c
             end; congruence.
Qed.

Lemma t_iadd_shape_same (x : list Z) : t_iadd_shape x x = Ok x.
Proof.
  unfold t_iadd_shape. rewrite t_add_shape_same. cbn [rbind].
  assert (E : list_eqb x x = true).
  { induction x as [| a x IH]; [reflexivity |].
    cbn [list_eqb]. rewrite Z.eqb_refl, IH. reflexivity. }
  rewrite E. reflexivity.
Qed.

Lemma bottleneck_lengths (l s : Z) :
  1 <= s -> 1 <= l ->
  conv_out_len l 1 1 0 1 = l
  /\ conv_out_len l 3 s 1 1 = (l - 1) / s + 1
  /\ conv_out_len l 1 s 0 1 = (l - 1) / s + 1
  /\ 1 <= (l - 1) / s + 1 <= l.
Proof.
  intros Hs Hl. unfold conv_out_len.
  replace (l + 2 * 0 - 1 * (1 - 1) - 1) with (l - 1) by lia.
  replace (l + 2 * 1 - 1 * (3 - 1) - 1) with (l - 1) by lia.
  rewrite Z.div_1_r. repeat split; try lia.
  - assert (0 <= (l - 1) / s) by (apply Z.div_pos; lia). lia.
  - assert ((l - 1) / s <= l - 1) by (apply Z.div_le_upper_bound; nia). lia.
Qed.

(** X11: the shape of the bottleneck block.  For a stride of at least one
    the main path (1x1 convolution, 3-wide convolution with the stride and
    padding 1, 1x1 convolution) and the shortcut (the input, or the 1x1
    convolution [conv4] with the same stride when the channels change or the
    stride is not 1) end with the same shape, so [out += residual] applies:
    the output has [out_channels] channels and [floor((l - 1) / stride) + 1]
    positions. *)
Theorem ResidualBlock_output_shape (tr : bool) (cin cout s b l : Z) :
  4 <= cout -> 1 <= s -> 1 <= l ->
  (tr = true -> b * l <> 1 /\ b * ((l - 1) / s + 1) <> 1) ->
  returns
    (ResidualBlock.forward ShapeBackend' tr (ResidualBlock.init cin cout s) [b; cin; l])
    [b; cout; (l - 1) / s + 1].
Proof.
  intros Hc Hs Hl Hbn.
  destruct (bottleneck_lengths l s Hs Hl) as [E1 [E2 [E4 Hl']]].
  destruct (bottleneck_lengths ((l - 1) / s + 1) 1 (Z.le_refl 1) (proj1 Hl'))
    as [E3 _].
  unfold ResidualBlock.forward.
  cbn [ResidualBlock.init ResidualBlock.bn1 ResidualBlock.relu ResidualBlock.conv1
       ResidualBlock.bn2 ResidualBlock.conv2 ResidualBlock.bn3 ResidualBlock.conv3
       ResidualBlock.conv4 ResidualBlock.in_channels ResidualBlock.out_channels
       ResidualBlock.stride].
  change (nn_call ShapeBackend') with (nn_call ShapeBackend).
  eapply returns_bind; [apply returns_BatchNorm1d3; intros Htr; apply (Hbn Htr) |].
  eapply returns_bind; [apply returns_ReLU |].
  eapply returns_bind; [apply (returns_Conv1d tr cin (cout / 4) 1 1 0 1 b l l); lia |].
  eapply returns_bind; [apply returns_BatchNorm1d3; intros Htr; apply (Hbn Htr) |].
  eapply returns_bind; [apply returns_ReLU |].
  eapply returns_bind;
    [apply (returns_Conv1d tr (cout / 4) (cout / 4) 3 s 1 1 b l ((l - 1) / s + 1)); lia |].
  eapply returns_bind; [apply returns_BatchNorm1d3; intros Htr; apply (Hbn Htr) |].
  eapply returns_bind; [apply returns_ReLU |].
  eapply returns_bind;
    [apply (returns_Conv1d tr (cout / 4) cout 1 1 0 1 b ((l - 1) / s + 1)
              ((l - 1) / s + 1)); lia |].
  eapply returns_bind with (a := [b; cout; (l - 1) / s + 1]).
  - destruct (negb (cin =? cout) || negb (s =? 1)) eqn:Eshort.
    + apply (returns_Conv1d tr cin cout 1 s 0 1 b l ((l - 1) / s + 1)); lia.
    + apply orb_false_iff in Eshort. destruct Eshort as [Ec Es].
      apply negb_false_iff, Z.eqb_eq in Ec. apply negb_false_iff, Z.eqb_eq in Es.
      subst cout s. rewrite Z.div_1_r.
      replace (l - 1 + 1) with l by lia. apply returns_ret.
  - apply returns_lift. apply t_iadd_shape_same.
Qed.

(** 64 channels to 128 with stride 2 on 201 positions, and 64 to 64 with
    stride 1. *)
Lemma ResidualBlock_output_shape_sample :
  returns
    (ResidualBlock.forward ShapeBackend' true (ResidualBlock.init 64 128 2) [8; 64; 201])
    [8; 128; 101]
  /\ returns
       (ResidualBlock.forward ShapeBackend' true (ResidualBlock.init 64 64 1) [8; 64; 201])
       [8; 64; 201].
Proof.
  split.
  - apply (ResidualBlock_output_shape true 64 128 2 8 201); lia.
  - apply (ResidualBlock_output_shape true 64 64 1 8 201); lia.
Defined.

(** ** The positional encoding and the transformer model *)

Lemma stride2_len_even (d : Z) : 1 <= d -> stride2_len d 0 = (d + 2 - 1) / 2.
Proof.
  intros H. unfold stride2_len.
  replace (d - 0 + 1) with (d + 2 - 1) by lia.
  apply Z.max_l. apply Z.div_pos; lia.
Qed.

Lemma stride2_len_odd (d : Z) : 1 <= d -> stride2_len d 1 = d / 2.
Proof.
  intros H. unfold stride2_len.
  replace (d - 1 + 1) with d by lia.
  apply Z.max_l. apply Z.div_pos; lia.
Qed.

Lemma angles_shape (max_len h : Z) :
  t_add_shape [max_len; 1] [h] = Ok [max_len; h].
Proof.
  unfold t_add_shape. cbn [rev app broadcast_rev].
  destruct (Z.eqb_spec 1 h) as [<- | Hne]; [reflexivity |].
  cbn [Z.eqb Pos.eqb]. reflexivity.
Qed.

Lemma is_rate_checks (p : Q) : is_rate p -> Qltb p 0 || Qltb 1 p = false.
Proof.
  intros [H0 H1]. unfold Qltb.
  apply Qle_bool_iff in H0. apply Qle_bool_iff in H1. rewrite H0, H1. reflexivity.
Qed.

Lemma PositionalEncoding_init_shape (d_model : positive) (dropout : Q)
  (max_len : Z) :
  PositionalEncoding.init ShapeBackend' d_model dropout max_len
  = if Qltb dropout 0 || Qltb 1 dropout
    then Raise (ValueError "dropout probability has to be between 0 and 1")
    else if max_len <? 0
    then Raise (RuntimeError "upper bound and larger bound inconsistent with step sign")
    else if Z.even (Z.pos d_model) || (Z.pos d_model =? 1)
    then Ok {| PositionalEncoding.dropout := Dropout dropout;
               PositionalEncoding.pe := ([max_len; 1; Z.pos d_model] : tensor ShapeBackend') |}
    else Raise (RuntimeError "The expanded size of the tensor must match the existing size").
Proof.
  unfold PositionalEncoding.init, nn_Dropout.
  destruct (Qltb dropout 0 || Qltb 1 dropout); [reflexivity |].
  cbn [rbind].
  cbn [torch_arange unsqueeze1 t_scale torch_exp torch_zeros3 t_mul torch_sin torch_cos
       setitem_stride2 ShapeBackend'].
  unfold torch_arange_shape at 1.
  destruct (max_len <? 0) eqn:Elen; [reflexivity |].
  apply Z.ltb_ge in Elen.
  cbn [rbind unsqueeze1_shape]. unfold torch_arange_shape.
  cbn [Z.ltb Z.compare rbind]. unfold torch_zeros3_shape.
  replace (max_len <? 0) with false by (symmetry; apply Z.ltb_ge; lia).
  cbn [orb Z.ltb Z.compare rbind].
  rewrite angles_shape. cbn [rbind]. unfold setitem_stride2_shape.
  cbn [Z.leb Z.compare rev app].
  replace ((max_len + 1 - 1) / 1) with max_len by (rewrite Z.div_1_r; lia).
  set (d := Z.pos d_model).
  assert (Hd : 1 <= d) by (subst d; lia).
  rewrite stride2_len_even by lia.
  cbn [expands_to_rev]. rewrite !Z.eqb_refl. cbn [orb andb rbind Z.leb Z.compare].
  rewrite stride2_len_odd by lia.
  cbn [expands_to_rev]. rewrite !Z.eqb_refl. cbn [orb andb].
  destruct (Z.even d) eqn:Eeven.
  - apply Z.even_spec in Eeven. destruct Eeven as [q Eq].
    replace ((d + 2 - 1) / 2) with (d / 2)
      by (rewrite Eq; Z.to_euclidean_division_equations; lia).
    rewrite Z.eqb_refl. reflexivity.
  - assert (Hodd : Z.odd d = true) by (rewrite <- Z.negb_even, Eeven; reflexivity).
    apply Z.odd_spec in Hodd. destruct Hodd as [q Eq].
    assert (Eh : (d + 2 - 1) / 2 = q + 1)
      by (rewrite Eq; Z.to_euclidean_division_equations; lia).
    assert (El : d / 2 = q)
      by (rewrite Eq; Z.to_euclidean_division_equations; lia).
    rewrite Eh, El. cbn [orb].
    replace (q + 1 =? q) with false by (symmetry; apply Z.eqb_neq; lia).
    cbn [orb].
    destruct (Z.eqb_spec d 1) as [E1 | E1].
    + replace (q + 1 =? 1) with true by (symmetry; apply Z.eqb_eq; lia).
      reflexivity.
    + replace (q + 1 =? 1) with false by (symmetry; apply Z.eqb_neq; lia).
      reflexivity.
Qed.

(** What [PositionalEncoding(...)] accepts, and the module it then builds. *)
Lemma PositionalEncoding_init_Ok (d_model : positive) (dropout : Q) (max_len : Z)
  (self : PositionalEncoding.t ShapeBackend') :
  PositionalEncoding.init ShapeBackend' d_model dropout max_len = Ok self ->
  self = {| PositionalEncoding.dropout := Dropout dropout;
            PositionalEncoding.pe := ([max_len; 1; Z.pos d_model] : tensor ShapeBackend') |}
  /\ is_rate dropout /\ 0 <= max_len
  /\ (Z.even (Z.pos d_model) = true \/ Z.pos d_model = 1).
Proof.
  rewrite PositionalEncoding_init_shape.
  destruct (Qltb dropout 0 || Qltb 1 dropout) eqn:Erate; [discriminate |].
  destruct (Z.ltb_spec max_len 0) as [Hneg | Hlen]; [discriminate |].
  destruct (Z.even (Z.pos d_model)) eqn:Eeven; cbn [orb].
  - intros [= <-]. split; [reflexivity |]. split; [| split; [exact Hlen | left; reflexivity]].
    pose proof (nn_Dropout_Ok dropout (Dropout dropout)) as H.
    unfold nn_Dropout in H. rewrite Erate in H. apply H. reflexivity.
  - destruct (Z.eqb_spec (Z.pos d_model) 1) as [E1 | E1]; [| discriminate].
    intros [= <-]. split; [reflexivity |]. split; [| split; [exact Hlen | right; exact E1]].
    pose proof (nn_Dropout_Ok dropout (Dropout dropout)) as H.
    unfold nn_Dropout in H. rewrite Erate in H. apply H. reflexivity.
Qed.

Lemma nn_TransformerEncoder_Ok (d_model nhead : positive) (dim_feedforward : Z)
  (dropout : Q) (num_layers : Z) (enc : TransformerEncoder) :
  nn_TransformerEncoder d_model nhead dim_feedforward dropout num_layers = Ok enc ->
  enc = {| enc_d_model := Z.pos d_model; enc_nhead := Z.pos nhead;
           enc_dim_feedforward := dim_feedforward; enc_dropout := dropout;
           enc_num_layers := num_layers |}
  /\ Z.pos d_model mod Z.pos nhead = 0 /\ 0 <= dim_feedforward /\ is_rate dropout.
Proof.
  unfold nn_TransformerEncoder.
  destruct (Z.eqb_spec (Z.pos d_model mod Z.pos nhead) 0) as [Hdiv | Hdiv];
    cbn [negb]; [| discriminate].
  intros H. apply rbind_Ok in H; destruct H as [linear1 [Hlin H]]. apply rbind_Ok in H; destruct H as [dropout_layer [Hdrop H]].
  apply nn_Linear_Ok in Hlin. destruct Hlin as [_ [_ Hff]].
  apply nn_Dropout_Ok in Hdrop. destruct Hdrop as [_ Hrate].
  injection H as <-. repeat split; try assumption; apply Hrate.
Qed.

(** What [MuTransformer(...)] accepts, and the module it then builds. *)
Lemma MuTransformer_init_Ok (in_channels : Z) (out_channels : positive)
  (kernel_size distal_radius distal_order : Z) (distal_fc_dropout : Q) (n_class : Z)
  (nhead : positive) (dim_feedforward : Z) (trans_dropout : Q) (num_layers : Z)
  (net : MuTransformer.t ShapeBackend') :
  MuTransformer.init ShapeBackend' in_channels out_channels kernel_size distal_radius
    distal_order distal_fc_dropout n_class nhead dim_feedforward trans_dropout
    num_layers = Ok net ->
  net = {| MuTransformer.n_class := n_class;
           MuTransformer.kernel_size := kernel_size;
           MuTransformer.seq_len := distal_radius * 2 + 1 - (distal_order - 1);
           MuTransformer.conv1 :=
             [BatchNorm1d in_channels;
              Conv1d in_channels (Z.pos out_channels) kernel_size 1
                ((kernel_size - 1) / 2) 1];
           MuTransformer.pos_encoder :=
             {| PositionalEncoding.dropout := Dropout trans_dropout;
                PositionalEncoding.pe :=
                  ([distal_radius * 2 + 1 - (distal_order - 1); 1;
                    Z.pos out_channels] : tensor ShapeBackend') |};
           MuTransformer.transformer_encoder :=
             {| enc_d_model := Z.pos out_channels; enc_nhead := Z.pos nhead;
                enc_dim_feedforward := dim_feedforward; enc_dropout := trans_dropout;
                enc_num_layers := num_layers |};
           MuTransformer.classifier :=
             [BatchNorm1d (Z.pos out_channels); Dropout distal_fc_dropout;
              Linear (Z.pos out_channels) n_class];
           MuTransformer.d_model := Z.pos out_channels;
           MuTransformer.training := true |}
  /\ 0 <= distal_radius * 2 + 1 - (distal_order - 1)
  /\ (Z.even (Z.pos out_channels) = true \/ Z.pos out_channels = 1)
  /\ Z.pos out_channels mod Z.pos nhead = 0.
Proof.
  unfold MuTransformer.init. cbv zeta. intros H.
  apply rbind_Ok in H; destruct H as [conv1 [Hconv H]]. apply rbind_Ok in H; destruct H as [pos_encoder [Hpos H]].
  apply rbind_Ok in H; destruct H as [encoder [Henc H]]. apply rbind_Ok in H; destruct H as [classifier [Hfc H]].
  apply conv_layers_Ok in Hconv. destruct Hconv as [-> _].
  apply PositionalEncoding_init_Ok in Hpos. destruct Hpos as [-> [_ [Hlen Hwidth]]].
  apply nn_TransformerEncoder_Ok in Henc. destruct Henc as [-> [Hdiv _]].
  apply fc_layers_Ok in Hfc. destruct Hfc as [-> _].
  injection H as <-. repeat split; assumption.
Qed.

(** X12: when the table of positional encodings can be built.
    [PositionalEncoding.__init__] first builds its dropout layer, which
    refuses a rate outside [[0, 1]] with [ValueError]; a negative [max_len]
    is refused by [torch.arange].  The sines fill the even columns and the
    cosines the odd ones, both computed for [ceil(d_model / 2)] frequencies;
    an odd [d_model] has one odd column less than that, so the second
    assignment raises [RuntimeError] for every odd width but 1.  Otherwise
    the buffer [pe] has the shape [max_len, 1, d_model].  The transformer
    model builds its table for [out_channels] columns and [seq_len] rows:
    every model that is built has [0 <= seq_len], a width that is even or 1
    and that table; where the first convolution and the rate are accepted
    and the table cannot be built, the constructor raises [RuntimeError]. *)
Theorem PositionalEncoding_init_needs_even_width (d_model : positive) (dropout : Q)
  (max_len in_channels kernel_size distal_radius distal_order : Z)
  (distal_fc_dropout : Q) (n_class : Z) (nhead : positive)
  (dim_feedforward num_layers : Z) :
  PositionalEncoding.init ShapeBackend' d_model dropout max_len
  = (if Qltb dropout 0 || Qltb 1 dropout
     then Raise (ValueError "dropout probability has to be between 0 and 1")
     else if max_len <? 0
     then Raise (RuntimeError "upper bound and larger bound inconsistent with step sign")
     else if Z.even (Z.pos d_model) || (Z.pos d_model =? 1)
     then Ok {| PositionalEncoding.dropout := Dropout dropout;
                PositionalEncoding.pe :=
                  ([max_len; 1; Z.pos d_model] : tensor ShapeBackend') |}
     else Raise (RuntimeError "The expanded size of the tensor must match the existing size"))
  /\ (forall net,
        MuTransformer.init ShapeBackend' in_channels d_model kernel_size
          distal_radius distal_order distal_fc_dropout n_class nhead
          dim_feedforward dropout num_layers = Ok net ->
        0 <= distal_radius * 2 + 1 - (distal_order - 1)
        /\ (Z.even (Z.pos d_model) = true \/ Z.pos d_model = 1)
        /\ PositionalEncoding.pe (MuTransformer.pos_encoder net)
           = [distal_radius * 2 + 1 - (distal_order - 1); 1; Z.pos d_model])
  /\ (0 <= in_channels -> 0 <= kernel_size -> is_rate dropout ->
      distal_radius * 2 + 1 - (distal_order - 1) < 0
      \/ (Z.even (Z.pos d_model) = false /\ Z.pos d_model <> 1) ->
      exists msg,
        MuTransformer.init ShapeBackend' in_channels d_model kernel_size
          distal_radius distal_order distal_fc_dropout n_class nhead
          dim_feedforward dropout num_layers = Raise (RuntimeError msg)).
Proof.
  split; [apply PositionalEncoding_init_shape |]. split.
  - intros net Hnet. apply MuTransformer_init_Ok in Hnet.
    destruct Hnet as [-> [Hlen [Hwidth _]]].
    split; [exact Hlen |]. split; [exact Hwidth | reflexivity].
  - intros Hin Hk Hrate Hbad. unfold MuTransformer.init. cbv zeta.
    destruct (conv_layers_accepts in_channels (Z.pos d_model) kernel_size Hin
                ltac:(lia) Hk) as [-> _].
    cbn [rbind]. rewrite PositionalEncoding_init_shape, (is_rate_checks _ Hrate).
    destruct (Z.ltb_spec (distal_radius * 2 + 1 - (distal_order - 1)) 0) as [Hneg | Hlen].
    + eexists. reflexivity.
    + destruct Hbad as [Hneg | [Hodd Hne]]; [lia |].
      rewrite Hodd. replace (Z.pos d_model =? 1) with false
        by (symmetry; apply Z.eqb_neq; exact Hne).
      eexists. reflexivity.
Qed.

(** A model of 32 channels and 4 heads for windows of 101 positions, and
    one of 33 channels, which cannot be built. *)
Lemma PositionalEncoding_init_needs_even_width_sample :
  (exists net,
     MuTransformer.init ShapeBackend' 4 32 3 50 1 (1 # 4) 4 4 128 (1 # 10) 2 = Ok net
     /\ 0 <= 50 * 2 + 1 - (1 - 1)
     /\ (Z.even 32 = true \/ 32 = 1)
     /\ PositionalEncoding.pe (MuTransformer.pos_encoder net) = [50 * 2 + 1 - (1 - 1); 1; 32])
  /\ (0 <= 4 /\ 0 <= 3 /\ is_rate (1 # 10)
      /\ (50 * 2 + 1 - (1 - 1) < 0 \/ (Z.even 33 = false /\ 33 <> 1)))
  /\ exists msg,
       MuTransformer.init ShapeBackend' 4 33 3 50 1 (1 # 4) 4 3 128 (1 # 10) 2
       = Raise (RuntimeError msg).
Proof.
  split; [| split].
  - eexists. split; [reflexivity |].
    exact (proj1 (proj2 (PositionalEncoding_init_needs_even_width 32 (1 # 10) 101 4 3
                           50 1 (1 # 4) 4 4 128 2)) _ eq_refl).
  - split; [lia |]. split; [lia |].
    split; [split; discriminate |]. right. split; [reflexivity | discriminate].
  - apply (proj2 (proj2 (PositionalEncoding_init_needs_even_width 33 (1 # 10) 101 4 3
                           50 1 (1 # 4) 4 3 128 2))); try lia.
    + split; discriminate.
    + right. split; [reflexivity | discriminate].
Defined.

Lemma broadcast_rows (s b d n : Z) :
  t_add_shape [s; b; d] [n; 1; d]
  = if (s =? n) || (n =? 1) then Ok [s; b; d]
    else if s =? 1 then Ok [n; b; d]
    else Raise (RuntimeError "The size of tensor a must match the size of tensor b").
Proof.
  unfold t_add_shape. cbn [rev app broadcast_rev]. rewrite Z.eqb_refl.
  change (1 =? 1) with true.
  destruct (b =? 1); destruct (s =? n) eqn:E1; destruct (s =? 1) eqn:E2;
    destruct (n =? 1) eqn:E3; cbn [orb rmap rbind rev app]; try reflexivity;
    apply Z.eqb_eq in E2, E3; apply Z.eqb_neq in E1; lia.
Qed.

Lemma PositionalEncoding_forward_shape (tr : bool) (p : Q) (max_len d s b : Z) :
  0 <= s -> 1 <= max_len ->
  outcome
    (PositionalEncoding.forward ShapeBackend' tr
       {| PositionalEncoding.dropout := Dropout p;
          PositionalEncoding.pe := ([max_len; 1; d] : tensor ShapeBackend') |}
       [s; b; d])
    (if (s <=? max_len) || (max_len =? 1) then Ok [s; b; d]
     else Raise (RuntimeError "The size of tensor a must match the size of tensor b")).
Proof.
  intros Hs Hmax. unfold PositionalEncoding.forward.
  cbn [PositionalEncoding.pe PositionalEncoding.dropout].
  eapply outcome_bind; [apply returns_lift; reflexivity |].
  cbn [slice0_to ShapeBackend' slice0_to_shape].
  assert (Erows : slice_len max_len 0 s = Z.min s max_len).
  { unfold slice_len, slice_bound. cbn [Z.ltb Z.compare].
    replace (s <? 0) with false by (symmetry; apply Z.ltb_ge; lia). lia. }
  rewrite Erows.
  eapply outcome_bind; [apply returns_lift; reflexivity |].
  change (t_add ShapeBackend' [s; b; d] [Z.min s max_len; 1; d])
    with (t_add_shape [s; b; d] [Z.min s max_len; 1; d]).
  rewrite broadcast_rows.
  destruct (Z.leb_spec s max_len) as [Hle | Hgt]; cbn [orb].
  - replace (s =? Z.min s max_len) with true by (symmetry; apply Z.eqb_eq; lia).
    cbn [orb]. eapply outcome_bind; [apply returns_lift; reflexivity |].
    apply (returns_Dropout tr p [s; b; d]).
  - replace (Z.min s max_len) with max_len by lia.
    replace (s =? max_len) with false by (symmetry; apply Z.eqb_neq; lia).
    cbn [orb].
    destruct (max_len =? 1) eqn:E1.
    + eapply outcome_bind; [apply returns_lift; reflexivity |].
      apply (returns_Dropout tr p [s; b; d]).
    + replace (s =? 1) with false by (symmetry; apply Z.eqb_neq; lia).
      apply raises_bind. apply raises_lift. reflexivity.
Qed.

(** X13: the positional encoding added to a sequence.  The table of a
    module that [PositionalEncoding(d_model, p, max_len)] builds has
    [max_len] rows; [self.pe[:x.size(0)]] takes as many rows as the
    sequence has positions, or all of them if the sequence is longer.  For
    [1 <= max_len], a sequence of at most [max_len] positions keeps its
    shape; a longer one raises the [RuntimeError] of broadcasting, except
    for a table of a single row, whose row is then added to every
    position. *)
Theorem PositionalEncoding_forward_lengths (tr : bool) (d_model : positive) (p : Q)
  (max_len s b : Z) (self : PositionalEncoding.t ShapeBackend') :
  PositionalEncoding.init ShapeBackend' d_model p max_len = Ok self ->
  0 <= s -> 1 <= max_len ->
  outcome
    (PositionalEncoding.forward ShapeBackend' tr self [s; b; Z.pos d_model])
    (if (s <=? max_len) || (max_len =? 1) then Ok [s; b; Z.pos d_model]
     else Raise (RuntimeError "The size of tensor a must match the size of tensor b")).
Proof.
  intros Hself Hs Hmax. apply PositionalEncoding_init_Ok in Hself.
  destruct Hself as [-> _].
  apply PositionalEncoding_forward_shape; assumption.
Qed.

(** A table of 101 rows and sequences of 101 and of 201 positions. *)
Lemma PositionalEncoding_forward_lengths_sample :
  exists self,
    (PositionalEncoding.init ShapeBackend' 32 (1 # 10) 101 = Ok self
     /\ 0 <= 101 /\ 0 <= 201 /\ 1 <= 101)
    /\ outcome (PositionalEncoding.forward ShapeBackend' false self [101; 8; 32])
         (Ok [101; 8; 32])
    /\ outcome (PositionalEncoding.forward ShapeBackend' false self [201; 8; 32])
         (Raise (RuntimeError "The size of tensor a must match the size of tensor b")).
Proof.
  eexists. split; [split; [reflexivity | lia] |]. split.
  - exact (PositionalEncoding_forward_lengths false 32 (1 # 10) 101 101 8 _ eq_refl
             ltac:(lia) ltac:(lia)).
  - exact (PositionalEncoding_forward_lengths false 32 (1 # 10) 101 201 8 _ eq_refl
             ltac:(lia) ltac:(lia)).
Defined.

Lemma returns_transformer (tr : bool) (d nhead ff : Z) (p : Q) (layers s b : Z) :
  (layers <=? 0) = false ->
  returns
    (transformer_call ShapeBackend' tr
       {| enc_d_model := d; enc_nhead := nhead; enc_dim_feedforward := ff;
          enc_dropout := p; enc_num_layers := layers |} [s; b; d])
    [s; b; d].
Proof.
  intros Hlayers. apply returns_lift. unfold TransformerEncoder_shape.
  cbn [enc_d_model enc_num_layers]. rewrite Hlayers, Z.eqb_refl. reflexivity.
Qed.

Lemma raises_transformer (tr : bool) (d nhead ff : Z) (p : Q) (layers : Z)
  (x : list Z) :
  (layers <=? 0) = true ->
  raises
    (transformer_call ShapeBackend' tr
       {| enc_d_model := d; enc_nhead := nhead; enc_dim_feedforward := ff;
          enc_dropout := p; enc_num_layers := layers |} x)
    (IndexError "index 0 is out of range").
Proof.
  intros Hlayers. apply raises_lift. unfold TransformerEncoder_shape.
  cbn [enc_num_layers]. rewrite Hlayers. reflexivity.
Qed.

(** X14: the transformer model on shapes, for every model that
    [MuTransformer(...)] builds with [2 <= seq_len].  Its forward pass
    takes a distal input of any length that the first convolution accepts
    ([1 <= kernel_size], at least one position afterwards; in training mode
    a batch of at least 2).  An input that is longer than [seq_len] after
    the convolution finds the table of positional encodings too short and
    raises [RuntimeError].  Otherwise an encoder without layers
    ([num_layers <= 0]) raises [IndexError], and with layers the logits
    have the shape [batch, n_class].  There is no lower bound of 200
    positions here, and the local input is not used. *)
Theorem MuTransformer_forward_shape (mode : bool) (in_channels : Z)
  (out_channels : positive) (kernel_size distal_radius distal_order : Z)
  (distal_fc_dropout : Q) (n_class : Z) (nhead : positive) (dim_feedforward : Z)
  (trans_dropout : Q) (num_layers : Z) (local_input : list Z * list Z) (batch L : Z)
  (net : MuTransformer.t ShapeBackend') :
  MuTransformer.init ShapeBackend' in_channels out_channels kernel_size distal_radius
    distal_order distal_fc_dropout n_class nhead dim_feedforward trans_dropout
    num_layers = Ok net ->
  1 <= kernel_size ->
  1 <= L - (kernel_size - 1) mod 2 ->
  2 <= distal_radius * 2 + 1 - (distal_order - 1) ->
  1 <= batch -> (mode = true -> 2 <= batch) ->
  MuTransformer.seq_len net = distal_radius * 2 + 1 - (distal_order - 1)
  /\ outcome
       (MuTransformer.forward ShapeBackend' (MuTransformer.set_training mode net)
          local_input [batch; in_channels; L])
       (if L - (kernel_size - 1) mod 2 <=? MuTransformer.seq_len net
        then if num_layers <=? 0 then Raise (IndexError "index 0 is out of range")
             else Ok [batch; n_class]
        else Raise (RuntimeError "The size of tensor a must match the size of tensor b")).
Proof.
  intros Hnet Hk HL Hseq Hb Hmode.
  apply MuTransformer_init_Ok in Hnet. destruct Hnet as [-> _].
  set (m := (kernel_size - 1) mod 2) in *.
  set (seq_len := distal_radius * 2 + 1 - (distal_order - 1)) in *.
  assert (Hm : 0 <= m <= 1)
    by (subst m; pose proof (Z.mod_pos_bound (kernel_size - 1) 2); lia).
  split; [reflexivity |].
  unfold MuTransformer.forward.
  cbn [MuTransformer.training MuTransformer.set_training MuTransformer.conv1
       MuTransformer.pos_encoder MuTransformer.transformer_encoder
       MuTransformer.classifier MuTransformer.d_model MuTransformer.seq_len].
  change (Sequential0_call ShapeBackend') with (Sequential0_call ShapeBackend).
  eapply outcome_bind; [apply (returns_conv_block _ _ _ _ _ _ (L - m)); side |].
  eapply outcome_bind; [apply returns_lift; reflexivity |].
  eapply outcome_bind; [apply returns_lift; reflexivity |].
  pose proof (PositionalEncoding_forward_shape mode trans_dropout seq_len
                (Z.pos out_channels) (L - m) batch) as Hpe.
  destruct (Z.leb_spec (L - m) seq_len) as [Hle | Hgt]; cbn [orb] in Hpe.
  - eapply outcome_bind; [apply Hpe; lia |].
    destruct (num_layers <=? 0) eqn:Elayers.
    + apply raises_bind. apply raises_transformer. exact Elayers.
    + eapply outcome_bind; [apply returns_transformer; exact Elayers |].
      eapply outcome_bind; [apply returns_lift; reflexivity |].
      apply returns_fc_block. side.
  - replace (seq_len =? 1) with false in Hpe by (symmetry; apply Z.eqb_neq; lia).
    apply raises_bind. apply Hpe; lia.
Qed.

(** 32 channels and 4 heads for a radius of 50: a window of 101 positions,
    and one of 201; the same model without layers. *)
Lemma MuTransformer_forward_shape_sample :
  (exists net,
     (MuTransformer.init ShapeBackend' 4 32 3 50 1 (1 # 4) 4 4 128 (1 # 10) 2 = Ok net
      /\ 1 <= 3 /\ 1 <= 101 - (3 - 1) mod 2 /\ 1 <= 201 - (3 - 1) mod 2
      /\ 2 <= 50 * 2 + 1 - (1 - 1) /\ 1 <= 8)
     /\ MuTransformer.seq_len net = 101
     /\ outcome
          (MuTransformer.forward ShapeBackend' (MuTransformer.set_training false net)
             ([8; 0], [8; 11]) [8; 4; 101])
          (Ok [8; 4])
     /\ outcome
          (MuTransformer.forward ShapeBackend' (MuTransformer.set_training false net)
             ([8; 0], [8; 11]) [8; 4; 201])
          (Raise (RuntimeError "The size of tensor a must match the size of tensor b")))
  /\ (exists net,
     MuTransformer.init ShapeBackend' 4 32 3 50 1 (1 # 4) 4 4 128 (1 # 10) 0 = Ok net
     /\ outcome
          (MuTransformer.forward ShapeBackend' (MuTransformer.set_training false net)
             ([8; 0], [8; 11]) [8; 4; 101])
          (Raise (IndexError "index 0 is out of range"))).
Proof.
  split.
  - eexists. split; [split; [reflexivity | repeat split; cbv; discriminate] |].
    split; [reflexivity |]. split.
    + exact (proj2 (MuTransformer_forward_shape false 4 32 3 50 1 (1 # 4) 4 4 128
                      (1 # 10) 2 ([8; 0], [8; 11]) 8 101 _ eq_refl ltac:(lia)
                      ltac:(cbv; discriminate) ltac:(lia) ltac:(lia)
                      ltac:(discriminate))).
    + exact (proj2 (MuTransformer_forward_shape false 4 32 3 50 1 (1 # 4) 4 4 128
                      (1 # 10) 2 ([8; 0], [8; 11]) 8 201 _ eq_refl ltac:(lia)
                      ltac:(cbv; discriminate) ltac:(lia) ltac:(lia)
                      ltac:(discriminate))).
  - eexists. split; [reflexivity |].
    exact (proj2 (MuTransformer_forward_shape false 4 32 3 50 1 (1 # 4) 4 4 128
                    (1 # 10) 0 ([8; 0], [8; 11]) 8 101 _ eq_refl ltac:(lia)
                    ltac:(cbv; discriminate) ltac:(lia) ltac:(lia)
                    ltac:(discriminate))).
Defined.

(** ** Layer calls, random numbers and printed lines *)

Section World_steps.

Variable R : shape_world -> shape_world -> Prop.
Hypothesis HR : kept_by_calls R.

Lemma steps_ret {A : Type} (a : A) : steps R (ret a).
Proof. intros w. apply (proj1 HR). Qed.

Lemma steps_raise {A : Type} (e : exn) : steps R (@raise shape_world A e).
Proof. intros w. apply (proj1 HR). Qed.

Lemma steps_lift {A : Type} (r : result A) : steps R (lift r).
Proof. intros w. apply (proj1 HR). Qed.

Lemma steps_bind {A B : Type} (m : M shape_world A) (k : A -> M shape_world B) :
  steps R m -> (forall a, steps R (k a)) -> steps R (bind m k).
Proof.
  intros Hm Hk w. unfold bind. specialize (Hm w).
  destruct (m w) as [[a | e] w1]; cbn [snd] in *.
  - eapply (proj1 (proj2 HR)); [exact Hm | apply Hk].
  - exact Hm.
Qed.

Lemma steps_assert (cond : bool) (msg : string) : steps R (assert_ cond msg).
Proof. destruct cond; [apply steps_ret | apply steps_raise]. Qed.

Lemma steps_read_local {A : Type} (name : string) (v : option A) :
  steps R (read_local name v).
Proof. destruct v; [apply steps_ret | apply steps_raise]. Qed.

Lemma steps_nn_call (tr : bool) (layer : Module0) (x : list Z) :
  steps R (nn_call ShapeBackend tr layer x).
Proof.
  cbn [nn_call ShapeBackend]. unfold nn_call_shape.
  apply steps_bind; [intros w; apply (proj2 (proj2 HR)) | intros _; apply steps_lift].
Qed.

Lemma steps_for_each {A X : Type} (xs : list X) (body : A -> X -> M shape_world A)
  (acc : A) :
  (forall a x, steps R (body a x)) -> steps R (for_each xs body acc).
Proof.
  intros Hbody. revert acc.
  induction xs as [| x xs IH]; intros acc; cbn [for_each].
  - apply steps_ret.
  - apply steps_bind; [apply Hbody | intros a; apply IH].
Qed.

Lemma steps_list_comp {A X : Type} (f : X -> M shape_world A) (xs : list X) :
  (forall x, steps R (f x)) -> steps R (list_comp f xs).
Proof.
  intros Hf. induction xs as [| x xs IH]; cbn [list_comp].
  - apply steps_ret.
  - apply steps_bind; [apply Hf | intros a].
    apply steps_bind; [exact IH | intros rest; apply steps_ret].
Qed.

Lemma steps_Sequential0 (tr : bool) (layers : list Module0) (x : list Z) :
  steps R (Sequential0_call ShapeBackend tr layers x).
Proof. apply steps_for_each. intros a layer. apply steps_nn_call. Qed.

Ltac walk :=
  repeat first
    [ apply steps_ret | apply steps_raise | apply steps_lift | apply steps_assert
    | apply steps_read_local | apply steps_nn_call | apply steps_Sequential0
    | apply steps_bind; [| intros ?]
    | match goal with
      | |- steps R (if ?c then _ else _) => destruct c
      end ].

Lemma steps_ResBlock (tr : bool) (self : ResBlock.t) (x : list Z) :
  steps R (ResBlock.forward ShapeBackend tr self x).
Proof. unfold ResBlock.forward. walk. Qed.

Lemma steps_ResBlocks (tr : bool) (blocks : list ResBlock.t) (x : list Z) :
  steps R (ResBlocks_call ShapeBackend tr blocks x).
Proof. apply steps_for_each. intros a rb. apply steps_ResBlock. Qed.

Lemma steps_linear_loop (tr : bool) (layers : list (Module0 * Module0 * Module0))
  (x : list Z) :
  steps R
    (for_each layers
       (fun local_out '(lin_layer, dropout_layer, bn_layer) =>
          bind (nn_call ShapeBackend tr lin_layer local_out) (fun h =>
          bind (lift (F_relu ShapeBackend h)) (fun h =>
          bind (nn_call ShapeBackend tr bn_layer h) (fun h =>
          nn_call ShapeBackend tr dropout_layer h))))
       x).
Proof. apply steps_for_each. intros a [[lin dp] bn]. walk. Qed.

Lemma steps_embeddings (tr : bool) (layer : Module0) (cat_data : list Z) (n : Z) :
  steps R
    (list_comp (fun i => bind (lift (select_col ShapeBackend cat_data i))
                           (fun col => nn_call ShapeBackend tr layer col))
       (range n)).
Proof. apply steps_list_comp. intros i. walk. Qed.

Lemma steps_FeedForwardNN_forward (self : FeedForwardNN.t) (cont_data cat_data : list Z) :
  steps R (FeedForwardNN.forward ShapeBackend self cont_data cat_data).
Proof.
  unfold FeedForwardNN.forward.
  repeat first [ apply steps_linear_loop | apply steps_embeddings | progress walk ].
Qed.

Lemma steps_local_part (self : Network2.t) (local_input : list Z * list Z) :
  steps R (Network2.local_part ShapeBackend self local_input).
Proof.
  unfold Network2.local_part. destruct local_input as [cont_data cat_data].
  repeat first [ apply steps_linear_loop | apply steps_embeddings | progress walk ].
Qed.

Lemma steps_Network1_forward (self : Network1.t) (local_input : list Z * list Z)
  (distal_input : list Z) :
  steps R (Network1.forward ShapeBackend self local_input distal_input).
Proof.
  unfold Network1.forward.
  repeat first [ apply steps_ResBlocks | progress walk ].
Qed.

(** The forward pass of [Network2] before and after its report. *)
Lemma steps_Network2_forward (self : Network2.t) (local_input : list Z * list Z)
  (distal_input : list Z) :
  (forall local_out distal_out,
      steps R (Network2.report ShapeBackend self local_out distal_out)) ->
  steps R (Network2.forward ShapeBackend self local_input distal_input).
Proof.
  intros Hreport. unfold Network2.forward.
  repeat first [ apply steps_local_part | apply steps_ResBlocks | apply Hreport
               | progress walk ].
Qed.

End World_steps.

Lemma grown_kept : kept_by_calls grown.
Proof.
  split; [| split].
  - intros w. exists []. symmetry. apply app_nil_r.
  - intros w1 w2 w3 [a1 E1] [a2 E2]. exists (a1 ++ a2).
    rewrite E2, E1, app_assoc. reflexivity.
  - intros tr layer x w. eexists. reflexivity.
Qed.

Lemma undrawn_kept : kept_by_calls undrawn.
Proof.
  split; [| split].
  - intros w. split; reflexivity.
  - intros w1 w2 w3 [A1 B1] [A2 B2]. split; congruence.
  - intros tr layer x w. split; reflexivity.
Qed.

Lemma silent_kept : kept_by_calls silent.
Proof.
  split; [| split].
  - intros w. split; [apply (proj1 undrawn_kept) | reflexivity].
  - intros w1 w2 w3 [U1 P1] [U2 P2].
    split; [eapply (proj1 (proj2 undrawn_kept)); eassumption | congruence].
  - intros tr layer x w. split; [apply (proj2 (proj2 undrawn_kept)) |].
    cbn [emit snd trace]. rewrite filter_app. cbn [filter is_printed].
    apply app_nil_r.
Qed.

Lemma undrawn_print_stats (label : string) (x : list Z) :
  steps undrawn (print_stats ShapeBackend label x).
Proof.
  cbn [print_stats ShapeBackend]. unfold print_stats_shape.
  destruct (numel x =? 0); intros w; split; reflexivity.
Qed.

Lemma draws_one_after {A B : Type} (m : M shape_world A) (k : A -> M shape_world B) :
  steps undrawn m -> (forall a, draws_one (k a)) -> draws_one (bind m k).
Proof.
  intros Hm Hk w. unfold bind. destruct (Hm w) as [Er Ep].
  destruct (m w) as [[a | e] w1]; cbn [fst snd] in *.
  - destruct (Hk a w1) as [Er' [Ele Eok]]. rewrite Er, Ep in *.
    split; [exact Er' |]. split; [exact Ele | exact Eok].
  - split; [exact Er |]. split; [lia | discriminate].
Qed.

Lemma draws_one_before {A B : Type} (m : M shape_world A) (k : A -> M shape_world B) :
  draws_one m -> (forall a, steps undrawn (k a)) -> draws_one (bind m k).
Proof.
  intros Hm Hk w. unfold bind. destruct (Hm w) as [Er [Ele Eok]].
  destruct (m w) as [[a | e] w1]; cbn [fst snd] in *.
  - destruct (Hk a w1) as [Er' Ep']. specialize (Eok a eq_refl).
    split; [congruence |]. split; [lia | intros _ _; congruence].
  - split; [exact Er |]. split; [exact Ele | discriminate].
Qed.

Lemma draws_one_draw : draws_one draw.
Proof.
  intros w. unfold draw. cbn [fst snd rng rng_pos].
  split; [reflexivity |]. split; [lia | reflexivity].
Qed.

Lemma draws_one_report (self : Network2.t) (local_out distal_out : list Z) :
  Network2.training self = false ->
  draws_one (Network2.report ShapeBackend self local_out distal_out).
Proof.
  intros Htr. unfold Network2.report. rewrite Htr. cbn [negb].
  cbn [np_random_uniform ShapeBackend].
  apply draws_one_before; [apply draws_one_draw | intros u].
  apply (steps_bind undrawn undrawn_kept); [apply (steps_lift undrawn undrawn_kept) |].
  intros batch.
  destruct (Qltb u ((1 # 100000) * inject_Z batch)).
  - repeat first
      [ apply undrawn_print_stats
      | apply (steps_lift undrawn undrawn_kept)
      | apply (steps_bind undrawn undrawn_kept); [| intros ?] ].
  - apply (steps_ret undrawn undrawn_kept).
Qed.

Ltac undrawn_step :=
  first [ apply (steps_local_part undrawn undrawn_kept)
        | apply (steps_ResBlocks undrawn undrawn_kept)
        | apply (steps_Sequential0 undrawn undrawn_kept)
        | apply (steps_nn_call undrawn undrawn_kept)
        | apply (steps_lift undrawn undrawn_kept)
        | apply (steps_assert undrawn undrawn_kept) ].

(** X16: the random generator of NumPy and the standard output in the
    forward passes, on every input and for every choice of layers (what a
    dropout layer draws is its own).  [Network1] and the local model take no
    number from [np.random] and print nothing; so does [Network2] in
    training mode.  Outside training, [Network2] takes at most one number
    from it, and exactly one whenever the forward pass returns: every
    evaluation of a batch advances the global random state of NumPy. *)
Theorem forward_random_draws (net1 : Network1.t) (ff : FeedForwardNN.t)
  (net2 : Network2.t) (local_input : list Z * list Z) (distal_input : list Z) :
  steps silent (Network1.forward ShapeBackend net1 local_input distal_input)
  /\ steps silent
       (FeedForwardNN.forward ShapeBackend ff (fst local_input) (snd local_input))
  /\ if Network2.training net2
     then steps silent (Network2.forward ShapeBackend net2 local_input distal_input)
     else draws_one (Network2.forward ShapeBackend net2 local_input distal_input).
Proof.
  split; [| split].
  - apply (steps_Network1_forward silent silent_kept).
  - apply (steps_FeedForwardNN_forward silent silent_kept).
  - destruct (Network2.training net2) eqn:Htr.
    + apply (steps_Network2_forward silent silent_kept).
      intros local_out distal_out. unfold Network2.report. rewrite Htr.
      cbn [negb]. apply (steps_ret silent silent_kept).
    + unfold Network2.forward.
      repeat (apply draws_one_after; [undrawn_step | intros ?]).
      apply draws_one_before; [apply draws_one_report; exact Htr | intros _].
      apply (steps_lift undrawn undrawn_kept).
Qed.

Ltac walk_with HR :=
  repeat first
    [ apply (steps_ret _ HR) | apply (steps_raise _ HR) | apply (steps_lift _ HR)
    | apply (steps_assert _ HR) | apply (steps_nn_call _ HR)
    | apply (steps_Sequential0 _ HR) | apply (steps_ResBlocks _ HR)
    | apply (steps_bind _ HR); [| intros ?] ].

Lemma nn_call_emit (tr : bool) (layer : Module0) (x : list Z) :
  nn_call ShapeBackend tr layer x
  = bind (emit (Call tr layer x)) (fun _ => lift (Module0_shape tr layer x)).
Proof. reflexivity. Qed.

Lemma crop_bounds (L : Z) :
  200 < L ->
  slice_bound L (L / 2 - 100) = L / 2 - 100
  /\ slice_bound L (L / 2 + 100 + 1) = L / 2 + 101
  /\ 0 <= L / 2 - 100 /\ L / 2 + 101 <= L.
Proof.
  intros H. unfold slice_bound.
  replace (L / 2 + 100 + 1 <? 0) with false by (symmetry; apply Z.ltb_ge; arith).
  replace (L / 2 - 100 <? 0) with false by (symmetry; apply Z.ltb_ge; arith).
  repeat split; arith.
Qed.

(** X17: what the first sub-pipeline of [Network1] is given.  For a distal
    input of more than 200 positions the two bounds of the slice
    [L//2-100 : L//2+100+1] lie inside the input, so nothing is clamped or
    counted from the end: the slice is the 201 positions around index
    [L//2].  The first layer the forward pass calls is the batch
    normalisation of [conv1], and its input has these 201 positions,
    whatever the length of the whole input. *)
Theorem first_sub_pipeline_sees_201_positions (mode : bool)
  (in_channels out_channels kernel_size distal_radius distal_order : Z)
  (distal_fc_dropout : Q) (n_class : Z) (local_input : list Z * list Z)
  (batch channels L : Z) (w : shape_world) :
  200 < L ->
  slice_bound L (L / 2 - 100) = L / 2 - 100
  /\ slice_bound L (L / 2 + 100 + 1) = L / 2 + 101
  /\ 0 <= L / 2 - 100 /\ L / 2 + 101 <= L
  /\ exists rest,
       trace (snd (Network1.forward ShapeBackend
                     (Network1.set_training mode
                        (Network1.init in_channels out_channels kernel_size
                           distal_radius distal_order distal_fc_dropout n_class))
                     local_input [batch; channels; L] w))
       = trace w ++ Call mode (BatchNorm1d in_channels) [batch; channels; 201] :: rest.
Proof.
  intros HL.
  destruct (crop_bounds L HL) as [E1 [E2 [H1 H2]]].
  split; [exact E1 |]. split; [exact E2 |]. split; [exact H1 |]. split; [exact H2 |].
  unfold Network1.forward.
  cbn [Network1.training Network1.conv1 Network1.set_training Network1.init].
  erewrite bind_ok by reflexivity.
  replace (L >? 200) with true by (symmetry; apply Z.gtb_lt; exact HL).
  erewrite bind_ok by reflexivity.
  cbn [slice2 ShapeBackend slice2_shape]. rewrite slice_len_crop by exact HL.
  erewrite bind_ok by reflexivity.
  unfold Sequential0_call at 1. cbn [for_each].
  rewrite (nn_call_emit mode (BatchNorm1d in_channels) [batch; channels; 201]).
  rewrite !bind_assoc.
  erewrite bind_ok by reflexivity. cbv beta.
  match goal with
  | |- exists rest, trace (snd (?m ?w1)) = _ =>
      assert (Hrest : steps grown m)
  end.
  { walk_with grown_kept. }
  match goal with
  | |- exists rest, trace (snd (?m ?w1)) = _ => destruct (Hrest w1) as [added E]
  end.
  exists added. etransitivity; [exact E |].
  cbn [trace]. rewrite <- app_assoc. reflexivity.
Qed.

(** The default kernel size on a window of 1001 positions. *)
Lemma first_sub_pipeline_sees_201_positions_sample :
  slice_bound 1001 (1001 / 2 - 100) = 1001 / 2 - 100
  /\ slice_bound 1001 (1001 / 2 + 100 + 1) = 1001 / 2 + 101
  /\ 0 <= 1001 / 2 - 100 /\ 1001 / 2 + 101 <= 1001
  /\ exists rest,
       trace (snd (Network1.forward ShapeBackend
                     (Network1.set_training false (Network1.init 4 32 3 500 1 (1 # 4) 4))
                     ([8; 0], [8; 11]) [8; 4; 1001] fresh_world))
       = trace fresh_world ++ Call false (BatchNorm1d 4) [8; 4; 201] :: rest.
Proof.
  apply (first_sub_pipeline_sees_201_positions false 4 32 3 500 1 (1 # 4) 4
           ([8; 0], [8; 11]) 8 4 1001 fresh_world).
  lia.
Defined.

(** ** The fusion and a change of the logits by a constant *)

Section Softmax_shift.

Local Open Scope R_scope.

Lemma Rsum_exp_shift (c : R) (x : list R) :
  Rsum (map exp (map (fun v => v + c) x)) = exp c * Rsum (map exp x).
Proof.
  induction x as [| v x IH]; cbn [map Rsum fold_right].
  - lra.
  - change (fold_right Rplus 0 (map exp (map (fun v => v + c) x)))
      with (Rsum (map exp (map (fun v => v + c) x))).
    change (fold_right Rplus 0 (map exp x)) with (Rsum (map exp x)).
    rewrite IH, exp_plus. lra.
Qed.

Lemma softmax_row_shift (c : R) (x : list R) :
  softmax_row (map (fun v => v + c) x) = softmax_row x.
Proof.
  unfold softmax_row. rewrite Rsum_exp_shift, map_map.
  apply map_ext. intros v. rewrite exp_plus. unfold Rdiv.
  rewrite Rinv_mult.
  pose proof (exp_pos c) as Hc.
  replace (exp v * exp c * (/ exp c * / Rsum (map exp x)))
    with (exp v * (exp c * / exp c) * / Rsum (map exp x)) by ring.
  rewrite Rinv_r by lra. ring.
Qed.

Lemma softmax_shift_rows (c : nat -> R) (first : nat) (x : list (list R)) :
  map softmax_row (shift_rows c first x) = map softmax_row x.
Proof.
  revert first. induction x as [| row x IH]; intros first; cbn [shift_rows map].
  - reflexivity.
  - rewrite softmax_row_shift, IH. reflexivity.
Qed.

(** X18: the fused output depends on the logits of each branch only up to
    a constant per sample.  Adding to every logit of a sample one number,
    chosen freely for each branch and each sample, changes neither the
    output of [Network1] nor that of [Network2] (nor the cases in which the
    shapes do not fit and the fusion raises): the first thing the fusion
    does with the logits of a branch is their softmax. *)
Theorem fusion_ignores_constant_shifts (a b c : nat -> R)
  (local_logits distal_out distal_out2 : list (list R)) :
  Network1.fusion RealFunctional (shift_rows b 0 distal_out) (shift_rows c 0 distal_out2)
  = Network1.fusion RealFunctional distal_out distal_out2
  /\ Network2.fusion RealFunctional (shift_rows a 0 local_logits)
       (shift_rows b 0 distal_out) (shift_rows c 0 distal_out2)
     = Network2.fusion RealFunctional local_logits distal_out distal_out2.
Proof.
  split.
  - unfold Network1.fusion. cbn [F_softmax1 RealFunctional rbind].
    rewrite !softmax_shift_rows. reflexivity.
  - unfold Network2.fusion, Network2.distal_mean.
    cbn [F_softmax1 RealFunctional rbind].
    rewrite !softmax_shift_rows. reflexivity.
Qed.

End Softmax_shift.
